(** * Feelfit API client (custom_components/feelfit/api.py)

    A shallow embedding of [FeelfitApi]: the JSON values the client
    receives, the fragment of Python's dynamic semantics the client applies
    to them (truthiness, [or], [dict.get], [str], [int], [float], hashing of
    dictionary keys, exceptions), the client's mutable state and the
    transport it talks to, then each method of the class, and finally the
    properties of the fetch-and-merge engine.

    Modelling conventions.
    - A [str] is the [string] of the bytes of its UTF-8 encoding; a
      character is a byte that is no continuation byte, with the
      continuation bytes that follow it.
    - JSON numbers are integers ([VInt]) of any size or binary64 floats
      ([VFloat], [PrimFloat]), [inf] and [nan] included, as [json.loads]
      makes them.  [time.time()] and [token_expires] are floats as well.
    - Four builtins are left to the interpreter, as the operations of an
      [Interpreter] and the variable [float_of_str], about which nothing is
      assumed: [int] of a text that is not plain (not ASCII, or longer than
      640 bytes: Unicode spaces and digits, the interpreter's cap on the
      number of digits), [repr] of a text that is not ASCII, [repr] of a
      float, and [float] of a text.
    - A Python [dict] is an association list in insertion order, read by
      first match and written in place.
    - Exceptions are values of [exn]; a computation that raises keeps the
      state changes made before the raise.
    - Logging has no effect; the arguments of a log call are evaluated only
      where their evaluation can raise. *)

From Stdlib Require Import ZArith List String Ascii Bool Lia DecimalString.
From Stdlib Require Import Floats.PrimFloat Floats.SpecFloat Floats.FloatOps.
From stdpp Require Import gmap strings.

Set Warnings "-register-all".

Local Open Scope string_scope.
Local Open Scope list_scope.
Local Open Scope Z_scope.

(** ** JSON values as Python objects *)

Inductive value : Type :=
| VNone
| VBool (b : bool)
| VInt (n : Z)
| VFloat (f : float)
| VStr (s : string)
| VList (xs : list value)
| VDict (kvs : list (string * value)).

Inductive api_error : Type :=
| NotAuthenticated
| HttpError (status : Z) (text : string)
| TransportError (what : string)
| LoginFailed (payload : value).

(** The exceptions the client can meet.  [FeelfitApiError] is the class the
    module declares; the others are Python's own. *)
Inductive exn : Type :=
| FeelfitApiError (e : api_error)
| AttributeError
| TypeError
| ValueError
| KeyError
| IndexError
| OverflowError.

Inductive res (A : Type) : Type :=
| Ok (a : A)
| Raise (e : exn).
Arguments Ok {A} a.
Arguments Raise {A} e.

Definition res_bind {A B : Type} (r : res A) (f : A -> res B) : res B :=
  match r with
  | Ok a => f a
  | Raise e => Raise e
  end.

Declare Scope res_scope.
Delimit Scope res_scope with res.
Notation "x <- r ; k" := (res_bind r (fun x => k))
  (at level 100, r at next level, right associativity) : res_scope.

Definition is_ok {A : Type} (r : res A) : bool :=
  match r with Ok _ => true | Raise _ => false end.

(** [except (ValueError, TypeError)] *)
Definition is_value_or_type_error (e : exn) : bool :=
  match e with
  | ValueError | TypeError => true
  | _ => false
  end.

Definition empty_dict : value := VDict [].
Definition empty_list : value := VList [].

(** Python truth value. *)
Definition truthy (v : value) : bool :=
  match v with
  | VNone => false
  | VBool b => b
  | VInt n => negb (n =? 0)
  | VFloat f => match Prim2SF f with S754_zero _ => false | _ => true end
  | VStr s => negb (String.eqb s "")
  | VList xs => match xs with [] => false | _ => true end
  | VDict kvs => match kvs with [] => false | _ => true end
  end.

(** [a or b] when [b] is already a value. *)
Definition py_or (a b : value) : value := if truthy a then a else b.

Definition isinstance_dict (v : value) : bool :=
  match v with VDict _ => true | _ => false end.


Fixpoint dict_lookup (kvs : list (string * value)) (k : string) : option value :=
  match kvs with
  | [] => None
  | (k', v) :: rest => if String.eqb k' k then Some v else dict_lookup rest k
  end.

(** [d[k] = v] on a dict: an existing key keeps its place. *)
Fixpoint dict_set (kvs : list (string * value)) (k : string) (v : value)
  : list (string * value) :=
  match kvs with
  | [] => [(k, v)]
  | (k', v') :: rest =>
      if String.eqb k' k then (k', v) :: rest else (k', v') :: dict_set rest k v
  end.

(** [v.get(k, default)]: only a dict has the method. *)
Definition get_default (v : value) (k : string) (default : value) : res value :=
  match v with
  | VDict kvs => Ok (match dict_lookup kvs k with Some x => x | None => default end)
  | _ => Raise AttributeError
  end.

(** [v.get(k)] *)
Definition get (v : value) (k : string) : res value := get_default v k VNone.

(** [v[k] = x] with a string key: a dict takes it, every other JSON value
    raises [TypeError]. *)
Definition setitem (v : value) (k : string) (x : value) : res value :=
  match v with
  | VDict kvs => Ok (VDict (dict_set kvs k x))
  | _ => Raise TypeError
  end.

(** ** [str], [int] and [float] *)

Definition str_of_Z (n : Z) : string := NilZero.string_of_int (Z.to_int n).

Definition hex_digit (n : N) : ascii :=
  ascii_of_N (if (n <? 10)%N then 48 + n else 87 + n)%N.

(** One character of [repr] of a [str] quoted with [q]. *)
Definition repr_char (q : ascii) (c : ascii) : string :=
  let n := N_of_ascii c in
  if Ascii.eqb c q || Ascii.eqb c "\"%char then String "\"%char (String c "")
  else if (n =? 9)%N then "\t"
  else if (n =? 10)%N then "\n"
  else if (n =? 13)%N then "\r"
  else if (n <? 32)%N || (n =? 127)%N then
    String "\"%char (String "x"%char
      (String (hex_digit (n / 16)) (String (hex_digit (n mod 16)) "")))
  else String c "".

Fixpoint str_has (c : ascii) (s : string) : bool :=
  match s with
  | EmptyString => false
  | String c' rest => Ascii.eqb c' c || str_has c rest
  end.

Fixpoint concat_map_chars (f : ascii -> string) (s : string) : string :=
  match s with
  | EmptyString => ""
  | String c rest => f c +:+ concat_map_chars f rest
  end.

Definition squote : ascii := ascii_of_N 39.
Definition dquote : ascii := ascii_of_N 34.

(** [repr(s)]: single quotes unless the text has one and no double quote. *)
Definition repr_str (s : string) : string :=
  let q := if str_has squote s && negb (str_has dquote s) then dquote else squote in
  String q (concat_map_chars (repr_char q) s +:+ String q "").

Fixpoint join_with (sep : string) (parts : list string) : string :=
  match parts with
  | [] => ""
  | [p] => p
  | p :: rest => p +:+ sep +:+ join_with sep rest
  end.

(** Plain text: ASCII, and short enough for any cap the interpreter puts on
    the digits of an integer (the cap cannot be set below 640). *)
Fixpoint is_ascii_text (s : string) : bool :=
  match s with
  | EmptyString => true
  | String c rest => (N_of_ascii c <? 128)%N && is_ascii_text rest
  end.

Definition plain (s : string) : bool :=
  is_ascii_text s && (Z.of_nat (String.length s) <=? 640).

(** What is left to the interpreter: [repr] of a float, [repr] of a text
    with a character outside ASCII, and [int] of a text that is not plain
    ([None] where it raises [ValueError]). *)
Class Interpreter : Type := {
  repr_float : float -> string;
  repr_text : string -> string;
  int_of_text : string -> option Z
}.

Section Builtins.

Context {py : Interpreter}.

(** [repr(s)] for a [str] *)
Definition py_repr_str (s : string) : string :=
  if is_ascii_text s then repr_str s else repr_text s.

Fixpoint py_repr (v : value) : string :=
  match v with
  | VNone => "None"
  | VBool true => "True"
  | VBool false => "False"
  | VInt n => str_of_Z n
  | VFloat f => repr_float f
  | VStr s => py_repr_str s
  | VList xs => "[" +:+ join_with ", " (List.map py_repr xs) +:+ "]"
  | VDict kvs =>
      "{" +:+ join_with ", "
                (List.map (fun kv => py_repr_str (fst kv) +:+ ": " +:+ py_repr (snd kv))
                   kvs)
          +:+ "}"
  end.

(** [str(v)] *)
Definition py_str (v : value) : string :=
  match v with
  | VStr s => s
  | _ => py_repr v
  end.

End Builtins.

(** The characters [int] skips at both ends of an ASCII string: space and
    the controls 9 to 13. *)
Definition is_space (c : ascii) : bool :=
  let n := N_of_ascii c in
  (n =? 32)%N || ((9 <=? n)%N && (n <=? 13)%N).

Definition digit_of (c : ascii) : option Z :=
  let n := N_of_ascii c in
  if (48 <=? n)%N && (n <=? 57)%N then Some (Z.of_N n - 48) else None.

Fixpoint lstrip (s : string) : string :=
  match s with
  | String c rest => if is_space c then lstrip rest else s
  | EmptyString => ""
  end.

Fixpoint rev_string (s : string) (acc : string) : string :=
  match s with
  | EmptyString => acc
  | String c rest => rev_string rest (String c acc)
  end.

Definition strip (s : string) : string :=
  rev_string (lstrip (rev_string (lstrip s) "")) "".

(** Digits with single underscores between them, after the first digit has
    been read: [acc] is the number so far, [after_us] says that the last
    character was an underscore. *)
Fixpoint parse_digits (s : string) (acc : Z) (after_us : bool) : option Z :=
  match s with
  | EmptyString => if after_us then None else Some acc
  | String c rest =>
      match digit_of c with
      | Some d => parse_digits rest (10 * acc + d) false
      | None =>
          if Ascii.eqb c "_"%char && negb after_us then parse_digits rest acc true
          else None
      end
  end.

Definition parse_unsigned (s : string) : option Z :=
  match s with
  | EmptyString => None
  | String c rest =>
      match digit_of c with
      | Some d => parse_digits rest d false
      | None => None
      end
  end.

(** [int(s)] for a plain [str], base 10. *)
Definition int_of_str (s : string) : option Z :=
  match strip s with
  | String "-"%char rest => option_map Z.opp (parse_unsigned rest)
  | String "+"%char rest => parse_unsigned rest
  | t => parse_unsigned t
  end.

(** [int(x)] for a float: the value truncated toward zero, [OverflowError]
    for an infinity, [ValueError] for [nan]. *)
Definition int_of_float (f : float) : res Z :=
  match Prim2SF f with
  | S754_zero _ => Ok 0
  | S754_infinity _ => Raise OverflowError
  | S754_nan => Raise ValueError
  | S754_finite negative m e =>
      let a := if 0 <=? e then Z.pos m * 2 ^ e else Z.pos m / 2 ^ (- e) in
      Ok (if negative then - a else a)
  end.

Section Int.

Context {py : Interpreter}.

(** [int(v)] *)
Definition py_int (v : value) : res Z :=
  match v with
  | VBool b => Ok (if b then 1 else 0)
  | VInt n => Ok n
  | VFloat f => int_of_float f
  | VStr s =>
      match (if plain s then int_of_str s else int_of_text s) with
      | Some n => Ok n
      | None => Raise ValueError
      end
  | VNone | VList _ | VDict _ => Raise TypeError
  end.

End Int.

(** [float(n)] for an [int]: the nearest binary64, ties to even. *)
Definition float_of_Z (n : Z) : float :=
  SF2Prim (binary_normalize prec emax n 0 false).

(** ** Dictionary keys

    The device join keys dictionaries by JSON scalars and by pairs of them.
    Lists and dicts are unhashable.  A [bool], an [int] and a [float] are the
    same key when they have the same value, compared exactly ([True == 1 ==
    1.0]); every [nan] of a decoded body is the one object [json.decoder.NaN],
    which a dict finds by identity, so [nan] is the same key as [nan]. *)

Definition hashable (v : value) : bool :=
  match v with
  | VList _ | VDict _ => false
  | _ => true
  end.

(** The value of a numeric key: an integer, or [m / 2^d] with [m] odd and
    [d > 0], or an infinity, or [nan]. *)
Inductive number : Type :=
| Int (n : Z)
| Frac (m : Z) (d : nat)
| Inf (negative : bool)
| Nan.

(** [m / 2^d] in lowest terms. *)
Fixpoint lowest_terms (m : positive) (d : nat) : positive * nat :=
  match d, m with
  | S d', xO m' => lowest_terms m' d'
  | _, _ => (m, d)
  end.

Definition number_of_float (f : float) : number :=
  match Prim2SF f with
  | S754_zero _ => Int 0
  | S754_infinity negative => Inf negative
  | S754_nan => Nan
  | S754_finite negative m e =>
      let signed (a : Z) := if negative then - a else a in
      if 0 <=? e then Int (signed (Z.pos m * 2 ^ e))
      else match lowest_terms m (Z.to_nat (- e)) with
           | (m', O) => Int (signed (Z.pos m'))
           | (m', S d) => Frac (signed (Z.pos m')) (S d)
           end
  end.

Definition number_eqb (x y : number) : bool :=
  match x, y with
  | Int n, Int m => n =? m
  | Frac m d, Frac m' d' => (m =? m') && Nat.eqb d d'
  | Inf s, Inf s' => Bool.eqb s s'
  | Nan, Nan => true
  | _, _ => false
  end.

(** A hashable value as a key. *)
Inductive key : Type :=
| KNone
| KNum (x : number)
| KStr (s : string).

Definition key_of (v : value) : option key :=
  match v with
  | VNone => Some KNone
  | VBool b => Some (KNum (Int (if b then 1 else 0)))
  | VInt n => Some (KNum (Int n))
  | VFloat f => Some (KNum (number_of_float f))
  | VStr s => Some (KStr s)
  | VList _ | VDict _ => None
  end.

Definition key_eqb (a b : value) : bool :=
  match key_of a, key_of b with
  | Some KNone, Some KNone => true
  | Some (KNum x), Some (KNum y) => number_eqb x y
  | Some (KStr s), Some (KStr t) => String.eqb s t
  | _, _ => false
  end.

Definition pair_key_eqb (a b : value * value) : bool :=
  key_eqb (fst a) (fst b) && key_eqb (snd a) (snd b).

(** A dict with keys of type [K], compared by [eqb]: lookup by first match. *)
Fixpoint assoc_find {K V : Type} (eqb : K -> K -> bool) (k : K) (m : list (K * V))
  : option V :=
  match m with
  | [] => None
  | (k', v) :: rest => if eqb k' k then Some v else assoc_find eqb k rest
  end.

(** The characters of a text: each byte that is no continuation byte of
    UTF-8, with the continuation bytes that follow it. *)
Definition is_continuation (c : ascii) : bool :=
  let n := N_of_ascii c in (128 <=? n)%N && (n <? 192)%N.

Definition continues (s : string) : bool :=
  match s with
  | String c _ => is_continuation c
  | EmptyString => false
  end.

Fixpoint text_chars (s : string) : list string :=
  match s with
  | EmptyString => []
  | String c rest =>
      match text_chars rest with
      | ch :: more =>
          if continues rest then String c ch :: more
          else String c "" :: ch :: more
      | [] => [String c ""]
      end
  end.

(** [for x in v]: the items a [for] loop visits, [TypeError] when [v] is
    not iterable. *)
Definition chars_of (s : string) : list value := List.map VStr (text_chars s).

Definition iterate (v : value) : res (list value) :=
  match v with
  | VList xs => Ok xs
  | VDict kvs => Ok (List.map (fun kv => VStr (fst kv)) kvs)
  | VStr s => Ok (chars_of s)
  | VNone | VBool _ | VInt _ | VFloat _ => Raise TypeError
  end.

(** [s.split("@")[0]]: the text before the first [@]. *)
Fixpoint before_at (s : string) : string :=
  match s with
  | EmptyString => ""
  | String c rest => if Ascii.eqb c "@"%char then "" else String c (before_at rest)
  end.

(** [v.split("@")[0]]: only a [str] has the method. *)
Definition split_at_0 (v : value) : res value :=
  match v with
  | VStr s => Ok (VStr (before_at s))
  | _ => Raise AttributeError
  end.

(** [v[0]] *)
Definition getitem_0 (v : value) : res value :=
  match v with
  | VList (x :: _) => Ok x
  | VList [] => Raise IndexError
  | VStr s =>
      match text_chars s with
      | ch :: _ => Ok (VStr ch)
      | [] => Raise IndexError
      end
  | VDict _ => Raise KeyError
  | VNone | VBool _ | VInt _ | VFloat _ => Raise TypeError
  end.

(** ** const.py *)

Definition PATH_LOGIN : string := "/users/sign_in".
Definition PATH_USER_SETTINGS : string := "/user_settings/show_common_setting".
Definition PATH_GOALS : string := "/goals/list_goal".
Definition PATH_DEVICE_BINDS : string := "/device_binds/list_device_bind".
Definition PATH_MEASUREMENTS : string := "/measurements/list_measurement".
Definition PATH_GET_PRIMARY_USER : string := "/users/get_primary_user".
Definition PATH_SUB_USERS : string := "/sub_users/list_sub_user".

(** ** Client state and transport *)

(** One entry of [_last_measurements_meta]: a dict that holds at most the
    two keys the client writes. *)
Record meta : Type := mkMeta {
  last_updated_at : option Z;
  last_measurement_id : option value
}.

Definition empty_meta : meta := mkMeta None None.

(** The attributes of a [FeelfitApi] instance. *)
Record client : Type := mkClient {
  email : string;
  token : value;
  token_expires : option float;
  user_info : value;
  _last_measurements_meta : gmap string meta
}.

(** What goes on the wire.  [DEFAULT_QUERY_PARAMS] and the fixed headers
    are the same in every request and are left out; a GET carries the
    [Authorization] header [auth_header] builds, the login POST its JSON
    payload (the password field stands for its RSA ciphertext). *)
Inductive request : Type :=
| POST (path : string) (json : value)
| GET (path : string) (extra_params : list (string * string))
      (authorization : option string).

(** What the transport gives back: an HTTP answer with its status, its text
    and the outcome of decoding the text as JSON, or an exception of the
    HTTP library (timeout, connection failure). *)
Inductive decoded : Type :=
| Json (result : value)
| NotJson (what : string).

Inductive reply : Type :=
| Answer (status : Z) (text : string) (body : decoded)
| NoAnswer (what : string).

(** The client together with the requests it has attempted so far, oldest
    first. *)
Record world : Type := mkWorld {
  self : client;
  wire : list request
}.

(** A coroutine of the client: it may change the client, attempt requests,
    and return or raise. *)
Definition M (A : Type) : Type := world -> res A * world.

Definition ret {A : Type} (a : A) : M A := fun w => (Ok a, w).

Definition raise {A : Type} (e : exn) : M A := fun w => (Raise e, w).

Definition bind {A B : Type} (m : M A) (f : A -> M B) : M B :=
  fun w =>
    match m w with
    | (Ok a, w') => f a w'
    | (Raise e, w') => (Raise e, w')
    end.

Definition lift {A : Type} (r : res A) : M A := fun w => (r, w).

(** [try: m  except Exception: h] *)
Definition try_except {A : Type} (m : M A) (h : exn -> M A) : M A :=
  fun w =>
    match m w with
    | (Ok a, w') => (Ok a, w')
    | (Raise e, w') => h e w'
    end.

(** The outcome of one awaitable of [asyncio.gather(..., return_exceptions=True)]. *)
Definition caught {A : Type} (m : M A) : M (res A) :=
  fun w => let (r, w') := m w in (Ok r, w').

Definition read {A : Type} (f : client -> A) : M A :=
  fun w => (Ok (f (self w)), w).

Definition modify (f : client -> client) : M unit :=
  fun w => (Ok tt, mkWorld (f (self w)) (wire w)).

Declare Scope M_scope.
Delimit Scope M_scope with M.
Notation "x <- m ;; k" := (bind m (fun x => k))
  (at level 100, m at next level, right associativity) : M_scope.
Notation "m ;; k" := (bind m (fun _ => k))
  (at level 100, right associativity) : M_scope.

Definition set_token (t : value) (c : client) : client :=
  mkClient (email c) t (token_expires c) (user_info c) (_last_measurements_meta c).

Definition set_token_expires (t : option float) (c : client) : client :=
  mkClient (email c) (token c) t (user_info c) (_last_measurements_meta c).

Definition set_user_info (u : value) (c : client) : client :=
  mkClient (email c) (token c) (token_expires c) u (_last_measurements_meta c).

Definition set_meta (m : gmap string meta) (c : client) : client :=
  mkClient (email c) (token c) (token_expires c) (user_info c) m.

(** [FeelfitApi.__init__] *)
Definition init (email : string) : client :=
  mkClient email VNone None empty_dict ∅.

(** ** The methods of [FeelfitApi] *)

Section Api.

Context {py : Interpreter}.

(** The transport: the reply to a request, which may depend on the requests
    attempted before it. *)
Variable net : list request -> request -> reply.

(** Python's [float(s)] for a [str]: [None] where it raises [ValueError]. *)
Variable float_of_str : string -> option float.

Local Open Scope M_scope.

(** [await self._session.get(...)] or [.post(...)], with the text and the
    JSON of the answer read. *)
Definition send (rq : request) : M reply :=
  fun w => (Ok (net (wire w) rq), mkWorld (self w) (wire w ++ [rq])).

(** [float(v)] *)
Definition py_float (v : value) : res float :=
  match v with
  | VBool b => Ok (if b then 1%float else 0%float)
  | VInt n =>
      let f := float_of_Z n in
      if is_infinity f then Raise OverflowError else Ok f
  | VFloat f => Ok f
  | VStr s => match float_of_str s with Some f => Ok f | None => Raise ValueError end
  | VNone | VList _ | VDict _ => Raise TypeError
  end.

(** [_encrypt_password]: PKCS#1 v1.5 under the 1024-bit [PUBLIC_KEY] takes
    at most 128 - 11 bytes of plain text and raises [ValueError] beyond. *)
Definition _encrypt_password (password : string) : res string :=
  if (117 <? Z.of_nat (String.length password)) then Raise ValueError else Ok password.

(** [auth_header] *)
Definition auth_header (c : client) : option string :=
  if negb (truthy (token c)) then None
  else Some ("Bearer " +:+ py_str (token c)).

(** What [_get] and [async_login] make of the transport's reply: the decoded
    body of a 200 answer, [FeelfitApiError] for everything else. *)
Definition decoded_body (r : reply) : res value :=
  match r with
  | NoAnswer what => Raise (FeelfitApiError (TransportError what))
  | Answer status text body =>
      if negb (status =? 200) then Raise (FeelfitApiError (HttpError status text))
      else match body with
           | Json result => Ok result
           | NotJson what => Raise (FeelfitApiError (TransportError what))
           end
  end.

(** The envelope: [result["data"] or {}] when [result] is a dict with a
    [data] key, [result] itself otherwise. *)
Definition unwrap_data (result : value) : value :=
  match result with
  | VDict kvs =>
      match dict_lookup kvs "data" with
      | Some d => py_or d empty_dict
      | None => result
      end
  | _ => result
  end.

(** [_get] *)
Definition _get (path : string) (extra_params : list (string * string)) : M value :=
  headers <- read auth_header ;;
  r <- send (GET path extra_params headers) ;;
  result <- lift (decoded_body r) ;;
  ret (unwrap_data result).

Definition require_token : M unit :=
  t <- read token ;;
  if negb (truthy t) then raise (FeelfitApiError NotAuthenticated) else ret tt.

(** Lines 81-96 of [async_login], on the decoded answer; [now] is what
    [time.time()] returns. *)
Definition finish_login (now : float) (result : value) : M value :=
  code <- lift (get result "code") ;;
  if negb (existsb (String.eqb (py_str code)) ["200"; "0"]) then
    raise (FeelfitApiError (LoginFailed result))
  else
    d <- lift (get result "data") ;;
    let data := py_or d empty_dict in
    ti <- lift (get data "token_info") ;;
    let token_info := py_or ti empty_dict in
    tok <- lift (get token_info "token") ;;
    rt <- lift (get token_info "remaining_time") ;;
    let remaining := py_or rt (VInt 0) in
    (if truthy tok then
       modify (set_token tok) ;;
       f <- lift (py_float (py_or remaining (VInt 0))) ;;
       modify (set_token_expires (Some (now + f)%float))
     else ret tt) ;;
    ui <- lift (get data "user_info") ;;
    modify (set_user_info (py_or ui empty_dict)) ;;
    (* the debug line reads self.user_info.get("user_id") *)
    u <- read user_info ;;
    _ <- lift (get u "user_id") ;;
    ret data.

(** [async_login] *)
Definition async_login (now : float) (password : string) : M value :=
  encrypted_pw <- lift (_encrypt_password password) ;;
  e <- read email ;;
  r <- send (POST PATH_LOGIN
               (VDict [("email", VStr e); ("password", VStr encrypted_pw)])) ;;
  result <- lift (decoded_body r) ;;
  finish_login now result.

(** [async_get_primary_user] *)
Definition async_get_primary_user : M value :=
  require_token ;;
  _get PATH_GET_PRIMARY_USER [].

(** [async_get_user_settings] *)
Definition async_get_user_settings : M value :=
  require_token ;;
  _get PATH_USER_SETTINGS [].

(** [async_list_goals] *)
Definition async_list_goals (user_id : string) : M value :=
  require_token ;;
  _get PATH_GOALS [("user_id", user_id)].

(** [async_list_device_binds] *)
Definition async_list_device_binds : M value :=
  require_token ;;
  _get PATH_DEVICE_BINDS [].

(** [async_get_last_measurements] *)
Definition async_get_last_measurements (user_id : string)
    (last_updated_at last_measurement_id : Z) : M value :=
  require_token ;;
  _get PATH_MEASUREMENTS
    [("user_id", user_id);
     ("last_updated_at", str_of_Z last_updated_at);
     ("last_measurement_id", str_of_Z last_measurement_id)].

(** The expression assigned to [account_name] (lines 177-183 and 214-220).
    Python reads [a or b or c or d if e else None or p] as
    [(a or b or c or d) if e else (None or p)]. *)
Definition account_name_expr (user : value) (placeholder : string) : res value :=
  (e <- get user "email" ;
   if truthy e then
     nickname <- get user "nickname" ;
     if truthy nickname then Ok nickname else
     name <- get user "name" ;
     if truthy name then Ok name else
     username <- get user "username" ;
     if truthy username then Ok username else
     e' <- get_default user "email" (VStr "") ;
     split_at_0 e'
   else Ok (py_or VNone (VStr placeholder)))%res.

(** The body run on one profile of the directory: [is_primary] is set, then
    [account_name] when the profile has none. *)
Definition annotate_profile (user : value) (is_primary : bool) (placeholder : string)
  : res value :=
  (user1 <- setitem user "is_primary" (VBool is_primary) ;
   an <- get user1 "account_name" ;
   if negb (truthy an) then
     v <- account_name_expr user1 placeholder ;
     setitem user1 "account_name" v
   else Ok user1)%res.

(** The first [try] block of [async_list_all_profiles], after the GET. *)
Definition primary_profile (primary_data : value) : res (list value) :=
  (primary_user <- get primary_data "user_info" ;
   if truthy primary_user then
     u <- annotate_profile primary_user true "Profilo Primario" ;
     Ok [u]
   else Ok [])%res.

(** The sequence the second [try] block reads out of the sub-user answer. *)
Definition sub_users_of (sub_users_data : value) : value :=
  match sub_users_data with
  | VDict kvs =>
      let field k := match dict_lookup kvs k with Some v => v | None => VNone end in
      py_or (field "sub_users") (py_or (field "data") (py_or (field "users") empty_list))
  | VList _ => sub_users_data
  | _ => empty_list
  end.

(** [len(v)], for its [TypeError]. *)
Definition py_len (v : value) : res Z :=
  match v with
  | VStr s => Ok (Z.of_nat (List.length (text_chars s)))
  | VList xs => Ok (Z.of_nat (List.length xs))
  | VDict kvs => Ok (Z.of_nat (List.length kvs))
  | VNone | VBool _ | VInt _ | VFloat _ => Raise TypeError
  end.

(** [for idx, user in enumerate(sub_users)]: profiles appended before an
    exception stay in [profiles]. *)
Fixpoint sub_user_loop (idx : Z) (users : list value) (profiles : list value)
  : list value :=
  match users with
  | [] => profiles
  | user :: rest =>
      match annotate_profile user false ("Profilo " +:+ str_of_Z (idx + 2)) with
      | Ok u => sub_user_loop (idx + 1) rest (profiles ++ [u])
      | Raise _ => profiles
      end
  end.

Definition sub_profiles (sub_users_data : value) (profiles : list value) : list value :=
  let sub_users := sub_users_of sub_users_data in
  match py_len sub_users with
  | Raise _ => profiles
  | Ok _ =>
      match iterate sub_users with
      | Raise _ => profiles
      | Ok users => sub_user_loop 0 users profiles
      end
  end.

(** [async_list_all_profiles] *)
Definition async_list_all_profiles : M (list value) :=
  require_token ;;
  profiles <- try_except
                (primary_data <- _get PATH_GET_PRIMARY_USER [] ;;
                 lift (primary_profile primary_data))
                (fun _ => ret []) ;;
  try_except
    (sub_users_data <- _get PATH_SUB_USERS [] ;;
     ret (sub_profiles sub_users_data profiles))
    (fun _ => ret profiles).

(** *** [async_fetch_all]: one profile *)

(** The names bound at lines 288-308 for one profile. *)
Record cursor_plan : Type := mkPlan {
  profile_user_id : string;
  last_known_updated_at : Z;
  primary_ts : Z;
  request_last_updated_at : Z;
  plan_measurement_id : Z
}.

(** Lines 293-299: the profile's own [time_stamp], 0 when it is missing,
    falsy, or rejected by [int] with [ValueError] or [TypeError]; the
    [OverflowError] of an infinite float is not caught. *)
Definition primary_ts_of (profile : value) : res Z :=
  match (ts <- get profile "time_stamp" ;
         if truthy ts then py_int ts else Ok 0)%res with
  | Raise e => if is_value_or_type_error e then Ok 0 else Raise e
  | Ok n => Ok n
  end.

(** [int(last_known_meta.get("last_updated_at") or 0)] *)
Definition known_updated_at (m : meta) : Z :=
  match last_updated_at m with Some n => n | None => 0 end.

(** [last_known_meta.get("last_measurement_id", 0) or 0] *)
Definition known_measurement_id (m : meta) : value :=
  py_or (match last_measurement_id m with Some v => v | None => VInt 0 end) (VInt 0).

(** Lines 288-308. *)
Definition resolve_cursor (metas : gmap string meta) (profile : value)
  : res cursor_plan :=
  (uid <- get profile "user_id" ;
   let profile_user_id := py_str uid in
   let last_known_meta := default empty_meta (metas !! profile_user_id) in
   let last_known_updated_at := known_updated_at last_known_meta in
   primary_ts <- primary_ts_of profile ;
   let request_last_updated_at :=
     if 0 <? last_known_updated_at then last_known_updated_at
     else if 0 <? primary_ts then primary_ts
     else 0 in
   last_measurement_id <- py_int (known_measurement_id last_known_meta) ;
   Ok (mkPlan profile_user_id last_known_updated_at primary_ts
              request_last_updated_at last_measurement_id))%res.

(** Lines 334-344: what one gathered result leaves in its variable. *)
Definition gathered (r : res value) : value :=
  match r with
  | Ok v => py_or v empty_dict
  | Raise _ => empty_dict
  end.

(** [x.get("measurements") or []] *)
Definition measurements_of (measurements_data : value) : res value :=
  (l <- get measurements_data "measurements" ; Ok (py_or l empty_list))%res.

(** The test of line 347. *)
Definition retry_due (p : cursor_plan) (measurements_list : value) : bool :=
  negb (truthy measurements_list)
  && negb (primary_ts p =? 0)
  && negb (primary_ts p =? last_known_updated_at p).

(** Lines 346-360: the pair [(measurements_data, measurements_list)] after
    the fallback. *)
Definition fallback_measurements (p : cursor_plan) (measurements_data : value)
  : M (value * value) :=
  measurements_list <- lift (measurements_of measurements_data) ;;
  if retry_due p measurements_list then
    fb <- caught (async_get_last_measurements (profile_user_id p) 0 0) ;;
    match fb with
    | Raise _ => ret (measurements_data, measurements_list)
    | Ok fallback =>
        let measurements_data' := py_or fallback empty_dict in
        match measurements_of measurements_data' with
        | Ok l => ret (measurements_data', l)
        | Raise _ => ret (measurements_data', measurements_list)
        end
    end
  else ret (measurements_data, measurements_list).

(** The two values read from the response at lines 363-364. *)
Definition returned_cursor (measurements_data : value) : res (Z * value) :=
  (lu <- get measurements_data "last_updated_at" ;
   returned_last_updated_at <- py_int (py_or lu (VInt 0)) ;
   mi <- get measurements_data "last_measurement_id" ;
   Ok (returned_last_updated_at, py_or mi (VInt 0)))%res.

(** Lines 366-372 on the cursor map. *)
Definition store_cursor (pid : string) (returned : Z * value)
    (metas : gmap string meta) : gmap string meta :=
  let m0 := default empty_meta (metas !! pid) in
  let m1 := if negb (fst returned =? 0)
            then mkMeta (Some (fst returned)) (last_measurement_id m0) else m0 in
  let m2 := if truthy (snd returned)
            then mkMeta (last_updated_at m1) (Some (snd returned)) else m1 in
  <[pid := m2]> metas.

(** Lines 362-382: [ValueError] and [TypeError] are swallowed, the cursor
    then stays as it was; any other exception leaves the block. *)
Definition update_meta (pid : string) (measurements_data : value) : M unit :=
  match returned_cursor measurements_data with
  | Ok returned =>
      modify (fun c => set_meta (store_cursor pid returned (_last_measurements_meta c)) c)
  | Raise e => if is_value_or_type_error e then ret tt else raise e
  end.

(** Lines 384-395. *)
Definition profile_record (profile user_settings goals measurements_data
    measurements_list : value) : res value :=
  (last_measurement <-
     (if truthy measurements_list then getitem_0 measurements_list else Ok VNone) ;
   lu <- get measurements_data "last_updated_at" ;
   Ok (VDict
         [("user_info", profile);
          ("user_settings", user_settings);
          ("goals", goals);
          ("measurements",
            VDict [("last_measurement", last_measurement);
                   ("measurements", measurements_list);
                   ("last_updated_at", lu)])]))%res.

(** Lines 319-344: the three awaitables of [asyncio.gather], started in the
    order of the list. *)
Definition gather_profile (p : cursor_plan) : M (res value * res value * res value) :=
  r0 <- caught async_get_user_settings ;;
  r1 <- caught (async_list_goals (profile_user_id p)) ;;
  r2 <- caught (async_get_last_measurements (profile_user_id p)
                  (request_last_updated_at p) (plan_measurement_id p)) ;;
  ret (r0, r1, r2).

(** Lines 346-396 for one profile, from the gathered results on. *)
Definition finish_profile (profile : value) (p : cursor_plan)
    (results : res value * res value * res value) : M value :=
  let '(r0, r1, r2) := results in
  let user_settings := gathered r0 in
  let goals := gathered r1 in
  md_ml <- fallback_measurements p (gathered r2) ;;
  let '(measurements_data, measurements_list) := md_ml in
  update_meta (profile_user_id p) measurements_data ;;
  lift (profile_record profile user_settings goals measurements_data measurements_list).

(** The body of [for profile in profiles_to_fetch]. *)
Definition fetch_profile (profile : value) : M value :=
  metas <- read _last_measurements_meta ;;
  p <- lift (resolve_cursor metas profile) ;;
  results <- gather_profile p ;;
  finish_profile profile p results.

Fixpoint fetch_profiles (profiles_to_fetch : list value) (all_profiles_data : list value)
  : M (list value) :=
  match profiles_to_fetch with
  | [] => ret all_profiles_data
  | profile :: rest =>
      profile_data <- fetch_profile profile ;;
      fetch_profiles rest (all_profiles_data ++ [profile_data])
  end.

(** *** [async_fetch_all]: the device join *)

(** [model_by_scale_and_internal] and [model_by_scale]. *)
Record lookups : Type := mkLookups {
  model_by_scale_and_internal : list ((value * value) * value);
  model_by_scale : list (value * value)
}.

Definition no_lookups : lookups := mkLookups [] [].

(** [(x.get("scale_name"), x.get("internal_model"))] *)
Definition composite_key (x : value) : res (value * value) :=
  (s <- get x "scale_name" ; i <- get x "internal_model" ; Ok (s, i))%res.

(** Hashing a key: [TypeError] on an unhashable component. *)
Definition hash_check (k : value * value) : res unit :=
  if hashable (fst k) && hashable (snd k) then Ok tt else Raise TypeError.

(** The body of [for m in device_models] (lines 411-416). *)
Definition add_model (m : value) (l : lookups) : res lookups :=
  (key <- composite_key m ;
   _ <- hash_check key ;
   let by_pair :=
     match assoc_find pair_key_eqb key (model_by_scale_and_internal l) with
     | None => model_by_scale_and_internal l ++ [(key, m)]
     | Some _ => model_by_scale_and_internal l
     end in
   scale <- get m "scale_name" ;
   let by_scale :=
     if truthy scale then
       match assoc_find key_eqb scale (model_by_scale l) with
       | None => model_by_scale l ++ [(scale, m)]
       | Some _ => model_by_scale l
       end
     else model_by_scale l in
   Ok (mkLookups by_pair by_scale))%res.

Fixpoint build_lookups (device_models : list value) (l : lookups) : res lookups :=
  match device_models with
  | [] => Ok l
  | m :: rest => (l' <- add_model m l ; build_lookups rest l')%res
  end.

(** Lines 420-422: the lookup by composite key, [None] when the key is
    not in the dict. *)
Definition composite_match (l : lookups) (d : value) : res value :=
  (key <- composite_key d ;
   _ <- hash_check key ;
   Ok (default VNone (assoc_find pair_key_eqb key (model_by_scale_and_internal l))))%res.

(** Lines 420-424: the model matched to a binding, [None] when there is
    none. *)
Definition match_model (l : lookups) (d : value) : res value :=
  (m <- composite_match l d ;
   if negb (truthy m) then
     scale <- get_default d "scale_name" (VStr "") ;
     Ok (default VNone (assoc_find key_eqb scale (model_by_scale l)))
   else Ok m)%res.

(** Lines 425-430: the copy of the binding with what the match adds.  A
    binding that reaches [dict(d)] is a dict: its [get] has succeeded. *)
Definition merge_model (d : value) (m : value) : res value :=
  match d with
  | VDict kvs =>
      if truthy m then
        (let merged := dict_set kvs "model_info" m in
         bi <- get m "brand_info" ;
         let brand := py_or bi empty_dict in
         bn <- get brand "brand_name" ;
         if truthy bn then Ok (VDict (dict_set merged "brand_name" bn))
         else Ok (VDict merged))%res
      else Ok (VDict kvs)
  | _ => Raise TypeError
  end.

(** The body of [for d in device_binds]. *)
Definition enrich (l : lookups) (d : value) : res value :=
  (m <- match_model l d ; merge_model d m)%res.

Fixpoint enrich_all (l : lookups) (device_binds : list value) : res (list value) :=
  match device_binds with
  | [] => Ok []
  | d :: rest =>
      (merged <- enrich l d ; more <- enrich_all l rest ; Ok (merged :: more))%res
  end.

(** Lines 404-431 and the [device_binds] entry of the result. *)
Definition join_devices (device_binds_data : value) : res value :=
  (db <- get device_binds_data "device_binds" ;
   let device_binds := py_or db empty_list in
   dm <- get device_binds_data "device_models" ;
   let device_models := py_or dm empty_list in
   models <- iterate device_models ;
   l <- build_lookups models no_lookups ;
   binds <- iterate device_binds ;
   enriched_devices <- enrich_all l binds ;
   Ok (VDict [("device_binds", VList enriched_devices);
              ("device_models", device_models)]))%res.

(** *** [async_fetch_all] *)

(** [[p for p in all_profiles if str(p.get("user_id")) in selected_profiles]] *)
Fixpoint select_profiles (all_profiles : list value) (selected_profiles : list string)
  : res (list value) :=
  match all_profiles with
  | [] => Ok []
  | p :: rest =>
      (uid <- get p "user_id" ;
       more <- select_profiles rest selected_profiles ;
       Ok (if existsb (String.eqb (py_str uid)) selected_profiles
           then p :: more else more))%res
  end.

(** Lines 263-269: the directory and the primary user; an exception leaves
    what was assigned before it. *)
Definition fetch_directory : M (list value * value) :=
  try_except
    (all_profiles <- async_list_all_profiles ;;
     try_except
       (primary_data <- async_get_primary_user ;;
        (match primary_data with
         | VDict kvs =>
             match dict_lookup kvs "user_info" with
             | Some ui => modify (fun c => set_user_info (py_or ui (user_info c)) c)
             | None => ret tt
             end
         | _ => ret tt
         end) ;;
        ret (all_profiles, primary_data))
       (fun _ => ret (all_profiles, empty_dict)))
    (fun _ => ret ([], empty_dict)).

(** [async_fetch_all]; [None] and the empty list of [selected_profiles] both
    select every profile. *)
Definition async_fetch_all (user_id : string) (selected_profiles : option (list string))
  : M value :=
  require_token ;;
  dir <- fetch_directory ;;
  let '(all_profiles, primary_data) := dir in
  profiles_to_fetch <-
    match selected_profiles with
    | Some (s :: sel) => lift (select_profiles all_profiles (s :: sel))
    | _ => ret all_profiles
    end ;;
  all_profiles_data <- fetch_profiles profiles_to_fetch [] ;;
  device_binds_data <- try_except async_list_device_binds (fun _ => ret empty_dict) ;;
  devices <- lift (join_devices device_binds_data) ;;
  ret (VDict [("profiles", VList all_profiles_data);
              ("all_profiles", VList all_profiles);
              ("device_binds", devices);
              ("primary_user", py_or primary_data empty_dict)]).

End Api.


(** ** Vocabulary of the statements *)

Section Vocabulary.

Context {py : Interpreter}.

(** [v.get(k)] read off a value that is known to be a dict; [None] for a
    missing key. *)
Definition field (v : value) (k : string) : value :=
  match v with
  | VDict kvs => default VNone (dict_lookup kvs k)
  | _ => VNone
  end.

(** The request [async_login] posts. *)
Definition login_request (c : client) (password : string) : request :=
  POST PATH_LOGIN (VDict [("email", VStr (email c)); ("password", VStr password)]).

(** The test of line 81 on a decoded login answer. *)
Definition code_accepted (result : value) : bool :=
  existsb (String.eqb (py_str (field result "code"))) ["200"; "0"].

(** The shape of a login answer under which lines 85-96 run to the end:
    [data], [token_info] and [user_info] are each a mapping or falsy, and
    when a token is present [remaining_time] converts to a float. *)
Definition login_payload_ok (float_of_str : string -> option float) (result : value)
  : bool :=
  let data := py_or (field result "data") empty_dict in
  let token_info := py_or (field data "token_info") empty_dict in
  let user_info := py_or (field data "user_info") empty_dict in
  isinstance_dict data && isinstance_dict token_info && isinstance_dict user_info
  && (if truthy (field token_info "token")
      then is_ok (py_float float_of_str (py_or (field token_info "remaining_time") (VInt 0)))
      else true).

(** The truth value of a hashable value, read off its key. *)
Definition key_truthy (k : key) : bool :=
  match k with
  | KNone => false
  | KNum (Int n) => negb (n =? 0)
  | KNum _ => true
  | KStr s => negb (String.eqb s "")
  end.

(** The composite key of a model or of a binding. *)
Definition model_key (x : value) : value * value :=
  (field x "scale_name", field x "internal_model").

(** The first of [models] whose composite key equals [key]. *)
Definition first_composite (models : list value) (key : value * value) : option value :=
  List.find (fun m => pair_key_eqb (model_key m) key) models.

(** The first of [models] whose [scale_name] is non-empty and equals
    [scale]. *)
Definition first_by_scale (models : list value) (scale : value) : option value :=
  List.find (fun m => truthy (field m "scale_name")
                      && key_eqb (field m "scale_name") scale) models.

(** The model the join gives a binding: the first composite match when it is
    a non-empty record, else the first match on a non-empty [scale_name],
    else [None]. *)
Definition matched_model (models : list value) (d : value) : value :=
  let m := default VNone (first_composite models (model_key d)) in
  if truthy m then m
  else default VNone (first_by_scale models (field d "scale_name")).

(** Python's own exceptions, as opposed to the module's [FeelfitApiError]. *)
Definition python_error (e : exn) : bool :=
  match e with
  | FeelfitApiError _ => false
  | _ => true
  end.

(** What [_get] returns for a reply of the transport. *)
Definition answer_of (r : reply) : res value :=
  (result <- decoded_body r ; Ok (unwrap_data result))%res.







(** The record of one profile in the result. *)
Definition record_of (profile user_settings goals last_measurement measurements_list
    response_updated_at : value) : value :=
  VDict [("user_info", profile);
         ("user_settings", user_settings);
         ("goals", goals);
         ("measurements",
           VDict [("last_measurement", last_measurement);
                  ("measurements", measurements_list);
                  ("last_updated_at", response_updated_at)])].

(** The cursor the client holds for a profile id; the empty one when the id
    has no entry. *)
Definition cursor_of (c : client) (pid : string) : meta :=
  default empty_meta (_last_measurements_meta c !! pid).

(** Every cursor field that is set in [c] is set in [c']. *)
Definition cursor_kept (c c' : client) : Prop :=
  forall pid,
    (is_Some (last_updated_at (cursor_of c pid)) ->
     is_Some (last_updated_at (cursor_of c' pid)))
    /\ (is_Some (last_measurement_id (cursor_of c pid)) ->
        is_Some (last_measurement_id (cursor_of c' pid))).

(** No stored cursor field is zero (or otherwise falsy). *)
Definition cursor_nonzero (c : client) : Prop :=
  forall pid,
    (forall n, last_updated_at (cursor_of c pid) = Some n -> n <> 0)
    /\ (forall v, last_measurement_id (cursor_of c pid) = Some v -> truthy v = true).

(** Cursor fields are neither removed nor zeroed from [c] to [c']. *)
Definition cursor_advances (c c' : client) : Prop :=
  cursor_kept c c' /\ (cursor_nonzero c -> cursor_nonzero c').

(** A relation between the client before and the client after that is
    reflexive, transitive, and allows the two writes of a fetch cycle:
    [self.user_info = ...] and the cursor update. *)
Definition is_frame (R : client -> client -> Prop) : Prop :=
  (forall c, R c c)
  /\ (forall a b c, R a b -> R b c -> R a c)
  /\ (forall c u, R c (set_user_info u c))
  /\ (forall c pid returned,
        R c (set_meta (store_cursor pid returned (_last_measurements_meta c)) c)).

(** A coroutine that relates the client before to the client after by [R],
    whatever its outcome. *)
Definition preserves (R : client -> client -> Prop) {A : Type} (m : M A) : Prop :=
  forall w, R (self w) (self (snd (m w))).

(** A result that is not a [FeelfitApiError]. *)
Definition res_safe {A : Type} (r : res A) : Prop :=
  forall e, r <> Raise (FeelfitApiError e).

(** A coroutine that never lets a [FeelfitApiError] out. *)
Definition api_safe {A : Type} (m : M A) : Prop :=
  forall w e, fst (m w) <> Raise (FeelfitApiError e).

(** Clients that agree on what a fetch cycle reads: the token and the
    cursors. *)
Definition agree (c1 c2 : client) : Prop :=
  token c1 = token c2 /\ _last_measurements_meta c1 = _last_measurements_meta c2.

(** A coroutine whose outcome and whose effect on token and cursors depend
    on the client only through token and cursors, and not on the requests
    attempted before. *)
Definition oblivious {A : Type} (m : M A) : Prop :=
  forall w1 w2,
    agree (self w1) (self w2) ->
    fst (m w1) = fst (m w2) /\ agree (self (snd (m w1))) (self (snd (m w2))).

(** A transport whose replies do not depend on the requests attempted
    before: the same request always gets the same reply. *)
Definition unchanging (net : list request -> request -> reply) : Prop :=
  forall h1 h2 rq, net h1 rq = net h2 rq.

(** The [last_measurement] of each profile record of a result. *)
Definition last_measurements (payload : value) : list value :=
  match field payload "profiles" with
  | VList records =>
      List.map (fun r => field (field r "measurements") "last_measurement") records
  | _ => []
  end.

End Vocabulary.

(** ** Scenarios *)

(** The interpreter of the scenarios.  Their texts are plain and they hold
    no float, so that none of its operations is ever consulted. *)
Definition ascii_only : Interpreter :=
  {| repr_float := fun _ => "";
     repr_text := fun s => s;
     int_of_text := fun _ => None |}.

Definition http_ok (result : value) : reply := Answer 200 "" (Json result).

Definition envelope (data : value) : value :=
  VDict [("code", VStr "200"); ("data", data)].

(** A transport that answers every request with the same reply. *)
Definition constant_net (r : reply) : list request -> request -> reply :=
  fun _ _ => r.

(** A [float(str)] that accepts no string; the scenarios convert none. *)
Definition no_float_of_str : string -> option float := fun _ => None.

Definition fresh_world : world := mkWorld (init "user@example.org") [].

Definition signed_in_world : world :=
  mkWorld (set_token (VStr "abc") (init "user@example.org")) [].

(** Login answers. *)
Definition login_answer (token_info : value) : value :=
  VDict [("code", VStr "0");
         ("data", VDict [("token_info", token_info);
                         ("user_info", VDict [("user_id", VInt 7)])])].

Definition login_abc_3600 : value :=
  login_answer (VDict [("token", VStr "abc"); ("remaining_time", VInt 3600)]).

Definition login_abc_no_remaining : value :=
  login_answer (VDict [("token", VStr "abc")]).

Definition login_data_is_list : value :=
  VDict [("code", VStr "0"); ("data", VList [VInt 1])].

(** Device answers. *)
Definition brand (name : string) : value := VDict [("brand_name", VStr name)].

Definition device (scale internal : string) : value :=
  VDict [("scale_name", VStr scale); ("internal_model", VStr internal)].

Definition model (scale internal brand_name : string) : value :=
  VDict [("scale_name", VStr scale); ("internal_model", VStr internal);
         ("brand_info", brand brand_name)].

Definition devices_answer (binds models : list value) : value :=
  VDict [("device_binds", VList binds); ("device_models", VList models)].

(** The lookups [build_lookups] makes of a list of models that it accepts. *)
Definition lookups_of (models : list value) : lookups :=
  match build_lookups models no_lookups with
  | Ok l => l
  | Raise _ => no_lookups
  end.

Definition two_models_A : list value := [model "A" "m1" "X"; model "A" "m2" "Y"].

(** A model filed under the empty scale name, and a binding with the same
    empty scale name and another internal model. *)
Definition unnamed_scale_model : value := model "" "m1" "X".
Definition unnamed_scale_device : value := device "" "m2".

(** A transport that answers by path alone; the login POST gets no answer. *)
Definition routed_net (primary sub_users settings goals measurements devices : reply)
  : list request -> request -> reply :=
  fun _ rq =>
    match rq with
    | POST _ _ => NoAnswer "no login"
    | GET path _ _ =>
        if String.eqb path PATH_GET_PRIMARY_USER then primary
        else if String.eqb path PATH_SUB_USERS then sub_users
        else if String.eqb path PATH_USER_SETTINGS then settings
        else if String.eqb path PATH_GOALS then goals
        else if String.eqb path PATH_MEASUREMENTS then measurements
        else if String.eqb path PATH_DEVICE_BINDS then devices
        else NoAnswer "unknown path"
    end.

Definition server_error : reply := Answer 500 "Internal Server Error" (NotJson "").

(** A profile with its own time stamp, and an account that has only it. *)
Definition profile_7 : value :=
  VDict [("user_id", VInt 7); ("nickname", VStr "Bob"); ("email", VStr "bob@x.com");
         ("time_stamp", VInt 100)].

Definition primary_answer : reply :=
  http_ok (envelope (VDict [("user_info", profile_7)])).

Definition settings_answer : reply :=
  http_ok (envelope (VDict [("weight_unit", VStr "kg")])).

Definition goals_answer : reply :=
  http_ok (envelope (VDict [("goals", VList [VDict [("goal_weight", VInt 70)]])])).

Definition no_devices : reply := http_ok (envelope (devices_answer [] [])).

(** The server has no measurement for the profile. *)
Definition empty_measurements : reply :=
  http_ok (envelope (VDict [("measurements", VList [])])).




(** The server holds one measurement, stamped 500 with id 9, and the client
    already has that cursor. *)
Definition one_measurement : value :=
  VDict [("measurements", VList [VDict [("weight", VInt 70)]]);
         ("last_updated_at", VInt 500);
         ("last_measurement_id", VInt 9)].

Definition net_one_measurement : list request -> request -> reply :=
  routed_net primary_answer server_error settings_answer goals_answer
             (http_ok (envelope one_measurement)) no_devices.

Definition caught_up_world : world :=
  mkWorld (set_meta {["7" := mkMeta (Some 500) (Some (VInt 9))]}
             (set_token (VStr "abc") (init "user@example.org"))) [].


(** The measurements answer carries an id and a time stamp that is not a
    number. *)
Definition unreadable_stamp : value :=
  VDict [("measurements", VList []);
         ("last_updated_at", VStr "n/a");
         ("last_measurement_id", VInt 7)].

Definition net_unreadable_stamp : list request -> request -> reply :=
  routed_net primary_answer server_error settings_answer goals_answer
             (http_ok (envelope unreadable_stamp)) no_devices.






(** A directory whose primary profile and first sub-user have a nickname and
    no email, and whose second sub-user has only an email. *)
Definition net_nicknames : list request -> request -> reply :=
  routed_net
    (http_ok (envelope (VDict [("user_info",
                                VDict [("user_id", VInt 7); ("nickname", VStr "Bob")])])))
    (http_ok (envelope (VList [VDict [("user_id", VInt 8); ("nickname", VStr "Ann")];
                               VDict [("user_id", VInt 9); ("email", VStr "bob@x.com")]])))
    settings_answer goals_answer empty_measurements no_devices.

(** ** Vocabulary of the further properties *)

Section FurtherVocabulary.

Context {py : Interpreter}.

(** The session part of the client: what only a login writes. *)
Definition same_session (c c' : client) : Prop :=
  email c' = email c /\ token c' = token c /\ token_expires c' = token_expires c.

(** A GET that carries the [Authorization] header [auth]. *)
Definition get_bearing (auth : option string) (rq : request) : Prop :=
  exists path extra, rq = GET path extra auth.

(** A coroutine that keeps the token and whose requests are all GETs
    bearing the header of the client it starts from. *)
Definition authorized {A : Type} (m : M A) : Prop :=
  forall w,
    token (self (snd (m w))) = token (self w)
    /\ exists sent, wire (snd (m w)) = wire w ++ sent
                   /\ Forall (get_bearing (auth_header (self w))) sent.

(** The payload of a cycle that found nothing. *)
Definition empty_payload : value :=
  VDict [("profiles", VList []);
         ("all_profiles", VList []);
         ("device_binds", VDict [("device_binds", VList []); ("device_models", VList [])]);
         ("primary_user", empty_dict)].

(** A transport on which every request fails. *)
Definition unreachable (net : list request -> request -> reply) : Prop :=
  forall h rq, exists e, decoded_body (net h rq) = Raise (FeelfitApiError e).

Definition dead_net : list request -> request -> reply :=
  fun _ _ => NoAnswer "timeout".

(** A coroutine that leaves a component [g] of the client as it was,
    whatever its outcome. *)
Definition keeps {X : Type} (g : client -> X) {A : Type} (m : M A) : Prop :=
  forall w, g (self (snd (m w))) = g (self w).

(** A login answer with a token and a [remaining_time] that is no number. *)
Definition login_abc_soon : value :=
  login_answer (VDict [("token", VStr "abc"); ("remaining_time", VStr "soon")]).

(** A profile as the directory hands it out: a mapping whose [is_primary]
    is the given boolean and that has an [account_name] entry. *)
Definition annotated (is_primary : bool) (p : value) : Prop :=
  (exists kvs, p = VDict kvs /\ dict_lookup kvs "account_name" <> None)
  /\ field p "is_primary" = VBool is_primary.

(** The two requests of the directory. *)
Definition directory_requests (c : client) : list request :=
  [GET PATH_GET_PRIMARY_USER [] (auth_header c);
   GET PATH_SUB_USERS [] (auth_header c)].

(** A coroutine whose every returned value satisfies [P]. *)
Definition returns {A : Type} (m : M A) (P : A -> Prop) : Prop :=
  forall w a w', m w = (Ok a, w') -> P a.

(** The test of the selection on one profile. *)
Definition selected (selected_profiles : list string) (p : value) : bool :=
  existsb (String.eqb (py_str (field p "user_id"))) selected_profiles.

(** The profiles a cycle fetches, of the profiles of the directory. *)
Definition chosen (selected_profiles : option (list string)) (all_profiles : list value)
  : list value :=
  match selected_profiles with
  | Some (s :: sel) => List.filter (selected (s :: sel)) all_profiles
  | _ => all_profiles
  end.

(** A record of the result made for [profile]: its [last_measurement] is
    the first of its measurements, [None] when it has none. *)
Definition record_for (profile r : value) : Prop :=
  exists user_settings goals last_measurement measurements_list response_updated_at,
    r = record_of profile user_settings goals last_measurement measurements_list
          response_updated_at
    /\ (if truthy measurements_list
        then getitem_0 measurements_list = Ok last_measurement
        else last_measurement = VNone).

(** An enriched binding next to the binding it was made from: both are
    mappings, and they agree on every key the join does not write. *)
Definition extends (d merged : value) : Prop :=
  exists kvs kvs',
    d = VDict kvs /\ merged = VDict kvs'
    /\ forall k, k <> "model_info" -> k <> "brand_name" ->
                 dict_lookup kvs' k = dict_lookup kvs k.

(** The requests of a cycle that finds no profile: the directory, the
    primary user, the device bindings. *)
Definition outage_requests (c : client) : list request :=
  directory_requests c
  ++ [GET PATH_GET_PRIMARY_USER [] (auth_header c);
      GET PATH_DEVICE_BINDS [] (auth_header c)].

(** A measurements answer whose [last_measurement_id] is no number. *)
Definition unreadable_id : value :=
  VDict [("measurements", VList []);
         ("last_updated_at", VInt 500);
         ("last_measurement_id", VStr "n/a")].

End FurtherVocabulary.

(** ** sensor.py: what the sensors read from the payload *)

Section Payload.

Context {py : Interpreter}.

(** [(self.coordinator.data or {}).get("profiles") or []] *)
Definition payload_profiles (data : value) : res value :=
  (p <- get (py_or data empty_dict) "profiles" ; Ok (py_or p empty_list))%res.

(** [self._profile_user_id and
     str(profile_info.get("user_id")) == str(self._profile_user_id)] *)
Definition is_own (_profile_user_id : option string) (profile_info : value)
  : res bool :=
  match _profile_user_id with
  | Some pid =>
      if negb (String.eqb pid "")
      then (uid <- get profile_info "user_id" ; Ok (String.eqb (py_str uid) pid))%res
      else Ok false
  | None => Ok false
  end.

(** [v[i]] on a list, with Python's negative indices. *)
Definition getitem (v : value) (i : Z) : res value :=
  match v with
  | VList xs =>
      let n := Z.of_nat (List.length xs) in
      let j := if i <? 0 then i + n else i in
      if (j <? 0) || (n <=? j) then Raise IndexError
      else match List.nth_error xs (Z.to_nat j) with
           | Some x => Ok x
           | None => Raise IndexError
           end
  | VStr s =>
      let n := Z.of_nat (List.length (text_chars s)) in
      let j := if i <? 0 then i + n else i in
      if (j <? 0) || (n <=? j) then Raise IndexError
      else match List.nth_error (text_chars s) (Z.to_nat j) with
           | Some ch => Ok (VStr ch)
           | None => Raise IndexError
           end
  | VDict _ => Raise KeyError
  | VNone | VBool _ | VInt _ | VFloat _ => Raise TypeError
  end.

End Payload.

Module FeelfitUserSensor.

Section Methods.

Context {py : Interpreter}.

(** Lines 276-281: the [user_info] of the first record of the sensor's
    profile, [None] when the loop ends without a [break]. *)
Fixpoint find_user_info (_profile_user_id : option string) (profiles : list value)
  : res value :=
  match profiles with
  | [] => Ok VNone
  | profile_data :: rest =>
      (ui <- get profile_data "user_info" ;
       let profile_info := py_or ui empty_dict in
       own <- is_own _profile_user_id profile_info ;
       if own then Ok profile_info else find_user_info _profile_user_id rest)%res
  end.

(** [native_value] (lines 272-290). *)
Definition native_value (_attr_key : string) (_profile_user_id : option string)
    (data : value) : res value :=
  (profiles <- payload_profiles data ;
   items <- iterate profiles ;
   user_info <- find_user_info _profile_user_id items ;
   user_info <-
     (if negb (truthy user_info) && truthy profiles
      then (first <- getitem_0 profiles ;
            ui <- get first "user_info" ;
            Ok (py_or ui empty_dict))
      else Ok user_info) ;
   if negb (truthy user_info) then Ok VNone
   else get user_info _attr_key)%res.

End Methods.

End FeelfitUserSensor.

Module FeelfitGoalSensor.

Section Methods.

Context {py : Interpreter}.

(** [(profile_data.get("goals") or {}).get("goals") or []] *)
Definition goals_list_of (profile_data : value) : res value :=
  (goals_payload <- get profile_data "goals" ;
   gl <- get (py_or goals_payload empty_dict) "goals" ;
   Ok (py_or gl empty_list))%res.

(** The first loop of [native_value]: the goals of the first record of the
    sensor's profile, [[]] when the loop ends without a [break]. *)
Fixpoint find_goals (_profile_user_id : option string) (profiles : list value)
  : res value :=
  match profiles with
  | [] => Ok empty_list
  | profile_data :: rest =>
      (ui <- get profile_data "user_info" ;
       own <- is_own _profile_user_id (py_or ui empty_dict) ;
       if own then goals_list_of profile_data
       else find_goals _profile_user_id rest)%res
  end.

(** The second loop: the value of the first goal of the sensor's type. *)
Fixpoint goal_value (_goal_type : string) (goals_list : list value) : res value :=
  match goals_list with
  | [] => Ok VNone
  | g :: rest =>
      (t <- get g "goal_type" ;
       if match t with VStr s => String.eqb s _goal_type | _ => false end
       then get g "goal_value"
       else goal_value _goal_type rest)%res
  end.

(** [native_value] of the goal sensor. *)
Definition native_value (_goal_type : string) (_profile_user_id : option string)
    (data : value) : res value :=
  (profiles <- payload_profiles data ;
   items <- iterate profiles ;
   goals_list <- find_goals _profile_user_id items ;
   goals_list <-
     (if negb (truthy goals_list) && truthy profiles
      then (first <- getitem_0 profiles ; goals_list_of first)
      else Ok goals_list) ;
   goals <- iterate goals_list ;
   goal_value _goal_type goals)%res.

End Methods.

End FeelfitGoalSensor.

Module FeelfitDeviceSensor.

Section Methods.

Context {py : Interpreter}.

(** [native_value] of the device sensor. *)
Definition native_value (_device_index : Z) (data : value) : res value :=
  (payload <- get_default (py_or data empty_dict) "device_binds" empty_dict ;
   db <- get payload "device_binds" ;
   let device_binds := py_or db empty_list in
   n <- py_len device_binds ;
   if _device_index <? n then
     d <- getitem device_binds _device_index ;
     scale_name <- get d "scale_name" ;
     if truthy scale_name then Ok scale_name
     else internal_model <- get d "internal_model" ;
          if truthy internal_model then Ok internal_model
          else get d "mac"
   else Ok VNone)%res.

End Methods.

End FeelfitDeviceSensor.

Section SensorVocabulary.

Context {py : Interpreter}.

(** The profile a user sensor of [pid] reads among the fetched profiles:
    the first with this id, and the first of all when none has it. *)
Definition own (pid : string) (profile : value) : bool :=
  String.eqb (py_str (field profile "user_id")) pid.

Definition shown (pid : string) (profiles : list value) : option value :=
  match List.find (own pid) profiles with
  | Some p => Some p
  | None => List.head profiles
  end.

(** The name a device sensor shows for a binding. *)
Definition device_name (d : value) : value :=
  py_or (field d "scale_name") (py_or (field d "internal_model") (field d "mac")).

End SensorVocabulary.

(** Two fetched profiles: the first has a weight goal, the second has no
    goals. *)
Definition profile_8 : value := VDict [("user_id", VInt 8); ("nickname", VStr "Ann")].

Definition record_7_with_goal : value :=
  record_of profile_7 empty_dict
    (VDict [("goals", VList [VDict [("goal_type", VStr "weight");
                                    ("goal_value", VInt 70)]])])
    VNone empty_list VNone.

Definition record_8_without_goals : value :=
  record_of profile_8 empty_dict empty_dict VNone empty_list VNone.

(** A coroutine that, started with a token set, keeps a token set, only
    appends to the request log, and whose outcome and number of attempted
    requests are related by [P]. *)
Definition spends {A : Type} (m : M A) (P : res A -> nat -> Prop) : Prop :=
  forall w, truthy (token (self w)) = true ->
    truthy (token (self (snd (m w)))) = true
    /\ exists sent, wire (snd (m w)) = wire w ++ sent
                   /\ P (fst (m w)) (List.length sent).
(** * Properties *)

Section Properties.

Context {py : Interpreter}.

(** ** The monad *)

Lemma bind_ok {A B : Type} (m : M A) (f : A -> M B) (w w' : world) (a : A) :
  m w = (Ok a, w') -> bind m f w = f a w'.
Proof. intros H. unfold bind. now rewrite H. Qed.

Lemma bind_raise {A B : Type} (m : M A) (f : A -> M B) (w w' : world) (e : exn) :
  m w = (Raise e, w') -> bind m f w = (Raise e, w').
Proof. intros H. unfold bind. now rewrite H. Qed.

Lemma bind_lift {A B : Type} (r : res A) (f : A -> M B) (w : world) :
  bind (lift r) f w = match r with Ok a => f a w | Raise e => (Raise e, w) end.
Proof. unfold bind, lift. now destruct r. Qed.

Lemma bind_read {A B : Type} (g : client -> A) (f : A -> M B) (w : world) :
  bind (read g) f w = f (g (self w)) w.
Proof. reflexivity. Qed.

Lemma bind_modify {B : Type} (g : client -> client) (f : unit -> M B) (w : world) :
  bind (modify g) f w = f tt (mkWorld (g (self w)) (wire w)).
Proof. reflexivity. Qed.

Lemma bind_ret {A B : Type} (a : A) (f : A -> M B) (w : world) :
  bind (ret a) f w = f a w.
Proof. reflexivity. Qed.

Lemma bind_bind {A B C : Type} (m : M A) (f : A -> M B) (g : B -> M C) (w : world) :
  bind (bind m f) g w = bind m (fun a => bind (f a) g) w.
Proof. unfold bind. destruct (m w) as [[a|e] w']; reflexivity. Qed.

Lemma require_token_unset (w : world) :
  truthy (token (self w)) = false ->
  require_token w = (Raise (FeelfitApiError NotAuthenticated), w).
Proof.
  intros H. unfold require_token, bind, read, raise. simpl. now rewrite H.
Qed.

Lemma require_token_set (w : world) :
  truthy (token (self w)) = true -> require_token w = (Ok tt, w).
Proof.
  intros H. unfold require_token, bind, read, ret. simpl. now rewrite H.
Qed.

(** ** Authentication guard *)

(** C6.  With the session token unset or empty, each of the seven
    authenticated operations raises the not-authenticated error, attempts no
    request, and leaves the client (token, expiry, user info, cursors)
    as it was. *)
Theorem C6_unauthenticated_call_raises
    (net : list request -> request -> reply) (w : world)
    (user_id : string) (last_updated_at last_measurement_id : Z)
    (selected_profiles : option (list string)) :
  truthy (token (self w)) = false ->
  let refused {A : Type} (m : M A) :=
    m w = (Raise (FeelfitApiError NotAuthenticated), w) in
  refused (async_get_primary_user net)
  /\ refused (async_get_user_settings net)
  /\ refused (async_list_goals net user_id)
  /\ refused (async_list_device_binds net)
  /\ refused (async_list_all_profiles net)
  /\ refused (async_get_last_measurements net user_id last_updated_at last_measurement_id)
  /\ refused (async_fetch_all net user_id selected_profiles).
Proof.
  intros Htok refused. unfold refused.
  pose proof (require_token_unset w Htok) as Hreq.
  repeat split;
    first [ apply bind_raise; exact Hreq ].
Qed.

(** ** Python values *)

Lemma py_or_idem (v d : value) : py_or (py_or v d) d = py_or v d.
Proof.
  unfold py_or. destruct (truthy v) eqn:E.
  - now rewrite E.
  - now destruct (truthy d).
Qed.

Lemma get_field (kvs : list (string * value)) (k : string) :
  get (VDict kvs) k = Ok (field (VDict kvs) k).
Proof. unfold get, get_default, field. now destruct (dict_lookup kvs k). Qed.

Lemma get_not_dict (v : value) (k : string) :
  isinstance_dict v = false -> get v k = Raise AttributeError.
Proof. now destruct v. Qed.

Lemma get_dict (v : value) (k : string) :
  isinstance_dict v = true -> get v k = Ok (field v k).
Proof. destruct v; try discriminate. intros _. apply get_field. Qed.

(** ** Login *)

Section Login.

Variable net : list request -> request -> reply.
Variable float_of_str : string -> option float.

(** Up to the decoded answer, a login with a password that fits the key and
    a 200 answer that decodes runs [finish_login] on that answer. *)
Lemma async_login_answered (now : float) (password : string) (w : world)
    (text : string) (result : value) :
  (String.length password <= 117)%nat ->
  net (wire w) (login_request (self w) password) = Answer 200 text (Json result) ->
  async_login net float_of_str now password w
  = finish_login float_of_str now result
      (mkWorld (self w) (wire w ++ [login_request (self w) password])).
Proof.
  intros Hlen Hnet. unfold async_login, _encrypt_password.
  destruct (117 <? Z.of_nat (String.length password)) eqn:E.
  - apply Z.ltb_lt in E. lia.
  - unfold bind at 1. unfold lift at 1.
    unfold bind at 1. unfold read at 1.
    unfold bind at 1. unfold send at 1.
    fold (login_request (self w) password). rewrite Hnet.
    unfold bind at 1. unfold lift at 1. simpl. reflexivity.
Qed.

(** What [finish_login] does on an accepted answer of the right shape. *)
Lemma finish_login_accepted (now : float) (kvs : list (string * value)) (w : world) :
  let result := VDict kvs in
  let data := py_or (field result "data") empty_dict in
  let token_info := py_or (field data "token_info") empty_dict in
  code_accepted result = true ->
  login_payload_ok float_of_str result = true ->
  finish_login float_of_str now result w
  = (Ok data,
     let c1 :=
       if truthy (field token_info "token") then
         match py_float float_of_str (py_or (field token_info "remaining_time") (VInt 0)) with
         | Ok f => set_token_expires (Some (now + f)%float)
                     (set_token (field token_info "token") (self w))
         | Raise _ => self w
         end
       else self w in
     mkWorld (set_user_info (py_or (field data "user_info") empty_dict) c1) (wire w)).
Proof.
  intros result data token_info Hcode Hok.
  unfold login_payload_ok in Hok. fold result data token_info in Hok.
  apply andb_prop in Hok as [Hok Hfloat].
  apply andb_prop in Hok as [Hok Hui].
  apply andb_prop in Hok as [Hdata Hti].
  unfold code_accepted in Hcode.
  unfold finish_login.
  rewrite bind_lift, (get_dict result) by reflexivity.
  rewrite Hcode. cbn [negb].
  rewrite bind_lift, (get_dict result) by reflexivity. fold data.
  rewrite bind_lift, (get_dict data) by exact Hdata. fold token_info.
  rewrite bind_lift, (get_dict token_info) by exact Hti.
  rewrite bind_lift, (get_dict token_info) by exact Hti.
  rewrite py_or_idem.
  destruct (truthy (field token_info "token")) eqn:Htok.
  - destruct (py_float float_of_str (py_or (field token_info "remaining_time") (VInt 0)))
      as [f|e] eqn:Hf; [|discriminate].
    rewrite bind_bind, bind_modify, bind_bind, bind_lift, bind_modify.
    rewrite bind_lift, (get_dict data) by exact Hdata.
    rewrite bind_modify, bind_read, bind_lift. simpl user_info.
    rewrite (get_dict _) by exact Hui. reflexivity.
  - rewrite bind_ret.
    rewrite bind_lift, (get_dict data) by exact Hdata.
    rewrite bind_modify, bind_read, bind_lift. simpl user_info.
    rewrite (get_dict _) by exact Hui. reflexivity.
Qed.

Lemma py_float_error (v : value) (e : exn) :
  py_float float_of_str v = Raise e -> python_error e = true.
Proof.
  destruct v; simpl; try (intros [= <-]; reflexivity).
  - destruct (is_infinity (float_of_Z n)); intros [= <-]; reflexivity.
  - destruct (float_of_str s); intros [= <-]; reflexivity.
Qed.

(** An accepted answer of the wrong shape ends in one of Python's own
    exceptions. *)
Lemma finish_login_misshapen (now : float) (kvs : list (string * value)) (w : world) :
  let result := VDict kvs in
  code_accepted result = true ->
  login_payload_ok float_of_str result = false ->
  exists e, fst (finish_login float_of_str now result w) = Raise e
            /\ python_error e = true.
Proof.
  intros result Hcode Hbad.
  unfold login_payload_ok in Hbad.
  set (data := py_or (field result "data") empty_dict) in *.
  set (token_info := py_or (field data "token_info") empty_dict) in *.
  unfold code_accepted in Hcode.
  unfold finish_login.
  rewrite bind_lift, (get_dict result) by reflexivity.
  rewrite Hcode. cbn [negb].
  rewrite bind_lift, (get_dict result) by reflexivity. fold data.
  destruct (isinstance_dict data) eqn:Hdata.
  2:{ rewrite bind_lift, (get_not_dict data) by exact Hdata.
      exists AttributeError. now split. }
  rewrite bind_lift, (get_dict data) by exact Hdata. fold token_info.
  destruct (isinstance_dict token_info) eqn:Hti.
  2:{ rewrite bind_lift, (get_not_dict token_info) by exact Hti.
      exists AttributeError. now split. }
  rewrite bind_lift, (get_dict token_info) by exact Hti.
  rewrite bind_lift, (get_dict token_info) by exact Hti.
  rewrite py_or_idem. cbn [andb] in Hbad.
  destruct (truthy (field token_info "token")) eqn:Htok.
  - destruct (py_float float_of_str (py_or (field token_info "remaining_time") (VInt 0)))
      as [f|e] eqn:Hf.
    + rewrite bind_bind, bind_modify, bind_bind, bind_lift, bind_modify.
      rewrite bind_lift, (get_dict data) by exact Hdata.
      rewrite bind_modify, bind_read, bind_lift. simpl user_info.
      rewrite andb_true_r in Hbad.
      rewrite (get_not_dict _) by exact Hbad.
      exists AttributeError. now split.
    + rewrite bind_bind, bind_modify, bind_bind, bind_lift.
      exists e. split; [reflexivity|]. eapply py_float_error; eassumption.
  - rewrite bind_ret.
    rewrite bind_lift, (get_dict data) by exact Hdata.
    rewrite bind_modify, bind_read, bind_lift. simpl user_info.
    rewrite andb_true_r in Hbad.
    rewrite (get_not_dict _) by exact Hbad.
    exists AttributeError. now split.
Qed.

Lemma finish_login_rejected (now : float) (result : value) (w : world) :
  isinstance_dict result = true ->
  code_accepted result = false ->
  finish_login float_of_str now result w
  = (Raise (FeelfitApiError (LoginFailed result)), w).
Proof.
  intros Hd Hcode. unfold finish_login, code_accepted in *.
  rewrite bind_lift, (get_dict result) by exact Hd.
  now rewrite Hcode.
Qed.

(** C7 (amended).  Given a 200 answer whose body is a JSON object,
    [async_login] raises the module's error carrying that object exactly
    when [str] of its [code] is neither "200" nor "0".  With an accepted
    code the call returns the unwrapped [data] (an empty mapping when
    [data] is missing or falsy) provided [data], [token_info] and
    [user_info] are each a mapping or falsy and, when a token is present,
    [remaining_time] converts to a float; on any other accepted answer one
    of Python's own exceptions escapes instead. *)
Theorem C7_login_code_check (now : float) (password : string) (w : world)
    (text : string) (kvs : list (string * value)) :
  (String.length password <= 117)%nat ->
  net (wire w) (login_request (self w) password) = Answer 200 text (Json (VDict kvs)) ->
  let result := VDict kvs in
  let outcome := fst (async_login net float_of_str now password w) in
  (outcome = Raise (FeelfitApiError (LoginFailed result))
   <-> code_accepted result = false)
  /\ (code_accepted result = true ->
      login_payload_ok float_of_str result = true ->
      outcome = Ok (py_or (field result "data") empty_dict))
  /\ (code_accepted result = true ->
      login_payload_ok float_of_str result = false ->
      exists e, outcome = Raise e /\ python_error e = true).
Proof.
  intros Hlen Hnet result outcome. subst result outcome.
  rewrite (async_login_answered now password w text (VDict kvs) Hlen Hnet).
  set (w1 := mkWorld (self w) (wire w ++ [login_request (self w) password])).
  split; [split|split].
  - intros Hfail. destruct (code_accepted (VDict kvs)) eqn:Hcode; [|reflexivity].
    destruct (login_payload_ok float_of_str (VDict kvs)) eqn:Hok.
    + rewrite (finish_login_accepted now kvs w1 Hcode Hok) in Hfail. discriminate.
    + destruct (finish_login_misshapen now kvs w1 Hcode Hok) as (e & He & Hpy).
      rewrite He in Hfail. injection Hfail as ->. discriminate.
  - intros Hcode. now rewrite finish_login_rejected.
  - intros Hcode Hok. now rewrite (finish_login_accepted now kvs w1 Hcode Hok).
  - intros Hcode Hok. exact (finish_login_misshapen now kvs w1 Hcode Hok).
Qed.

(** C8 (amended).  After a login that returns, with [t] the [token] and
    [rt] the [remaining_time] of the answer's [token_info]: when [t] is
    non-empty the session token is [t] and the expiry is [now + float(rt or
    0)], so [now + r] for an integer [rt = r] and [now + 0.0] when [rt] is
    absent or zero; when [t] is absent or empty, token and expiry stay as
    they were. *)
Theorem C8_login_token_and_expiry (now : float) (password : string) (w : world)
    (text : string) (kvs : list (string * value)) (data : value) :
  (String.length password <= 117)%nat ->
  net (wire w) (login_request (self w) password) = Answer 200 text (Json (VDict kvs)) ->
  fst (async_login net float_of_str now password w) = Ok data ->
  let token_info := py_or (field data "token_info") empty_dict in
  let t := field token_info "token" in
  let rt := field token_info "remaining_time" in
  let c' := self (snd (async_login net float_of_str now password w)) in
  data = py_or (field (VDict kvs) "data") empty_dict
  /\ (truthy t = true ->
      token c' = t
      /\ (exists f, py_float float_of_str (py_or rt (VInt 0)) = Ok f
                    /\ token_expires c' = Some (now + f)%float)
      /\ (forall r, rt = VInt r -> token_expires c' = Some (now + float_of_Z r)%float)
      /\ (truthy rt = false -> token_expires c' = Some (now + 0)%float))
  /\ (truthy t = false ->
      token c' = token (self w) /\ token_expires c' = token_expires (self w)).
Proof.
  intros Hlen Hnet Hret token_info t rt c'.
  rewrite (async_login_answered now password w text (VDict kvs) Hlen Hnet) in Hret.
  unfold c'. rewrite (async_login_answered now password w text (VDict kvs) Hlen Hnet).
  set (w1 := mkWorld (self w) (wire w ++ [login_request (self w) password])) in *.
  destruct (code_accepted (VDict kvs)) eqn:Hcode.
  2:{ rewrite finish_login_rejected in Hret by easy. discriminate. }
  destruct (login_payload_ok float_of_str (VDict kvs)) eqn:Hok.
  2:{ destruct (finish_login_misshapen now kvs w1 Hcode Hok) as (e & He & _).
      rewrite He in Hret. discriminate. }
  rewrite (finish_login_accepted now kvs w1 Hcode Hok) in Hret |- *.
  cbn [fst snd self] in *.
  assert (Hdata : py_or (field (VDict kvs) "data") empty_dict = data)
    by (now injection Hret).
  clear Hret. split; [now symmetry|].
  rewrite Hdata. fold token_info. fold t rt.
  unfold login_payload_ok in Hok. rewrite Hdata in Hok. fold token_info t rt in Hok.
  split.
  - intros Ht. rewrite Ht in Hok |- *.
    apply andb_prop in Hok as [_ Hfl].
    destruct (py_float float_of_str (py_or rt (VInt 0))) as [f|e] eqn:Hf; [|discriminate].
    split; [reflexivity|]. split; [exists f; now split|]. split.
    + intros r Hr. rewrite Hr in Hf. cbn [token_expires set_user_info set_token_expires].
      unfold py_or in Hf. simpl truthy in Hf.
      destruct (r =? 0) eqn:Hr0.
      * apply Z.eqb_eq in Hr0. subst r. cbn in Hf. now injection Hf as <-.
      * cbn [negb] in Hf. unfold py_float in Hf.
        destruct (is_infinity (float_of_Z r)); [discriminate|]. now injection Hf as <-.
    + intros Hrt. unfold py_or in Hf. rewrite Hrt in Hf. cbn in Hf. now injection Hf as <-.
  - intros Ht. rewrite Ht. now split.
Qed.

End Login.

(** ** Device join *)

Lemma number_eqb_eq (x y : number) : number_eqb x y = true <-> x = y.
Proof.
  destruct x as [n|m d|s|], y as [n'|m' d'|s'|]; simpl; split;
    try discriminate; try reflexivity.
  - now intros ->%Z.eqb_eq.
  - intros [= ->]. apply Z.eqb_refl.
  - intros [->%Z.eqb_eq ->%Nat.eqb_eq]%andb_prop. reflexivity.
  - intros [= -> ->]. now rewrite Z.eqb_refl, Nat.eqb_refl.
  - now intros ->%Bool.eqb_prop.
  - intros [= ->]. now destruct s'.
Qed.

(** Two values are the same key exactly when they are hashable and have
    the same value as a key. *)
Lemma key_eqb_spec (a b : value) :
  key_eqb a b = true <-> exists k, key_of a = Some k /\ key_of b = Some k.
Proof.
  unfold key_eqb. split.
  - destruct (key_of a) as [[|x|s]|], (key_of b) as [[|y|t]|]; try discriminate.
    + intros _. now exists KNone.
    + intros ->%number_eqb_eq. now exists (KNum y).
    + intros ->%String.eqb_eq. now exists (KStr t).
  - intros (k & -> & ->). destruct k as [|x|s]; [reflexivity| |apply String.eqb_refl].
    now apply number_eqb_eq.
Qed.

Lemma key_eqb_trans (a b c : value) :
  key_eqb a b = true -> key_eqb b c = true -> key_eqb a c = true.
Proof.
  rewrite !key_eqb_spec. intros (k & Ha & Hb) (k' & Hb' & Hc).
  exists k. split; [exact Ha | congruence].
Qed.

Lemma pair_key_eqb_trans (a b c : value * value) :
  pair_key_eqb a b = true -> pair_key_eqb b c = true -> pair_key_eqb a c = true.
Proof.
  unfold pair_key_eqb. intros Hab Hbc.
  apply andb_prop in Hab as [H1 H2]. apply andb_prop in Hbc as [H3 H4].
  now rewrite (key_eqb_trans _ _ _ H1 H3), (key_eqb_trans _ _ _ H2 H4).
Qed.

Lemma key_of_truthy (v : value) (k : key) :
  key_of v = Some k -> truthy v = key_truthy k.
Proof.
  destruct v as [|b|n|f|s|xs|kvs]; simpl; try discriminate; intros [= <-]; simpl;
    try reflexivity.
  - now destruct b.
  - unfold number_of_float. destruct (Prim2SF f) as [sg|sg| |sg m e]; try reflexivity.
    assert (Hsigned : forall a : Z, 0 < a ->
              negb ((if sg then - a else a) =? 0) = true).
    { intros a Ha. apply negb_true_iff, Z.eqb_neq. destruct sg; lia. }
    destruct (0 <=? e) eqn:He.
    + symmetry. apply Hsigned. apply Z.leb_le in He.
      apply Z.mul_pos_pos; [lia | now apply Z.pow_pos_nonneg].
    + destruct (lowest_terms m (Z.to_nat (- e))) as [m' [|d']]; [|reflexivity].
      symmetry. apply Hsigned. lia.
Qed.

Lemma key_eqb_truthy (a b : value) :
  key_eqb a b = true -> truthy a = truthy b.
Proof.
  intros (k & Ha & Hb)%key_eqb_spec.
  now rewrite (key_of_truthy a k Ha), (key_of_truthy b k Hb).
Qed.

Section AssocFind.

Context {K V : Type} (eqb : K -> K -> bool).
Hypothesis eqb_trans :
  forall a b c, eqb a b = true -> eqb b c = true -> eqb a c = true.

Lemma assoc_find_app (q : K) (m1 m2 : list (K * V)) :
  assoc_find eqb q (m1 ++ m2)
  = match assoc_find eqb q m1 with
    | Some v => Some v
    | None => assoc_find eqb q m2
    end.
Proof.
  induction m1 as [|[k v] m1 IH]; simpl; [reflexivity|].
  now destruct (eqb k q).
Qed.

(** A key equal to one that is present is present too. *)
Lemma assoc_find_equal_key (a b : K) (m : list (K * V)) (v : V) :
  assoc_find eqb a m = Some v -> eqb a b = true ->
  exists v', assoc_find eqb b m = Some v'.
Proof.
  induction m as [|[k x] m IH]; simpl; [discriminate|].
  intros Hfind Hab. destruct (eqb k a) eqn:Hka.
  - rewrite (eqb_trans k a b Hka Hab). now exists x.
  - destruct (eqb k b); [now exists x | now apply IH].
Qed.

(** [if k not in m: m[k] = v], seen from a later lookup of [q]. *)
Lemma assoc_find_setdefault (k q : K) (v : V) (m : list (K * V)) :
  assoc_find eqb q (match assoc_find eqb k m with
                    | None => m ++ [(k, v)]
                    | Some _ => m
                    end)
  = match assoc_find eqb q m with
    | Some x => Some x
    | None => if eqb k q then Some v else None
    end.
Proof.
  destruct (assoc_find eqb k m) as [x|] eqn:Hk.
  - destruct (assoc_find eqb q m) as [y|] eqn:Hq; [reflexivity|].
    destruct (eqb k q) eqn:Hkq; [|reflexivity].
    destruct (assoc_find_equal_key k q m x Hk Hkq) as [v' Hv']. congruence.
  - rewrite assoc_find_app. simpl. destruct (assoc_find eqb q m); [reflexivity|].
    now destruct (eqb k q).
Qed.

End AssocFind.

Lemma composite_key_dict (x : value) :
  isinstance_dict x = true -> composite_key x = Ok (model_key x).
Proof.
  intros H. unfold composite_key, model_key.
  now rewrite !(get_dict x) by exact H.
Qed.

Lemma composite_key_ok (x : value) (k : value * value) :
  composite_key x = Ok k -> isinstance_dict x = true /\ k = model_key x.
Proof.
  destruct x; try discriminate. intros H.
  rewrite composite_key_dict in H by reflexivity. split; [reflexivity|congruence].
Qed.

(** One pass of the loop over the models, seen from later lookups. *)
Lemma add_model_lookup (m : value) (l l' : lookups) :
  add_model m l = Ok l' ->
  (forall q, assoc_find pair_key_eqb q (model_by_scale_and_internal l')
             = match assoc_find pair_key_eqb q (model_by_scale_and_internal l) with
               | Some x => Some x
               | None => if pair_key_eqb (model_key m) q then Some m else None
               end)
  /\ (forall s, assoc_find key_eqb s (model_by_scale l')
                = match assoc_find key_eqb s (model_by_scale l) with
                  | Some x => Some x
                  | None => if truthy (field m "scale_name")
                               && key_eqb (field m "scale_name") s
                            then Some m else None
                  end).
Proof.
  unfold add_model. intros H.
  destruct (composite_key m) as [key|e] eqn:Hkey; [|discriminate].
  apply composite_key_ok in Hkey as [Hd ->]. cbn [res_bind] in H.
  destruct (hash_check (model_key m)) as [[]|e]; [|discriminate]. cbn [res_bind] in H.
  rewrite (get_dict m) in H by exact Hd. cbn [res_bind] in H.
  injection H as <-. cbn [model_by_scale_and_internal model_by_scale]. split.
  - intros q. apply assoc_find_setdefault. exact pair_key_eqb_trans.
  - intros s. destruct (truthy (field m "scale_name")); cbn [andb].
    + apply assoc_find_setdefault. exact key_eqb_trans.
    + now destruct (assoc_find key_eqb s (model_by_scale l)).
Qed.

Lemma build_lookups_lookup (models : list value) :
  forall l l' : lookups,
  build_lookups models l = Ok l' ->
  (forall q, assoc_find pair_key_eqb q (model_by_scale_and_internal l')
             = match assoc_find pair_key_eqb q (model_by_scale_and_internal l) with
               | Some x => Some x
               | None => first_composite models q
               end)
  /\ (forall s, assoc_find key_eqb s (model_by_scale l')
                = match assoc_find key_eqb s (model_by_scale l) with
                  | Some x => Some x
                  | None => first_by_scale models s
                  end).
Proof.
  induction models as [|m models IH]; intros l l' H; simpl in H.
  - injection H as <-. split; intros q.
    + now destruct (assoc_find pair_key_eqb q _).
    + now destruct (assoc_find key_eqb q _).
  - destruct (add_model m l) as [l1|e] eqn:Hadd; [|discriminate]. cbn [res_bind] in H.
    destruct (add_model_lookup m l l1 Hadd) as [Hp Hs].
    destruct (IH l1 l' H) as [IHp IHs]. split.
    + intros q. rewrite IHp, Hp. unfold first_composite. simpl.
      destruct (assoc_find pair_key_eqb q (model_by_scale_and_internal l)); [reflexivity|].
      now destruct (pair_key_eqb (model_key m) q).
    + intros s. rewrite IHs, Hs. unfold first_by_scale. simpl.
      destruct (assoc_find key_eqb s (model_by_scale l)); [reflexivity|].
      now destruct (truthy (field m "scale_name") && key_eqb (field m "scale_name") s).
Qed.

(** The two dicts built from [device_models] answer like searches of the
    list from its head: the first occurrence wins. *)
Lemma lookups_first_occurrence (models : list value) (l : lookups) :
  build_lookups models no_lookups = Ok l ->
  (forall q, assoc_find pair_key_eqb q (model_by_scale_and_internal l)
             = first_composite models q)
  /\ (forall s, assoc_find key_eqb s (model_by_scale l) = first_by_scale models s).
Proof.
  intros H. destruct (build_lookups_lookup models no_lookups l H) as [Hp Hs].
  split; intros q; [rewrite Hp | rewrite Hs]; reflexivity.
Qed.

(** No model is filed under an empty [scale_name]. *)
Lemma first_by_scale_falsy (models : list value) (s : value) :
  truthy s = false -> first_by_scale models s = None.
Proof.
  intros Hs. unfold first_by_scale. induction models as [|m models IH]; simpl; [reflexivity|].
  destruct (truthy (field m "scale_name")) eqn:Ht; cbn [andb]; [|exact IH].
  destruct (key_eqb (field m "scale_name") s) eqn:He; [|exact IH].
  apply key_eqb_truthy in He. congruence.
Qed.

Lemma dict_lookup_set_same (kvs : list (string * value)) (k : string) (v : value) :
  dict_lookup (dict_set kvs k v) k = Some v.
Proof.
  induction kvs as [|[k' v'] kvs IH]; simpl.
  - now rewrite String.eqb_refl.
  - destruct (String.eqb k' k) eqn:E; simpl; now rewrite E.
Qed.

Lemma dict_lookup_set_other (kvs : list (string * value)) (k k' : string) (v : value) :
  k <> k' -> dict_lookup (dict_set kvs k v) k' = dict_lookup kvs k'.
Proof.
  intros Hne. induction kvs as [|[k0 v0] kvs IH]; simpl.
  - destruct (String.eqb k k') eqn:E; [|reflexivity].
    apply String.eqb_eq in E. contradiction.
  - destruct (String.eqb k0 k) eqn:E; simpl.
    + apply String.eqb_eq in E. subst k0.
      destruct (String.eqb k k') eqn:E'; [|reflexivity].
      apply String.eqb_eq in E'. contradiction.
    + now rewrite IH.
Qed.

Lemma build_lookups_models_are_dicts (models : list value) :
  forall l l' : lookups,
  build_lookups models l = Ok l' ->
  Forall (fun m => isinstance_dict m = true) models.
Proof.
  induction models as [|m models IH]; intros l l' H; [constructor|].
  simpl in H. destruct (add_model m l) as [l1|e] eqn:Hadd; [|discriminate].
  constructor; [|exact (IH l1 l' H)].
  unfold add_model in Hadd.
  destruct (composite_key m) as [key|e] eqn:Hkey; [|discriminate].
  now apply composite_key_ok in Hkey.
Qed.

Lemma matched_model_is_dict (models : list value) (l : lookups) (d : value) :
  build_lookups models no_lookups = Ok l ->
  truthy (matched_model models d) = true ->
  isinstance_dict (matched_model models d) = true.
Proof.
  intros Hb. pose proof (build_lookups_models_are_dicts _ _ _ Hb) as Hall.
  rewrite Forall_forall in Hall.
  assert (Hfind : forall (f : value -> bool) (o : option value),
             List.find f models = o -> truthy (default VNone o) = true ->
             isinstance_dict (default VNone o) = true).
  { intros f [m|] Hf; [|discriminate]. intros _. apply find_some in Hf as [Hin _].
    apply Hall. now apply list_elem_of_In. }
  unfold matched_model.
  destruct (truthy (default VNone (first_composite models (model_key d)))) eqn:Hc.
  - intros _. now apply (Hfind _ _ eq_refl).
  - now apply (Hfind _ _ eq_refl).
Qed.

(** The match of a binding is the declarative one. *)
Lemma match_model_spec (models : list value) (l : lookups) (d : value) :
  build_lookups models no_lookups = Ok l ->
  isinstance_dict d = true ->
  hash_check (model_key d) = Ok tt ->
  composite_match l d = Ok (default VNone (first_composite models (model_key d)))
  /\ match_model l d = Ok (matched_model models d).
Proof.
  intros Hb Hd Hh. destruct (lookups_first_occurrence models l Hb) as [Hp Hs].
  assert (Hc : composite_match l d
               = Ok (default VNone (first_composite models (model_key d)))).
  { unfold composite_match. rewrite (composite_key_dict d Hd). cbn [res_bind].
    rewrite Hh. cbn [res_bind]. now rewrite Hp. }
  split; [exact Hc|].
  unfold match_model, matched_model. rewrite Hc. cbn [res_bind].
  destruct (truthy (default VNone (first_composite models (model_key d)))) eqn:Ht;
    cbn [negb]; [reflexivity|].
  destruct d as [| | | | | |kvs]; try discriminate.
  unfold get_default, field. cbn [res_bind]. rewrite !Hs.
  destruct (dict_lookup kvs "scale_name") as [s|]; [reflexivity|].
  cbn [default]. now rewrite !first_by_scale_falsy.
Qed.

(** What the merge adds to a binding for a matched model. *)
Lemma merge_model_matched (d m : value) :
  isinstance_dict d = true ->
  truthy m = true ->
  isinstance_dict m = true ->
  let brand := py_or (field m "brand_info") empty_dict in
  let brand_name := field brand "brand_name" in
  isinstance_dict brand = true ->
  exists merged,
    merge_model d m = Ok merged
    /\ field merged "model_info" = m
    /\ (truthy brand_name = true -> field merged "brand_name" = brand_name)
    /\ (truthy brand_name = false -> field merged "brand_name" = field d "brand_name").
Proof.
  intros Hd Hm Hmd brand brand_name Hbrand.
  destruct d as [| | | | | |kvs]; try discriminate.
  unfold merge_model. rewrite Hm, (get_dict m _ Hmd). cbn [res_bind].
  fold brand. rewrite (get_dict brand _ Hbrand). cbn [res_bind]. fold brand_name.
  destruct (truthy brand_name) eqn:Hbn; eexists; (split; [reflexivity|]).
  - cbn [field]. rewrite dict_lookup_set_same.
    rewrite dict_lookup_set_other, dict_lookup_set_same by discriminate.
    repeat split; try reflexivity. discriminate.
  - cbn [field]. rewrite dict_lookup_set_same.
    rewrite dict_lookup_set_other by discriminate.
    repeat split; try reflexivity. discriminate.
Qed.

(** C4 (amended).  For models the join accepts and a binding [d] with a
    hashable composite key, the model joined to [d] is the first model with
    an equal [(scale_name, internal_model)] pair when that model is a
    non-empty record; otherwise the first model with an equal, non-empty
    [scale_name]; otherwise none, and then [d] is copied unchanged.  The
    enriched binding of a match carries the model as [model_info], and its
    brand name as [brand_name] when the model's [brand_info] has a non-empty
    one.  With bindings [{A, m1}] and models [{A, m1, X}; {A, m2, Y}] the
    binding gets brand "X". *)
Theorem C4_device_join (models : list value) (l : lookups) (d : value) :
  build_lookups models no_lookups = Ok l ->
  isinstance_dict d = true ->
  hash_check (model_key d) = Ok tt ->
  let m := matched_model models d in
  let brand := py_or (field m "brand_info") empty_dict in
  let brand_name := field brand "brand_name" in
  enrich l d = merge_model d m
  /\ (truthy m = false -> enrich l d = Ok d)
  /\ (truthy m = true -> isinstance_dict brand = true ->
      exists merged,
        enrich l d = Ok merged
        /\ field merged "model_info" = m
        /\ (truthy brand_name = true -> field merged "brand_name" = brand_name)
        /\ (truthy brand_name = false ->
            field merged "brand_name" = field d "brand_name"))
  /\ join_devices (devices_answer [device "A" "m1"] two_models_A)
     = Ok (VDict
             [("device_binds",
                VList [VDict [("scale_name", VStr "A"); ("internal_model", VStr "m1");
                              ("model_info", model "A" "m1" "X");
                              ("brand_name", VStr "X")]]);
              ("device_models", VList two_models_A)]).
Proof.
  intros Hb Hd Hh m brand brand_name.
  destruct (match_model_spec models l d Hb Hd Hh) as [_ Hmatch].
  assert (Henrich : enrich l d = merge_model d m).
  { unfold enrich. now rewrite Hmatch. }
  split; [exact Henrich|]. split; [|split].
  - intros Hm. rewrite Henrich. destruct d; try discriminate.
    unfold merge_model. now rewrite Hm.
  - intros Hm Hbrand. rewrite Henrich.
    apply merge_model_matched; try assumption.
    now apply (matched_model_is_dict models l d Hb).
  - reflexivity.
Qed.

Lemma build_lookups_scales_truthy (models : list value) :
  forall l l' : lookups,
  build_lookups models l = Ok l' ->
  Forall (fun e => truthy (fst e) = true) (model_by_scale l) ->
  Forall (fun e => truthy (fst e) = true) (model_by_scale l').
Proof.
  induction models as [|m models IH]; intros l l' H Hall; simpl in H.
  - now injection H as <-.
  - destruct (add_model m l) as [l1|e] eqn:Hadd; [|discriminate].
    apply (IH l1 l' H). unfold add_model in Hadd.
    destruct (composite_key m) as [key|e]; [|discriminate]. cbn [res_bind] in Hadd.
    destruct (hash_check key) as [[]|e]; [|discriminate]. cbn [res_bind] in Hadd.
    destruct (get m "scale_name") as [scale|e]; [|discriminate]. cbn [res_bind] in Hadd.
    injection Hadd as <-. cbn [model_by_scale].
    destruct (truthy scale) eqn:Ht; [|exact Hall].
    destruct (assoc_find key_eqb scale (model_by_scale l)); [exact Hall|].
    apply Forall_app. split; [exact Hall|]. constructor; [exact Ht|constructor].
Qed.

(** C10.  The lookup keyed by [scale_name] alone holds no model under an
    empty [scale_name]; a binding without the field is looked up under the
    empty string; so a binding whose [scale_name] is missing or empty and
    whose composite lookup finds nothing is copied as it is: the join adds
    no [model_info] and no [brand_name] to it. *)
Theorem C10_no_fallback_without_scale_name (models : list value) (l : lookups)
    (kvs : list (string * value)) :
  build_lookups models no_lookups = Ok l ->
  let d := VDict kvs in
  (forall scale m, In (scale, m) (model_by_scale l) -> truthy scale = true)
  /\ (dict_lookup kvs "scale_name" = None ->
      get_default d "scale_name" (VStr "") = Ok (VStr ""))
  /\ (truthy (field d "scale_name") = false ->
      composite_match l d = Ok VNone ->
      match_model l d = Ok VNone
      /\ enrich l d = Ok d
      /\ forall merged, enrich l d = Ok merged ->
           field merged "model_info" = field d "model_info"
           /\ field merged "brand_name" = field d "brand_name").
Proof.
  intros Hb d. destruct (lookups_first_occurrence models l Hb) as [_ Hs].
  split; [|split].
  - intros scale m Hin.
    pose proof (build_lookups_scales_truthy models no_lookups l Hb ltac:(constructor)) as Hall.
    rewrite Forall_forall in Hall. apply list_elem_of_In in Hin.
    exact (Hall (scale, m) Hin).
  - intros Habsent. unfold d, get_default. now rewrite Habsent.
  - intros Hscale Hcomp.
    assert (Hmatch : match_model l d = Ok VNone).
    { unfold match_model. rewrite Hcomp. cbn [res_bind truthy negb].
      unfold d, get_default. cbn [res_bind]. rewrite Hs.
      rewrite first_by_scale_falsy; [reflexivity|].
      unfold d, field in Hscale. now destruct (dict_lookup kvs "scale_name"). }
    assert (Henrich : enrich l d = Ok d).
    { unfold enrich. rewrite Hmatch. reflexivity. }
    split; [exact Hmatch|]. split; [exact Henrich|].
    intros merged Hm. rewrite Henrich in Hm. injection Hm as <-. now split.
Qed.

(** ** Frame rules for coroutines *)

Section Preserves.

Variable R : client -> client -> Prop.
Hypothesis R_frame : is_frame R.

Let R_refl := proj1 R_frame.
Let R_trans := proj1 (proj2 R_frame).
Let R_user_info := proj1 (proj2 (proj2 R_frame)).
Let R_store_cursor := proj2 (proj2 (proj2 R_frame)).

Lemma preserves_ret {A : Type} (a : A) : preserves R (ret a).
Proof. intros w. apply R_refl. Qed.

Lemma preserves_raise {A : Type} (e : exn) : preserves R (@raise A e).
Proof. intros w. apply R_refl. Qed.

Lemma preserves_lift {A : Type} (r : res A) : preserves R (lift r).
Proof. intros w. apply R_refl. Qed.

Lemma preserves_read {A : Type} (g : client -> A) : preserves R (read g).
Proof. intros w. apply R_refl. Qed.

Lemma preserves_send (net : list request -> request -> reply) (rq : request) :
  preserves R (send net rq).
Proof. intros w. apply R_refl. Qed.

Lemma preserves_modify (g : client -> client) :
  (forall c, R c (g c)) -> preserves R (modify g).
Proof. intros H w. apply H. Qed.

Lemma preserves_bind {A B : Type} (m : M A) (f : A -> M B) :
  preserves R m -> (forall a, preserves R (f a)) -> preserves R (bind m f).
Proof.
  intros Hm Hf w. unfold bind. specialize (Hm w).
  destruct (m w) as [[a|e] w']; cbn [snd] in *; [|exact Hm].
  eapply R_trans; [exact Hm | apply Hf].
Qed.

Lemma preserves_try_except {A : Type} (m : M A) (h : exn -> M A) :
  preserves R m -> (forall e, preserves R (h e)) -> preserves R (try_except m h).
Proof.
  intros Hm Hh w. unfold try_except. specialize (Hm w).
  destruct (m w) as [[a|e] w']; cbn [snd] in *; [exact Hm|].
  eapply R_trans; [exact Hm | apply Hh].
Qed.

Lemma preserves_caught {A : Type} (m : M A) :
  preserves R m -> preserves R (caught m).
Proof.
  intros Hm w. unfold caught. specialize (Hm w). now destruct (m w).
Qed.

(** One step of a frame proof: the rule for the head of the coroutine, with
    a case split where the coroutine branches on a value. *)
Ltac frame_step :=
  lazymatch goal with
  | |- preserves _ (bind _ _) => apply preserves_bind; [|intros ?]
  | |- preserves _ (try_except _ _) => apply preserves_try_except; [|intros ?]
  | |- preserves _ (caught _) => apply preserves_caught
  | |- preserves _ (ret _) => apply preserves_ret
  | |- preserves _ (raise _) => apply preserves_raise
  | |- preserves _ (lift _) => apply preserves_lift
  | |- preserves _ (read _) => apply preserves_read
  | |- preserves _ (send _ _) => apply preserves_send
  | |- preserves _ (match ?x with _ => _ end) => destruct x
  | |- preserves _ (let (_, _) := ?x in _) => destruct x
  end.

Ltac frame := repeat frame_step.

Variable net : list request -> request -> reply.

Lemma preserves_get (path : string) (extra : list (string * string)) :
  preserves R (_get net path extra).
Proof. unfold _get. frame. Qed.

Lemma preserves_require_token : preserves R require_token.
Proof. unfold require_token. frame. Qed.

Hint Resolve preserves_get preserves_require_token : core.

Lemma preserves_get_primary_user : preserves R (async_get_primary_user net).
Proof. unfold async_get_primary_user. frame; auto. Qed.

Lemma preserves_get_user_settings : preserves R (async_get_user_settings net).
Proof. unfold async_get_user_settings. frame; auto. Qed.

Lemma preserves_list_goals (uid : string) : preserves R (async_list_goals net uid).
Proof. unfold async_list_goals. frame; auto. Qed.

Lemma preserves_list_device_binds : preserves R (async_list_device_binds net).
Proof. unfold async_list_device_binds. frame; auto. Qed.

Lemma preserves_get_last_measurements (uid : string) (lu mid : Z) :
  preserves R (async_get_last_measurements net uid lu mid).
Proof. unfold async_get_last_measurements. frame; auto. Qed.

Lemma preserves_list_all_profiles : preserves R (async_list_all_profiles net).
Proof. unfold async_list_all_profiles. frame; auto. Qed.

Hint Resolve preserves_get_primary_user preserves_get_user_settings
  preserves_list_goals preserves_list_device_binds
  preserves_get_last_measurements preserves_list_all_profiles : core.

Lemma preserves_update_meta (pid : string) (md : value) :
  preserves R (update_meta pid md).
Proof.
  unfold update_meta. frame.
  apply preserves_modify. intros c. apply R_store_cursor.
Qed.

Lemma preserves_fetch_profile (profile : value) :
  preserves R (fetch_profile net profile).
Proof.
  unfold fetch_profile, gather_profile, finish_profile, fallback_measurements.
  frame; auto using preserves_update_meta.
Qed.

Lemma preserves_fetch_profiles (ps : list value) :
  forall acc, preserves R (fetch_profiles net ps acc).
Proof.
  induction ps as [|p ps IH]; intros acc; simpl; frame; auto using preserves_fetch_profile.
Qed.

Lemma preserves_fetch_directory : preserves R (fetch_directory net).
Proof.
  unfold fetch_directory. frame; auto.
  apply preserves_modify. intros c. apply R_user_info.
Qed.

Lemma preserves_fetch_all (uid : string) (sel : option (list string)) :
  preserves R (async_fetch_all net uid sel).
Proof.
  unfold async_fetch_all.
  frame; auto using preserves_fetch_directory, preserves_fetch_profiles.
Qed.

End Preserves.

(** ** Cursor update *)

Lemma token_is_frame : is_frame (fun c c' => token c = token c').
Proof. repeat split; intros; simpl; congruence. Qed.

Lemma cursor_of_store_same (c : client) (pid : string) (returned : Z * value) :
  cursor_of (set_meta (store_cursor pid returned (_last_measurements_meta c)) c) pid
  = mkMeta (if negb (fst returned =? 0) then Some (fst returned)
            else last_updated_at (cursor_of c pid))
           (if truthy (snd returned) then Some (snd returned)
            else last_measurement_id (cursor_of c pid)).
Proof.
  unfold cursor_of, store_cursor. cbn [_last_measurements_meta set_meta].
  rewrite lookup_insert_eq. cbn [default].
  destruct (default empty_meta (_last_measurements_meta c !! pid)) as [lu mi].
  destruct (negb (fst returned =? 0)), (truthy (snd returned)); reflexivity.
Qed.

Lemma cursor_of_store_other (c : client) (pid pid' : string) (returned : Z * value) :
  pid <> pid' ->
  cursor_of (set_meta (store_cursor pid returned (_last_measurements_meta c)) c) pid'
  = cursor_of c pid'.
Proof.
  intros Hne. unfold cursor_of, store_cursor. cbn [_last_measurements_meta set_meta].
  now rewrite lookup_insert_ne.
Qed.

Lemma cursor_advances_store (c : client) (pid : string) (returned : Z * value) :
  cursor_advances c (set_meta (store_cursor pid returned (_last_measurements_meta c)) c).
Proof.
  split.
  - intros pid'. destruct (decide (pid = pid')) as [<-|Hne].
    + rewrite cursor_of_store_same. cbn [last_updated_at last_measurement_id].
      split; intros Hs.
      * destruct (negb (fst returned =? 0)); [now eexists | exact Hs].
      * destruct (truthy (snd returned)); [now eexists | exact Hs].
    + now rewrite cursor_of_store_other.
  - intros Hnz pid'. destruct (decide (pid = pid')) as [<-|Hne].
    + rewrite cursor_of_store_same. cbn [last_updated_at last_measurement_id].
      destruct (Hnz pid) as [Hlu Hmi]. split.
      * intros n. destruct (fst returned =? 0) eqn:E; cbn [negb].
        -- apply Hlu.
        -- intros [= <-]. now apply Z.eqb_neq.
      * intros v. destruct (truthy (snd returned)) eqn:E.
        -- now intros [= <-].
        -- apply Hmi.
    + rewrite cursor_of_store_other by exact Hne. apply Hnz.
Qed.

Lemma cursor_is_frame : is_frame cursor_advances.
Proof.
  split; [|split; [|split]].
  - intros c. split; [|easy]. intros pid. now split.
  - intros a b c [Hab Hab'] [Hbc Hbc']. split; [|auto].
    intros pid. destruct (Hab pid), (Hbc pid). split; auto.
  - intros c u. split; [|easy]. intros pid. now split.
  - intros c pid returned. apply cursor_advances_store.
Qed.

(** The values lines 363-364 read from a response that is a mapping. *)
Lemma returned_cursor_dict (md : value) :
  isinstance_dict md = true ->
  returned_cursor md
  = res_bind (py_int (py_or (field md "last_updated_at") (VInt 0)))
      (fun n => Ok (n, py_or (field md "last_measurement_id") (VInt 0))).
Proof.
  intros Hd. unfold returned_cursor. rewrite (get_dict md _ Hd). cbn [res_bind].
  destruct (py_int _); cbn [res_bind]; [|reflexivity].
  now rewrite (get_dict md _ Hd).
Qed.

(** [int] raises [TypeError], [ValueError], or [OverflowError] for an
    infinite float. *)
Lemma py_int_error (v : value) (e : exn) :
  py_int v = Raise e -> e = ValueError \/ e = TypeError \/ e = OverflowError.
Proof.
  destruct v as [|b|n|f|s|xs|kvs]; simpl; try discriminate;
    try (intros [= <-]; tauto).
  - unfold int_of_float. destruct (Prim2SF f); try discriminate; intros [= <-]; tauto.
  - destruct (if plain s then int_of_str s else int_of_text s); [discriminate|].
    intros [= <-]. tauto.
Qed.

(** C2 (amended).  After the measurements call for profile [pid] answered
    the mapping [md]: when [int] accepts the response's [last_updated_at]
    (absent and falsy count as 0) with value [n], the stored
    [last_updated_at] becomes [n] if [n] is not 0 and stays as it was
    otherwise, and independently the stored [last_measurement_id] becomes
    the response's when that is non-zero and stays as it was otherwise;
    when [int] rejects the response's [last_updated_at], neither field
    changes.  Other profiles' cursors are untouched.  Over a whole fetch
    cycle, whatever its outcome, no cursor field that was set is removed,
    and none becomes zero. *)
Theorem C2_cursor_update (net : list request -> request -> reply)
    (pid : string) (md : value) (w : world)
    (user_id : string) (selected_profiles : option (list string)) :
  isinstance_dict md = true ->
  let c := self w in
  let c' := self (snd (update_meta pid md w)) in
  let response_id := field md "last_measurement_id" in
  (forall n, py_int (py_or (field md "last_updated_at") (VInt 0)) = Ok n ->
     last_updated_at (cursor_of c' pid)
     = (if n =? 0 then last_updated_at (cursor_of c pid) else Some n)
     /\ last_measurement_id (cursor_of c' pid)
        = (if truthy response_id then Some response_id
           else last_measurement_id (cursor_of c pid)))
  /\ (forall e, py_int (py_or (field md "last_updated_at") (VInt 0)) = Raise e ->
        _last_measurements_meta c' = _last_measurements_meta c)
  /\ (forall pid', pid <> pid' -> cursor_of c' pid' = cursor_of c pid')
  /\ cursor_advances c (self (snd (async_fetch_all net user_id selected_profiles w))).
Proof.
  intros Hd c c' response_id. subst c c'. unfold update_meta.
  rewrite (returned_cursor_dict md Hd).
  split; [|split; [|split]].
  - intros n Hn. rewrite Hn. cbn [res_bind]. unfold modify. cbn [snd self].
    rewrite cursor_of_store_same. cbn [fst snd last_updated_at last_measurement_id].
    split.
    + now destruct (n =? 0).
    + fold response_id. unfold py_or.
      destruct (truthy response_id) eqn:Ht; [now rewrite Ht|reflexivity].
  - intros e He. rewrite He. cbn [res_bind].
    now destruct (is_value_or_type_error e).
  - intros pid' Hne.
    destruct (py_int (py_or (field md "last_updated_at") (VInt 0))) as [n|e] eqn:Hn;
      cbn [res_bind].
    + unfold modify. cbn [snd self]. now rewrite cursor_of_store_other.
    + now destruct (is_value_or_type_error e).
  - apply (preserves_fetch_all cursor_advances cursor_is_frame).
Qed.

(** ** One profile of a fetch cycle *)

Section Profile.

Variable net : list request -> request -> reply.

Lemma get_run (path : string) (extra : list (string * string)) (w : world) :
  _get net path extra w
  = (answer_of (net (wire w) (GET path extra (auth_header (self w)))),
     mkWorld (self w) (wire w ++ [GET path extra (auth_header (self w))])).
Proof.
  unfold _get, answer_of. rewrite bind_read. unfold bind, send, lift, ret.
  now destruct (decoded_body _).
Qed.








(** Lines 362-382 on a mapping: the cursor is stored when [int] reads the
    response's [last_updated_at], the update is skipped when [int] raises
    [ValueError] or [TypeError], and any other exception of [int]
    ([OverflowError], for an infinite float) is not caught. *)
Lemma update_meta_run (pid : string) (md : value) (w : world) :
  isinstance_dict md = true ->
  update_meta pid md w
  = match py_int (py_or (field md "last_updated_at") (VInt 0)) with
    | Ok n =>
        (Ok tt,
         mkWorld (set_meta (store_cursor pid
                              (n, py_or (field md "last_measurement_id") (VInt 0))
                              (_last_measurements_meta (self w))) (self w))
                 (wire w))
    | Raise e => if is_value_or_type_error e then (Ok tt, w) else (Raise e, w)
    end.
Proof.
  intros Hd. unfold update_meta. rewrite (returned_cursor_dict md Hd).
  destruct (py_int _) as [n|e]; cbn [res_bind]; [reflexivity|].
  now destruct (is_value_or_type_error e).
Qed.


Lemma update_meta_overflow (pid : string) (md : value) (w : world) :
  isinstance_dict md = true ->
  py_int (py_or (field md "last_updated_at") (VInt 0)) = Raise OverflowError ->
  update_meta pid md w = (Raise OverflowError, w).
Proof. intros Hd Ho. now rewrite (update_meta_run pid md w Hd), Ho. Qed.





End Profile.

(** ** Sub-request failures stay inside the profile *)




Lemma res_safe_get_default (v : value) (k : string) (d : value) :
  res_safe (get_default v k d).
Proof. destruct v; intros e H; simpl in H; discriminate. Qed.

Lemma res_safe_get (v : value) (k : string) : res_safe (get v k).
Proof. apply res_safe_get_default. Qed.








Lemma api_safe_ret {A : Type} (a : A) : api_safe (ret a).
Proof. intros w e. discriminate. Qed.

Lemma api_safe_lift {A : Type} (r : res A) : res_safe r -> api_safe (lift r).
Proof. intros H w e. apply H. Qed.

Lemma api_safe_read {A : Type} (g : client -> A) : api_safe (read g).
Proof. intros w e. discriminate. Qed.

Lemma api_safe_modify (g : client -> client) : api_safe (modify g).
Proof. intros w e. discriminate. Qed.


Lemma api_safe_bind {A B : Type} (m : M A) (f : A -> M B) :
  api_safe m -> (forall a, api_safe (f a)) -> api_safe (bind m f).
Proof.
  intros Hm Hf w e. unfold bind. specialize (Hm w).
  destruct (m w) as [[a|e'] w']; [apply Hf|].
  cbn [fst] in *. intros [= ->]. exact (Hm e eq_refl).
Qed.












Section Isolation.

Variable net : list request -> request -> reply.









End Isolation.

(** ** Two cycles against an unchanged server *)

Section Oblivious.

Variable net : list request -> request -> reply.
Hypothesis net_unchanging : unchanging net.

Lemma oblivious_ret {A : Type} (a : A) : oblivious (ret a).
Proof. intros w1 w2 H. now split. Qed.

Lemma oblivious_raise {A : Type} (e : exn) : oblivious (@raise A e).
Proof. intros w1 w2 H. now split. Qed.

Lemma oblivious_lift {A : Type} (r : res A) : oblivious (lift r).
Proof. intros w1 w2 H. now split. Qed.

Lemma oblivious_read {A : Type} (g : client -> A) :
  (forall c1 c2, agree c1 c2 -> g c1 = g c2) -> oblivious (read g).
Proof. intros Hg w1 w2 H. split; [|exact H]. cbn. f_equal. now apply Hg. Qed.

Lemma oblivious_modify (g : client -> client) :
  (forall c1 c2, agree c1 c2 -> agree (g c1) (g c2)) -> oblivious (modify g).
Proof. intros Hg w1 w2 H. split; [reflexivity|]. now apply Hg. Qed.

Lemma oblivious_send (rq : request) : oblivious (send net rq).
Proof.
  intros w1 w2 H. split; [|exact H]. cbn. f_equal. apply net_unchanging.
Qed.

Lemma oblivious_bind {A B : Type} (m : M A) (f : A -> M B) :
  oblivious m -> (forall a, oblivious (f a)) -> oblivious (bind m f).
Proof.
  intros Hm Hf w1 w2 H. unfold bind. destruct (Hm w1 w2 H) as [Heq Hag].
  destruct (m w1) as [[a1|e1] w1'], (m w2) as [[a2|e2] w2']; cbn [fst snd] in *;
    try discriminate.
  - injection Heq as ->. now apply Hf.
  - injection Heq as ->. now split.
Qed.

Lemma oblivious_try_except {A : Type} (m : M A) (h : exn -> M A) :
  oblivious m -> (forall e, oblivious (h e)) -> oblivious (try_except m h).
Proof.
  intros Hm Hh w1 w2 H. unfold try_except. destruct (Hm w1 w2 H) as [Heq Hag].
  destruct (m w1) as [[a1|e1] w1'], (m w2) as [[a2|e2] w2']; cbn [fst snd] in *;
    try discriminate.
  - now split.
  - injection Heq as ->. now apply Hh.
Qed.

Lemma oblivious_caught {A : Type} (m : M A) : oblivious m -> oblivious (caught m).
Proof.
  intros Hm w1 w2 H. unfold caught. destruct (Hm w1 w2 H) as [Heq Hag].
  destruct (m w1) as [r1 w1'], (m w2) as [r2 w2']; cbn [fst snd] in *.
  split; [now f_equal | exact Hag].
Qed.

Lemma agree_token (c1 c2 : client) : agree c1 c2 -> token c1 = token c2.
Proof. now intros [H _]. Qed.

Lemma agree_auth_header (c1 c2 : client) :
  agree c1 c2 -> auth_header c1 = auth_header c2.
Proof. intros [H _]. unfold auth_header. now rewrite H. Qed.

Lemma agree_meta (c1 c2 : client) :
  agree c1 c2 -> _last_measurements_meta c1 = _last_measurements_meta c2.
Proof. now intros [_ H]. Qed.

(** One step of a proof that a coroutine is oblivious. *)
Ltac oblivious_step :=
  lazymatch goal with
  | |- oblivious (bind _ _) => apply oblivious_bind; [|intros ?]
  | |- oblivious (try_except _ _) => apply oblivious_try_except; [|intros ?]
  | |- oblivious (caught _) => apply oblivious_caught
  | |- oblivious (ret _) => apply oblivious_ret
  | |- oblivious (raise _) => apply oblivious_raise
  | |- oblivious (lift _) => apply oblivious_lift
  | |- oblivious (read token) => apply oblivious_read, agree_token
  | |- oblivious (read auth_header) => apply oblivious_read, agree_auth_header
  | |- oblivious (read _last_measurements_meta) => apply oblivious_read, agree_meta
  | |- oblivious (send _ _) => apply oblivious_send
  | |- oblivious (match ?x with _ => _ end) => destruct x
  | |- oblivious (let (_, _) := ?x in _) => destruct x
  end.

Ltac oblivious_tac := repeat oblivious_step.

Lemma oblivious_get (path : string) (extra : list (string * string)) :
  oblivious (_get net path extra).
Proof. unfold _get. oblivious_tac. Qed.

Lemma oblivious_require_token : oblivious require_token.
Proof. unfold require_token. oblivious_tac. Qed.

Hint Resolve oblivious_get oblivious_require_token : core.

Lemma oblivious_get_primary_user : oblivious (async_get_primary_user net).
Proof. unfold async_get_primary_user. oblivious_tac; auto. Qed.

Lemma oblivious_get_user_settings : oblivious (async_get_user_settings net).
Proof. unfold async_get_user_settings. oblivious_tac; auto. Qed.

Lemma oblivious_list_goals (uid : string) : oblivious (async_list_goals net uid).
Proof. unfold async_list_goals. oblivious_tac; auto. Qed.

Lemma oblivious_list_device_binds : oblivious (async_list_device_binds net).
Proof. unfold async_list_device_binds. oblivious_tac; auto. Qed.

Lemma oblivious_get_last_measurements (uid : string) (lu mid : Z) :
  oblivious (async_get_last_measurements net uid lu mid).
Proof. unfold async_get_last_measurements. oblivious_tac; auto. Qed.

Lemma oblivious_list_all_profiles : oblivious (async_list_all_profiles net).
Proof. unfold async_list_all_profiles. oblivious_tac; auto. Qed.

Hint Resolve oblivious_get_primary_user oblivious_get_user_settings
  oblivious_list_goals oblivious_list_device_binds
  oblivious_get_last_measurements oblivious_list_all_profiles : core.

Lemma oblivious_update_meta (pid : string) (md : value) :
  oblivious (update_meta pid md).
Proof.
  unfold update_meta. oblivious_tac.
  apply oblivious_modify. intros c1 c2 [Ht Hm]. split; cbn; [exact Ht|].
  now rewrite Hm.
Qed.

Lemma oblivious_fetch_profile (profile : value) :
  oblivious (fetch_profile net profile).
Proof.
  unfold fetch_profile, gather_profile, finish_profile, fallback_measurements.
  oblivious_tac; auto using oblivious_update_meta.
Qed.

Lemma oblivious_fetch_profiles (ps : list value) :
  forall acc, oblivious (fetch_profiles net ps acc).
Proof.
  induction ps as [|p ps IH]; intros acc; simpl; oblivious_tac;
    auto using oblivious_fetch_profile.
Qed.

Lemma oblivious_fetch_directory : oblivious (fetch_directory net).
Proof.
  unfold fetch_directory. oblivious_tac; auto.
  apply oblivious_modify. intros c1 c2 [Ht Hm]. now split.
Qed.

Lemma oblivious_fetch_all (uid : string) (sel : option (list string)) :
  oblivious (async_fetch_all net uid sel).
Proof.
  unfold async_fetch_all.
  oblivious_tac; auto using oblivious_fetch_directory, oblivious_fetch_profiles.
Qed.

End Oblivious.

(** C9.  Against a transport whose replies depend on the request alone, a
    fetch cycle that leaves the cursors as it found them is repeated by the
    next cycle: the second cycle has the same outcome as the first, so the
    same [last_measurement] for every profile. *)
Theorem C9_unchanged_cycle_repeats (net : list request -> request -> reply)
    (user_id : string) (selected_profiles : option (list string)) (w : world) :
  unchanging net ->
  let first := async_fetch_all net user_id selected_profiles w in
  _last_measurements_meta (self (snd first)) = _last_measurements_meta (self w) ->
  let second := async_fetch_all net user_id selected_profiles (snd first) in
  fst second = fst first
  /\ (forall payload1 payload2,
        fst first = Ok payload1 -> fst second = Ok payload2 ->
        last_measurements payload2 = last_measurements payload1).
Proof.
  intros Hnet first Hmeta second.
  assert (Hagree : agree (self (snd first)) (self w)).
  { split; [|exact Hmeta]. symmetry.
    exact (preserves_fetch_all _ token_is_frame net user_id selected_profiles w). }
  destruct (oblivious_fetch_all net Hnet user_id selected_profiles _ _ Hagree)
    as [Hsame _].
  split; [exact Hsame|].
  intros payload1 payload2 H1 H2. fold first second in Hsame. congruence.
Qed.

(** ** Account names *)

(** Without an email the placeholder is taken, whatever the nickname, name
    and username are. *)
Lemma account_name_without_email (kvs : list (string * value)) (placeholder : string) :
  truthy (field (VDict kvs) "email") = false ->
  account_name_expr (VDict kvs) placeholder = Ok (VStr placeholder).
Proof.
  intros H. unfold account_name_expr. rewrite get_field. cbn [res_bind].
  now rewrite H.
Qed.

(** With an email the chain nickname, name, username, local part of the
    email applies. *)
Lemma account_name_with_email (kvs : list (string * value)) (placeholder : string) :
  let user := VDict kvs in
  truthy (field user "email") = true ->
  account_name_expr user placeholder
  = if truthy (field user "nickname") then Ok (field user "nickname")
    else if truthy (field user "name") then Ok (field user "name")
    else if truthy (field user "username") then Ok (field user "username")
    else split_at_0 (field user "email").
Proof.
  intros user H. subst user. unfold account_name_expr.
  rewrite get_field. cbn [res_bind]. rewrite H.
  rewrite get_field. cbn [res_bind].
  destruct (truthy (field (VDict kvs) "nickname")); [reflexivity|].
  rewrite get_field. cbn [res_bind].
  destruct (truthy (field (VDict kvs) "name")); [reflexivity|].
  rewrite get_field. cbn [res_bind].
  destruct (truthy (field (VDict kvs) "username")); [reflexivity|].
  unfold get_default, field in *. cbn [res_bind].
  destruct (dict_lookup kvs "email"); [reflexivity|discriminate].
Qed.

(** C3 (the code departs from the claim).  A profile with a nickname, name
    and username but no email is given the placeholder, not its nickname;
    in the directory of [net_nicknames] the primary profile "Bob" becomes
    "Profilo Primario" and the sub-user "Ann" becomes "Profilo 2", while
    the sub-user with only the email "bob@x.com" becomes "bob". *)
Theorem C3_nickname_lost_without_email (nickname name username : value)
    (placeholder : string) :
  account_name_expr
    (VDict [("nickname", nickname); ("name", name); ("username", username)])
    placeholder
  = Ok (VStr placeholder)
  /\ List.map (fun p => field p "account_name")
       (match fst (async_list_all_profiles net_nicknames signed_in_world) with
        | Ok profiles => profiles
        | Raise _ => []
        end)
     = [VStr "Profilo Primario"; VStr "Profilo 2"; VStr "bob"].
Proof.
  split.
  - now apply account_name_without_email.
  - vm_compute. reflexivity.
Qed.

(** * Further properties of the client *)

(** ** Requests *)


Lemma same_session_is_frame : is_frame same_session.
Proof.
  unfold same_session. repeat split; intros; cbn; try reflexivity;
    try (destruct H as (? & ? & ?), H0 as (? & ? & ?); congruence).
Qed.

Lemma auth_header_token (c c' : client) :
  token c' = token c -> auth_header c' = auth_header c.
Proof. intros H. unfold auth_header. now rewrite H. Qed.

Section Authorized.

Variable net : list request -> request -> reply.

Lemma authorized_quiet {A : Type} (m : M A) :
  (forall w, snd (m w) = w) -> authorized m.
Proof.
  intros H w. rewrite H. split; [reflexivity|].
  exists []. split; [now rewrite app_nil_r | constructor].
Qed.

Lemma authorized_ret {A : Type} (a : A) : authorized (ret a).
Proof. now apply authorized_quiet. Qed.

Lemma authorized_raise {A : Type} (e : exn) : authorized (@raise A e).
Proof. now apply authorized_quiet. Qed.

Lemma authorized_lift {A : Type} (r : res A) : authorized (lift r).
Proof. now apply authorized_quiet. Qed.

Lemma authorized_read {A : Type} (g : client -> A) : authorized (read g).
Proof. now apply authorized_quiet. Qed.

Lemma authorized_modify (g : client -> client) :
  (forall c, token (g c) = token c) -> authorized (modify g).
Proof.
  intros H w. cbn. split; [apply H|].
  exists []. split; [now rewrite app_nil_r | constructor].
Qed.

Lemma authorized_bind {A B : Type} (m : M A) (f : A -> M B) :
  authorized m -> (forall a, authorized (f a)) -> authorized (bind m f).
Proof.
  intros Hm Hf w. unfold bind. destruct (Hm w) as (Ht & l1 & Hw & Hl1).
  destruct (m w) as [[a|e] w1]; cbn [snd] in *.
  - destruct (Hf a w1) as (Ht2 & l2 & Hw2 & Hl2). split; [congruence|].
    exists (l1 ++ l2). split.
    + now rewrite Hw2, Hw, app_assoc.
    + apply Forall_app. split; [exact Hl1|].
      now rewrite <- (auth_header_token _ _ Ht).
  - split; [exact Ht|]. now exists l1.
Qed.

Lemma authorized_try_except {A : Type} (m : M A) (h : exn -> M A) :
  authorized m -> (forall e, authorized (h e)) -> authorized (try_except m h).
Proof.
  intros Hm Hh w. unfold try_except. destruct (Hm w) as (Ht & l1 & Hw & Hl1).
  destruct (m w) as [[a|e] w1]; cbn [snd] in *.
  - split; [exact Ht|]. now exists l1.
  - destruct (Hh e w1) as (Ht2 & l2 & Hw2 & Hl2). split; [congruence|].
    exists (l1 ++ l2). split.
    + now rewrite Hw2, Hw, app_assoc.
    + apply Forall_app. split; [exact Hl1|].
      now rewrite <- (auth_header_token _ _ Ht).
Qed.

Lemma authorized_caught {A : Type} (m : M A) : authorized m -> authorized (caught m).
Proof.
  intros Hm w. unfold caught. specialize (Hm w). now destruct (m w).
Qed.

Lemma authorized_get (path : string) (extra : list (string * string)) :
  authorized (_get net path extra).
Proof.
  intros w. rewrite get_run. cbn [snd self wire]. split; [reflexivity|].
  eexists. split; [reflexivity|]. constructor; [|constructor].
  now exists path, extra.
Qed.

Lemma authorized_require_token : authorized require_token.
Proof.
  apply authorized_quiet. intros w. unfold require_token, bind, read, raise, ret.
  cbn. now destruct (negb _).
Qed.

(** One step of a proof that a coroutine is authorized. *)
Ltac authorized_step :=
  lazymatch goal with
  | |- authorized (bind _ _) => apply authorized_bind; [|intros ?]
  | |- authorized (try_except _ _) => apply authorized_try_except; [|intros ?]
  | |- authorized (caught _) => apply authorized_caught
  | |- authorized (ret _) => apply authorized_ret
  | |- authorized (raise _) => apply authorized_raise
  | |- authorized (lift _) => apply authorized_lift
  | |- authorized (read _) => apply authorized_read
  | |- authorized (_get _ _ _) => apply authorized_get
  | |- authorized require_token => apply authorized_require_token
  | |- authorized (modify _) => apply authorized_modify; intros ?; reflexivity
  | |- authorized (match ?x with _ => _ end) => destruct x
  | |- authorized (let (_, _) := ?x in _) => destruct x
  end.

Ltac authorized_tac := repeat authorized_step.

Lemma authorized_fetch_profile (profile : value) :
  authorized (fetch_profile net profile).
Proof.
  unfold fetch_profile, gather_profile, finish_profile, fallback_measurements,
    update_meta, async_get_user_settings, async_list_goals,
    async_get_last_measurements.
  authorized_tac.
Qed.

Lemma authorized_fetch_profiles (ps : list value) :
  forall acc, authorized (fetch_profiles net ps acc).
Proof.
  induction ps as [|p ps IH]; intros acc; simpl.
  - apply authorized_ret.
  - apply authorized_bind; [apply authorized_fetch_profile | intros r; apply IH].
Qed.

Lemma authorized_fetch_all (uid : string) (sel : option (list string)) :
  authorized (async_fetch_all net uid sel).
Proof.
  unfold async_fetch_all, fetch_directory, async_list_all_profiles,
    async_get_primary_user, async_list_device_binds.
  repeat first [ apply authorized_fetch_profiles | authorized_step ].
Qed.

(** X2.  Whatever its outcome, a fetch cycle posts nothing: every request
    it attempts is a GET that carries the [Authorization] header of the
    token the cycle started with.  It leaves email, token and token expiry
    as they were. *)
Theorem X2_cycle_requests_bear_the_token (user_id : string)
    (selected_profiles : option (list string)) (w : world) :
  let w' := snd (async_fetch_all net user_id selected_profiles w) in
  same_session (self w) (self w')
  /\ exists sent,
       wire w' = wire w ++ sent
       /\ Forall (get_bearing (auth_header (self w))) sent.
Proof.
  intros w'. split.
  - exact (preserves_fetch_all same_session same_session_is_frame net
             user_id selected_profiles w).
  - exact (proj2 (authorized_fetch_all user_id selected_profiles w)).
Qed.

End Authorized.

(** ** Login *)

Section Keeps.

Context {X : Type} (g : client -> X).

Lemma keeps_quiet {A : Type} (m : M A) :
  (forall w, self (snd (m w)) = self w) -> keeps g m.
Proof. intros H w. now rewrite H. Qed.

Lemma keeps_bind {A B : Type} (m : M A) (f : A -> M B) :
  keeps g m -> (forall a, keeps g (f a)) -> keeps g (bind m f).
Proof.
  intros Hm Hf w. unfold bind. specialize (Hm w).
  destruct (m w) as [[a|e] w1]; cbn [snd] in *; [|exact Hm].
  now rewrite Hf.
Qed.

Lemma keeps_modify (h : client -> client) :
  (forall c, g (h c) = g c) -> keeps g (modify h).
Proof. intros H w. apply H. Qed.

End Keeps.

Section LoginMore.

Variable net : list request -> request -> reply.
Variable float_of_str : string -> option float.

Lemma res_safe_py_float (v : value) : res_safe (py_float float_of_str v).
Proof.
  intros e H. apply py_float_error in H. discriminate.
Qed.

(** The only [FeelfitApiError] of lines 81-96 is the rejected code, raised
    before anything is written. *)
Lemma finish_login_api_error (now : float) (result : value) (w w' : world)
    (e : api_error) :
  finish_login float_of_str now result w = (Raise (FeelfitApiError e), w') ->
  w' = w /\ e = LoginFailed result /\ code_accepted result = false.
Proof.
  unfold finish_login. rewrite bind_lift.
  destruct (get result "code") as [code|e0] eqn:Hcode.
  2:{ intros [= -> <-]. exfalso. exact (res_safe_get result "code" e Hcode). }
  assert (Hfield : code = field result "code").
  { destruct result; try discriminate. rewrite get_field in Hcode. congruence. }
  unfold code_accepted. rewrite <- Hfield.
  destruct (existsb _ _); cbn [negb].
  - intros H. exfalso. revert H.
    match goal with |- ?m w = _ -> _ =>
      assert (Hsafe : api_safe m) end.
    { repeat first
        [ apply api_safe_bind; [|intros ?]
        | apply api_safe_lift, res_safe_get
        | apply api_safe_lift, res_safe_py_float
        | apply api_safe_modify | apply api_safe_read | apply api_safe_ret
        | match goal with |- api_safe (if ?b then _ else _) => destruct b end ]. }
    intros H. apply (Hsafe w e). now rewrite H.
  - unfold raise. intros [= <- <-]. now repeat split.
Qed.

(** [async_login] up to the decoded answer. *)
Lemma async_login_run (now : float) (password : string) (w : world) :
  async_login net float_of_str now password w
  = if 117 <? Z.of_nat (String.length password) then (Raise ValueError, w)
    else
      let w1 := mkWorld (self w) (wire w ++ [login_request (self w) password]) in
      match decoded_body (net (wire w) (login_request (self w) password)) with
      | Ok result => finish_login float_of_str now result w1
      | Raise e => (Raise e, w1)
      end.
Proof.
  unfold async_login, _encrypt_password.
  destruct (117 <? Z.of_nat (String.length password)); [reflexivity|].
  rewrite bind_lift, bind_read. unfold bind at 1. unfold send at 1.
  fold (login_request (self w) password). rewrite bind_lift.
  now destruct (decoded_body _).
Qed.

(** X3.  A login that ends in [FeelfitApiError] - no answer, a status other
    than 200, a body that is not JSON, or a rejected code - has attempted
    the one POST and leaves every attribute of the client as it was. *)
Theorem X3_failed_login_changes_nothing (now : float) (password : string)
    (w : world) (e : api_error) :
  let run := async_login net float_of_str now password w in
  fst run = Raise (FeelfitApiError e) ->
  self (snd run) = self w
  /\ wire (snd run) = wire w ++ [login_request (self w) password].
Proof.
  intros run. unfold run. rewrite async_login_run.
  destruct (117 <? Z.of_nat (String.length password)); [discriminate|].
  cbv zeta. destruct (decoded_body _) as [result|e0].
  - destruct (finish_login float_of_str now result _) as [r w'] eqn:Hfin.
    cbn [fst snd]. intros ->. apply finish_login_api_error in Hfin as (-> & _).
    now split.
  - cbn. intros _. now split.
Qed.

Lemma keeps_finish_login {X : Type} (g : client -> X) (now : float) (result : value) :
  (forall t c, g (set_token t c) = g c) ->
  (forall t c, g (set_token_expires t c) = g c) ->
  (forall u c, g (set_user_info u c) = g c) ->
  keeps g (finish_login float_of_str now result).
Proof.
  intros H1 H2 H3. unfold finish_login.
  repeat first
    [ apply keeps_bind; [|intros ?]
    | apply keeps_modify; intros ?; solve [apply H1 | apply H2 | apply H3]
    | apply keeps_quiet; intros ?; reflexivity
    | match goal with |- keeps _ (if ?b then _ else _) => destruct b end ].
Qed.

(** X4.  Whatever its outcome, a login leaves the measurement cursors and
    the email of the client as they were, and attempts at most the one
    POST: none when the password exceeds what the key can encrypt (the call
    then raises [ValueError]), exactly one otherwise. *)
Theorem X4_login_keeps_cursors (now : float) (password : string) (w : world) :
  let run := async_login net float_of_str now password w in
  _last_measurements_meta (self (snd run)) = _last_measurements_meta (self w)
  /\ email (self (snd run)) = email (self w)
  /\ wire (snd run)
     = wire w ++ (if (117 <? Z.of_nat (String.length password))
                  then [] else [login_request (self w) password])
  /\ ((117 < Z.of_nat (String.length password)) ->
      run = (Raise ValueError, w)).
Proof.
  intros run. unfold run. rewrite async_login_run.
  destruct (117 <? Z.of_nat (String.length password)) eqn:Hlen.
  - cbn. rewrite app_nil_r. now repeat split.
  - cbv zeta.
    set (w1 := mkWorld (self w) (wire w ++ [login_request (self w) password])).
    destruct (decoded_body _) as [result|e0].
    + pose proof (keeps_finish_login _last_measurements_meta now result
                    ltac:(reflexivity) ltac:(reflexivity) ltac:(reflexivity) w1) as Hm.
      pose proof (keeps_finish_login email now result
                    ltac:(reflexivity) ltac:(reflexivity) ltac:(reflexivity) w1) as He.
      assert (Hw : wire (snd (finish_login float_of_str now result w1)) = wire w1).
      { clear. unfold finish_login.
        repeat first
          [ rewrite bind_lift | rewrite bind_modify | rewrite bind_read
          | rewrite bind_ret | rewrite bind_bind
          | match goal with
            | |- context [match ?r with Ok _ => _ | Raise _ => _ end] =>
                destruct r
            | |- context [if ?b then _ else _] => destruct b
            end ]; reflexivity. }
      repeat split; try assumption. apply Z.ltb_ge in Hlen. lia.
    + cbn. repeat split. apply Z.ltb_ge in Hlen. lia.
Qed.

(** X5.  When the answer passes the code check and carries a token but its
    [remaining_time] does not convert to a float, the login raises the
    conversion's exception after having replaced the session token: the
    token is the new one, while expiry and user info are still the old
    ones. *)
Theorem X5_login_replaces_token_before_failing (now : float) (password : string)
    (w : world) (text : string) (kvs : list (string * value)) (e : exn) :
  (String.length password <= 117)%nat ->
  net (wire w) (login_request (self w) password) = Answer 200 text (Json (VDict kvs)) ->
  let data := py_or (field (VDict kvs) "data") empty_dict in
  let token_info := py_or (field data "token_info") empty_dict in
  code_accepted (VDict kvs) = true ->
  isinstance_dict data = true ->
  isinstance_dict token_info = true ->
  truthy (field token_info "token") = true ->
  py_float float_of_str (py_or (field token_info "remaining_time") (VInt 0)) = Raise e ->
  let run := async_login net float_of_str now password w in
  fst run = Raise e
  /\ token (self (snd run)) = field token_info "token"
  /\ token_expires (self (snd run)) = token_expires (self w)
  /\ user_info (self (snd run)) = user_info (self w).
Proof.
  intros Hlen Hnet data token_info Hcode Hdata Hti Htok Hfloat run.
  unfold run. rewrite (async_login_answered net float_of_str now password w text
                         (VDict kvs) Hlen Hnet).
  unfold code_accepted in Hcode. unfold finish_login.
  rewrite bind_lift, (get_dict (VDict kvs)) by reflexivity.
  rewrite Hcode. cbn [negb].
  rewrite bind_lift, (get_dict (VDict kvs)) by reflexivity. fold data.
  rewrite bind_lift, (get_dict data) by exact Hdata. fold token_info.
  rewrite bind_lift, (get_dict token_info) by exact Hti.
  rewrite bind_lift, (get_dict token_info) by exact Hti.
  rewrite py_or_idem, Htok.
  rewrite bind_bind, bind_modify, bind_bind, bind_lift, Hfloat.
  now repeat split.
Qed.

End LoginMore.

(** ** Profile directory *)

Lemma field_set_same (kvs : list (string * value)) (k : string) (v : value) :
  field (VDict (dict_set kvs k v)) k = v.
Proof. unfold field. now rewrite dict_lookup_set_same. Qed.

Lemma field_set_other (kvs : list (string * value)) (k k' : string) (v : value) :
  k <> k' -> field (VDict (dict_set kvs k v)) k' = field (VDict kvs) k'.
Proof. intros H. unfold field. now rewrite dict_lookup_set_other. Qed.

(** What [annotate_profile] returns, spelled out on a mapping. *)
Lemma annotate_profile_dict (kvs : list (string * value)) (is_primary : bool)
    (placeholder : string) :
  let user1 := VDict (dict_set kvs "is_primary" (VBool is_primary)) in
  annotate_profile (VDict kvs) is_primary placeholder
  = if truthy (field (VDict kvs) "account_name") then Ok user1
    else res_bind (account_name_expr user1 placeholder)
           (fun v => Ok (VDict (dict_set (dict_set kvs "is_primary" (VBool is_primary))
                                  "account_name" v))).
Proof.
  intros user1. unfold annotate_profile, setitem. cbn [res_bind]. fold user1.
  unfold user1 at 1. rewrite get_field, field_set_other by discriminate.
  cbn [res_bind]. destruct (truthy (field (VDict kvs) "account_name")); cbn [negb];
    [reflexivity|].
  now destruct (account_name_expr user1 placeholder).
Qed.

Lemma annotate_profile_only_dicts (user : value) (is_primary : bool)
    (placeholder : string) (u : value) :
  annotate_profile user is_primary placeholder = Ok u ->
  exists kvs, user = VDict kvs.
Proof. destruct user; try discriminate. now eexists. Qed.

Lemma annotate_profile_facts (kvs : list (string * value))
    (is_primary : bool) (placeholder : string) (u : value) :
  annotate_profile (VDict kvs) is_primary placeholder = Ok u ->
  let user := VDict kvs in
  annotated is_primary u
  /\ (forall k, k <> "is_primary" -> k <> "account_name" -> field u k = field user k)
  /\ (truthy (field user "account_name") = true ->
      field u "account_name" = field user "account_name")
  /\ (placeholder <> "" -> truthy (field u "account_name") = false ->
      truthy (field user "nickname") = false
      /\ truthy (field user "name") = false
      /\ truthy (field user "username") = false
      /\ exists s, field user "email" = VStr s /\ s <> "" /\ before_at s = "").
Proof.
  intros H user. rewrite annotate_profile_dict in H.
  set (kvs1 := dict_set kvs "is_primary" (VBool is_primary)) in *.
  assert (Hother : forall k, k <> "is_primary" -> field (VDict kvs1) k = field user k).
  { intros k Hk. unfold kvs1. rewrite field_set_other; [reflexivity|congruence]. }
  destruct (truthy (field (VDict kvs) "account_name")) eqn:Han.
  - injection H as <-. split; [split|split; [|split]].
    + exists kvs1. split; [reflexivity|]. unfold kvs1.
      rewrite dict_lookup_set_other by discriminate.
      unfold field in Han. destruct (dict_lookup kvs "account_name"); [easy|discriminate].
    + apply field_set_same.
    + intros k Hk _. now apply Hother.
    + intros _. apply Hother. discriminate.
    + intros _ Hempty. rewrite Hother in Hempty by discriminate.
      unfold user in Hempty. congruence.
  - destruct (account_name_expr (VDict kvs1) placeholder) as [v|e] eqn:Hexpr;
      [|discriminate].
    cbn [res_bind] in H. injection H as <-. split; [split|split; [|split]].
    + eexists. split; [reflexivity|]. now rewrite dict_lookup_set_same.
    + rewrite field_set_other by discriminate. apply field_set_same.
    + intros k Hk Hk'. rewrite field_set_other by congruence. now apply Hother.
    + intros Ht. unfold user in Ht. congruence.
    + intros Hph Hempty. rewrite field_set_same in Hempty.
      destruct (truthy (field (VDict kvs1) "email")) eqn:Hemail.
      * rewrite account_name_with_email in Hexpr by exact Hemail.
        rewrite !Hother in Hexpr by discriminate.
        rewrite Hother in Hemail by discriminate.
        destruct (truthy (field user "nickname")) eqn:H1; [congruence|].
        destruct (truthy (field user "name")) eqn:H2; [congruence|].
        destruct (truthy (field user "username")) eqn:H3; [congruence|].
        repeat split.
        destruct (field user "email") as [| | | |s| |]; try discriminate.
        cbn in Hexpr. injection Hexpr as <-. exists s. split; [reflexivity|].
        cbn in Hemail, Hempty. split.
        -- intros ->. discriminate.
        -- destruct (before_at s); [reflexivity|discriminate].
      * rewrite account_name_without_email in Hexpr by exact Hemail.
        injection Hexpr as <-. cbn in Hempty.
        destruct placeholder; [congruence|discriminate].
Qed.

(** X6.  A profile that the directory annotates keeps every field other
    than [is_primary] and [account_name]; [is_primary] is set as asked; a
    non-empty [account_name] it already has is kept; and the result has an
    [account_name] entry, which is empty only when the profile's email
    begins with "@" and it has no nickname, name or username (given a
    non-empty placeholder). *)
Theorem X6_annotation_keeps_the_profile (kvs : list (string * value))
    (is_primary : bool) (placeholder : string) (u : value) :
  annotate_profile (VDict kvs) is_primary placeholder = Ok u ->
  let user := VDict kvs in
  annotated is_primary u
  /\ (forall k, k <> "is_primary" -> k <> "account_name" -> field u k = field user k)
  /\ (truthy (field user "account_name") = true ->
      field u "account_name" = field user "account_name")
  /\ (placeholder <> "" -> truthy (field u "account_name") = false ->
      truthy (field user "nickname") = false
      /\ truthy (field user "name") = false
      /\ truthy (field user "username") = false
      /\ exists s, field user "email" = VStr s /\ s <> "" /\ before_at s = "").
Proof. exact (annotate_profile_facts kvs is_primary placeholder u). Qed.

Lemma annotate_profile_annotated (user : value) (is_primary : bool)
    (placeholder : string) (u : value) :
  annotate_profile user is_primary placeholder = Ok u -> annotated is_primary u.
Proof.
  intros H. destruct (annotate_profile_only_dicts _ _ _ _ H) as [kvs ->].
  exact (proj1 (annotate_profile_facts kvs is_primary placeholder u H)).
Qed.

Lemma primary_profile_annotated (primary_data : value) (ps : list value) :
  primary_profile primary_data = Ok ps ->
  (length ps <= 1)%nat /\ Forall (annotated true) ps.
Proof.
  unfold primary_profile.
  destruct (get primary_data "user_info") as [pu|e]; [|discriminate]. cbn [res_bind].
  destruct (truthy pu).
  - destruct (annotate_profile pu true "Profilo Primario") as [u|e] eqn:Hu;
      [|discriminate].
    cbn [res_bind]. intros [= <-]. split; [cbn; lia|].
    apply List.Forall_cons; [|apply List.Forall_nil].
    now apply annotate_profile_annotated in Hu.
  - intros [= <-]. split; [cbn; lia | apply List.Forall_nil].
Qed.

Lemma sub_user_loop_appends (users : list value) :
  forall idx profiles,
  exists new,
    sub_user_loop idx users profiles = profiles ++ new
    /\ Forall (annotated false) new
    /\ (length new <= length users)%nat.
Proof.
  induction users as [|user users IH]; intros idx profiles; simpl.
  - exists []. rewrite app_nil_r.
    split; [reflexivity | split; [apply List.Forall_nil | cbn; lia]].
  - destruct (annotate_profile user false _) as [u|e] eqn:Hu.
    + destruct (IH (idx + 1) (profiles ++ [u])) as (new & Heq & Hall & Hlen).
      exists (u :: new). rewrite Heq, <- app_assoc.
      split; [reflexivity | split].
      * apply List.Forall_cons; [|exact Hall].
        now apply annotate_profile_annotated in Hu.
      * cbn. lia.
    + exists []. rewrite app_nil_r.
      split; [reflexivity | split; [apply List.Forall_nil | cbn; lia]].
Qed.

Lemma sub_profiles_appends (sub_users_data : value) (profiles : list value) :
  exists new,
    sub_profiles sub_users_data profiles = profiles ++ new
    /\ Forall (annotated false) new.
Proof.
  unfold sub_profiles.
  assert (Hnone : exists new, profiles = profiles ++ new /\ Forall (annotated false) new).
  { exists []. rewrite app_nil_r. split; [reflexivity | apply List.Forall_nil]. }
  destruct (py_len _); [|exact Hnone].
  destruct (iterate _) as [users|e]; [|exact Hnone].
  destruct (sub_user_loop_appends users 0 profiles) as (new & Heq & Hall & _).
  now exists new.
Qed.

Section Directory.

Variable net : list request -> request -> reply.

(** One guarded request of the directory: the request goes out, and a
    failure of the request or of the handling of its answer gives the
    default. *)
Lemma guarded_get_run {A : Type} (path : string) (f : value -> res A) (dflt : A)
    (w : world) :
  try_except (bind (_get net path []) (fun data => lift (f data)))
             (fun _ => ret dflt) w
  = (Ok (match res_bind (answer_of (net (wire w) (GET path [] (auth_header (self w))))) f with
         | Ok a => a
         | Raise _ => dflt
         end),
     mkWorld (self w) (wire w ++ [GET path [] (auth_header (self w))])).
Proof.
  unfold try_except, bind. rewrite get_run.
  destruct (answer_of _) as [data|e]; cbn [res_bind]; [|reflexivity].
  unfold lift, ret. now destruct (f data).
Qed.

(** [async_list_all_profiles] with a token set, run. *)
Lemma list_all_profiles_run (w : world) :
  truthy (token (self w)) = true ->
  let rq1 := GET PATH_GET_PRIMARY_USER [] (auth_header (self w)) in
  let rq2 := GET PATH_SUB_USERS [] (auth_header (self w)) in
  let primary :=
    match res_bind (answer_of (net (wire w) rq1)) primary_profile with
    | Ok ps => ps
    | Raise _ => []
    end in
  async_list_all_profiles net w
  = (Ok (match answer_of (net (wire w ++ [rq1]) rq2) with
         | Ok sub_users_data => sub_profiles sub_users_data primary
         | Raise _ => primary
         end),
     mkWorld (self w) (wire w ++ directory_requests (self w))).
Proof.
  intros Ht rq1 rq2 primary. unfold async_list_all_profiles.
  rewrite (bind_ok _ _ _ _ _ (require_token_set w Ht)).
  rewrite (bind_ok _ _ _ _ _ (guarded_get_run _ primary_profile [] w)).
  fold rq1. fold primary.
  change (fun sub_users_data : value => ret (sub_profiles sub_users_data primary))
    with (fun sub_users_data : value =>
            @lift (list value) (Ok (sub_profiles sub_users_data primary))).
  rewrite guarded_get_run. cbn [self wire]. fold rq2.
  unfold directory_requests. fold rq1 rq2. rewrite <- app_assoc. cbn [app].
  now destruct (answer_of (net (wire w ++ [rq1]) rq2)).
Qed.

(** The profiles of the directory: at most one primary profile, first,
    then the sub-users. *)
Lemma list_all_profiles_shape (w : world) :
  truthy (token (self w)) = true ->
  exists primary subs,
    async_list_all_profiles net w
    = (Ok (primary ++ subs),
       mkWorld (self w) (wire w ++ directory_requests (self w)))
    /\ (length primary <= 1)%nat
    /\ Forall (annotated true) primary
    /\ Forall (annotated false) subs.
Proof.
  intros Ht. rewrite (list_all_profiles_run w Ht). cbv zeta.
  set (rq1 := GET PATH_GET_PRIMARY_USER [] (auth_header (self w))).
  set (primary := match res_bind (answer_of (net (wire w) rq1)) primary_profile with
                  | Ok ps => ps
                  | Raise _ => []
                  end).
  assert (Hp : (length primary <= 1)%nat /\ Forall (annotated true) primary).
  { unfold primary. destruct (res_bind _ primary_profile) as [ps|e] eqn:Hps.
    - destruct (answer_of (net (wire w) rq1)) as [d|e]; [|discriminate].
      now apply (primary_profile_annotated d).
    - split; [cbn; lia | apply List.Forall_nil]. }
  destruct Hp as [Hlen Hall]. clearbody primary.
  destruct (answer_of _) as [sd|e].
  - destruct (sub_profiles_appends sd primary) as (new & -> & Hnew).
    now exists primary, new.
  - exists primary, []. rewrite app_nil_r.
    split; [reflexivity | split; [exact Hlen | split; [exact Hall | apply List.Forall_nil]]].
Qed.

(** X7.  With a token set, the directory never raises, even when both of
    its requests fail: it attempts exactly the primary-user and the
    sub-user request, in this order, leaves the client as it was, and
    returns at most one profile marked primary, first, followed by
    profiles marked not primary; every returned profile is a mapping with
    an [account_name] entry. *)
Theorem X7_directory_never_raises (w : world) :
  truthy (token (self w)) = true ->
  exists primary subs,
    async_list_all_profiles net w
    = (Ok (primary ++ subs),
       mkWorld (self w) (wire w ++ directory_requests (self w)))
    /\ (length primary <= 1)%nat
    /\ Forall (annotated true) primary
    /\ Forall (annotated false) subs.
Proof. exact (list_all_profiles_shape w). Qed.

End Directory.

(** X8.  A sub-user entry that is not a JSON object ends the enumeration
    of the sub-users without an error: the entries before it are kept as
    they would be without it, the entries after it are dropped. *)
Theorem X8_bad_sub_user_ends_enumeration (good rest : list value) (bad : value)
    (profiles : list value) :
  isinstance_dict bad = false ->
  sub_profiles (VList (good ++ bad :: rest)) profiles
  = sub_profiles (VList good) profiles.
Proof.
  intros Hbad. unfold sub_profiles. cbn [sub_users_of py_len iterate].
  generalize 0 as idx. revert profiles.
  induction good as [|u good IH]; intros profiles idx; simpl.
  - destruct bad; try discriminate; reflexivity.
  - destruct (annotate_profile u false _); [apply IH | reflexivity].
Qed.

(** ** The result of a fetch cycle *)

Lemma returns_bind {A B : Type} (m : M A) (f : A -> M B)
    (P : A -> Prop) (Q : B -> Prop) :
  returns m P -> (forall a, P a -> returns (f a) Q) -> returns (bind m f) Q.
Proof.
  intros Hm Hf w b w'. unfold bind. destruct (m w) as [[a|e] w1] eqn:E; [|discriminate].
  exact (Hf a (Hm w a w1 E) w1 b w').
Qed.

Lemma returns_any {A : Type} (m : M A) : returns m (fun _ => True).
Proof. now intros w a w' _. Qed.

Lemma returns_ret {A : Type} (a : A) (P : A -> Prop) : P a -> returns (ret a) P.
Proof. intros H w a' w'. unfold ret. now intros [= <- _]. Qed.

Lemma returns_lift {A : Type} (r : res A) (P : A -> Prop) :
  (forall a, r = Ok a -> P a) -> returns (lift r) P.
Proof. intros H w a w'. unfold lift. intros [= -> _]. now apply H. Qed.

Lemma profile_record_for (profile us goals md ml r : value) :
  profile_record profile us goals md ml = Ok r -> record_for profile r.
Proof.
  unfold profile_record, record_for.
  destruct (truthy ml) eqn:Hml.
  - destruct (getitem_0 ml) as [last|e] eqn:Hlast; [|discriminate]. cbn [res_bind].
    destruct (get md "last_updated_at") as [lu|e]; [|discriminate]. cbn [res_bind].
    intros [= <-]. exists us, goals, last, ml, lu. now rewrite Hml.
  - cbn [res_bind].
    destruct (get md "last_updated_at") as [lu|e]; [|discriminate]. cbn [res_bind].
    intros [= <-]. exists us, goals, VNone, ml, lu. now rewrite Hml.
Qed.

Lemma select_profiles_filter (all_profiles : list value) (sel : list string) :
  forall l, select_profiles all_profiles sel = Ok l ->
            l = List.filter (selected sel) all_profiles.
Proof.
  induction all_profiles as [|p rest IH]; simpl; intros l.
  - now intros [= <-].
  - destruct (get p "user_id") as [uid|e] eqn:Hget; [|discriminate]. cbn [res_bind].
    destruct (select_profiles rest sel) as [more|e]; [|discriminate]. cbn [res_bind].
    intros [= <-]. rewrite (IH more eq_refl).
    assert (Hf : field p "user_id" = uid).
    { destruct p; try discriminate. unfold field. unfold get in Hget.
      now injection Hget as <-. }
    unfold selected at 3. now rewrite Hf.
Qed.

Section Result.

Variable net : list request -> request -> reply.

Lemma returns_fetch_profile (profile : value) :
  returns (fetch_profile net profile) (record_for profile).
Proof.
  unfold fetch_profile.
  apply (returns_bind _ _ _ _ (returns_any _)). intros metas _.
  apply (returns_bind _ _ _ _ (returns_any _)). intros p _.
  apply (returns_bind _ _ _ _ (returns_any _)). intros [[r0 r1] r2] _.
  unfold finish_profile.
  apply (returns_bind _ _ _ _ (returns_any _)). intros [md ml] _.
  apply (returns_bind _ _ _ _ (returns_any _)). intros _ _.
  apply returns_lift. intros r. apply profile_record_for.
Qed.

Lemma returns_fetch_profiles (ps : list value) :
  forall done,
    returns (fetch_profiles net ps done)
            (fun l => exists new, l = done ++ new /\ Forall2 record_for ps new).
Proof.
  induction ps as [|p ps IH]; intros done; simpl.
  - apply returns_ret. exists []. rewrite app_nil_r. split; [reflexivity | constructor].
  - apply (returns_bind _ _ _ _ (returns_fetch_profile p)). intros r Hr.
    intros w l w' Hrun. destruct (IH (done ++ [r]) w l w' Hrun) as (new & -> & Hnew).
    exists (r :: new). rewrite <- app_assoc. split; [reflexivity|].
    now constructor.
Qed.

(** X9.  The payload of a fetch cycle that returns has exactly the keys
    [profiles], [all_profiles], [device_binds] and [primary_user], in this
    order; [profiles] holds one record per profile of [all_profiles] that
    the selection keeps (every profile when the selection is absent or
    empty), in the order of the directory, each record carrying its
    profile as [user_info], and as [last_measurement] the first of its
    measurements or [None] when it has none. *)
Theorem X9_one_record_per_selected_profile (user_id : string)
    (sel : option (list string)) (w w' : world) (payload : value) :
  async_fetch_all net user_id sel w = (Ok payload, w') ->
  exists records all_profiles devices primary_user,
    payload = VDict [("profiles", VList records);
                     ("all_profiles", VList all_profiles);
                     ("device_binds", devices);
                     ("primary_user", primary_user)]
    /\ Forall2 record_for (chosen sel all_profiles) records.
Proof.
  enough (H : returns (async_fetch_all net user_id sel)
                (fun payload =>
                   exists records all_profiles devices primary_user,
                     payload = VDict [("profiles", VList records);
                                      ("all_profiles", VList all_profiles);
                                      ("device_binds", devices);
                                      ("primary_user", primary_user)]
                     /\ Forall2 record_for (chosen sel all_profiles) records))
    by exact (H w payload w').
  clear w w' payload.
  unfold async_fetch_all.
  apply (returns_bind _ _ _ _ (returns_any _)). intros _ _.
  apply (returns_bind _ _ _ _ (returns_any _)). intros [all_profiles primary_data] _.
  apply (returns_bind _ _ (fun ps => ps = chosen sel all_profiles)).
  { destruct sel as [[|s sel]|]; try (now apply returns_ret).
    apply returns_lift. intros l. apply select_profiles_filter. }
  intros ps ->.
  apply (returns_bind _ _ _ _ (returns_fetch_profiles _ [])).
  intros records (new & -> & Hnew). cbn [app].
  apply (returns_bind _ _ _ _ (returns_any _)). intros device_binds_data _.
  apply (returns_bind _ _ _ _ (returns_any _)). intros devices _.
  apply returns_ret. now exists new, all_profiles, devices, (py_or primary_data empty_dict).
Qed.

End Result.

(** ** The device join, as a whole *)

Lemma merge_model_extends (d m merged : value) :
  merge_model d m = Ok merged -> extends d merged.
Proof.
  unfold merge_model, extends. destruct d as [| | | | | |kvs]; try discriminate.
  destruct (truthy m).
  - destruct (get m "brand_info") as [bi|e]; [|discriminate]. cbn [res_bind].
    destruct (get _ "brand_name") as [bn|e]; [|discriminate]. cbn [res_bind].
    destruct (truthy bn); intros [= <-]; eexists _, _;
      (split; [reflexivity | split; [reflexivity|]]); intros k Hm Hb.
    + rewrite dict_lookup_set_other by congruence.
      now rewrite dict_lookup_set_other by congruence.
    + now rewrite dict_lookup_set_other by congruence.
  - intros [= <-]. now exists kvs, kvs.
Qed.

Lemma enrich_all_extends (l : lookups) (device_binds : list value) :
  forall enriched_devices,
    enrich_all l device_binds = Ok enriched_devices ->
    Forall2 extends device_binds enriched_devices.
Proof.
  induction device_binds as [|d rest IH]; simpl; intros enriched.
  - intros [= <-]. constructor.
  - unfold enrich at 1.
    destruct (match_model l d) as [m|e]; [|discriminate]. cbn [res_bind].
    destruct (merge_model d m) as [merged|e] eqn:Hm; [|discriminate]. cbn [res_bind].
    destruct (enrich_all l rest) as [more|e]; [|discriminate]. cbn [res_bind].
    intros [= <-]. constructor; [exact (merge_model_extends d m merged Hm) | now apply IH].
Qed.

(** The result of the device join, when it succeeds. *)
Lemma join_devices_result (device_binds_data devices : value) :
  join_devices device_binds_data = Ok devices ->
  exists device_binds enriched_devices,
    iterate (py_or (field device_binds_data "device_binds") empty_list)
    = Ok device_binds
    /\ devices
       = VDict [("device_binds", VList enriched_devices);
                ("device_models",
                  py_or (field device_binds_data "device_models") empty_list)]
    /\ Forall2 extends device_binds enriched_devices.
Proof.
  unfold join_devices.
  destruct (get device_binds_data "device_binds") as [db|e] eqn:Hdb; [|discriminate].
  cbn [res_bind].
  destruct (get device_binds_data "device_models") as [dm|e] eqn:Hdm; [|discriminate].
  cbn [res_bind].
  destruct (iterate (py_or dm empty_list)) as [models|e]; [|discriminate].
  cbn [res_bind].
  destruct (build_lookups models no_lookups) as [l|e]; [|discriminate]. cbn [res_bind].
  destruct (iterate (py_or db empty_list)) as [binds|e] eqn:Hb; [|discriminate].
  cbn [res_bind].
  destruct (enrich_all l binds) as [enriched|e] eqn:He; [|discriminate]. cbn [res_bind].
  intros [= <-].
  assert (Hfields : field device_binds_data "device_binds" = db
                    /\ field device_binds_data "device_models" = dm).
  { destruct device_binds_data; try discriminate. unfold field, get in *.
    injection Hdb as <-. injection Hdm as <-. now split. }
  destruct Hfields as [-> ->]. exists binds, enriched.
  split; [exact Hb | split; [reflexivity | exact (enrich_all_extends l binds enriched He)]].
Qed.

(** X10.  When the device join succeeds, its result has the keys
    [device_binds] and [device_models]: the device models are handed on as
    they came, and the enriched bindings are the bindings of the answer,
    as many and in the same order, each a mapping that agrees with its
    binding on every key other than [model_info] and [brand_name]. *)
Theorem X10_join_keeps_the_bindings (device_binds_data devices : value) :
  join_devices device_binds_data = Ok devices ->
  exists device_binds enriched_devices,
    iterate (py_or (field device_binds_data "device_binds") empty_list)
    = Ok device_binds
    /\ devices
       = VDict [("device_binds", VList enriched_devices);
                ("device_models",
                  py_or (field device_binds_data "device_models") empty_list)]
    /\ Forall2 extends device_binds enriched_devices.
Proof. exact (join_devices_result device_binds_data devices). Qed.

(** ** A cycle without a server *)

Section Outage.

Variable net : list request -> request -> reply.
Hypothesis net_unreachable : unreachable net.

Lemma answer_of_unreachable (h : list request) (rq : request) :
  exists e, answer_of (net h rq) = Raise (FeelfitApiError e).
Proof.
  destruct (net_unreachable h rq) as [e He]. exists e. unfold answer_of. now rewrite He.
Qed.

Lemma list_all_profiles_unreachable (w : world) :
  truthy (token (self w)) = true ->
  async_list_all_profiles net w
  = (Ok [], mkWorld (self w) (wire w ++ directory_requests (self w))).
Proof.
  intros Ht. rewrite (list_all_profiles_run net w Ht). cbv zeta.
  destruct (answer_of_unreachable (wire w)
              (GET PATH_GET_PRIMARY_USER [] (auth_header (self w)))) as [e1 ->].
  cbn [res_bind].
  now destruct (answer_of_unreachable
                  (wire w ++ [GET PATH_GET_PRIMARY_USER [] (auth_header (self w))])
                  (GET PATH_SUB_USERS [] (auth_header (self w)))) as [e2 ->].
Qed.

(** X11.  With a token set and a server that answers no request (every
    request fails: no answer, a status other than 200, or a body that is
    no JSON), a fetch cycle does not raise: it returns the payload without
    profiles and devices, after exactly four requests (primary user,
    sub-users, primary user again, device bindings) and with the client as
    it was. *)
Theorem X11_outage_gives_the_empty_payload (user_id : string)
    (sel : option (list string)) (w : world) :
  truthy (token (self w)) = true ->
  async_fetch_all net user_id sel w
  = (Ok empty_payload, mkWorld (self w) (wire w ++ outage_requests (self w))).
Proof.
  intros Ht. unfold async_fetch_all.
  rewrite (bind_ok _ _ _ _ _ (require_token_set w Ht)).
  assert (Hdir : fetch_directory net w
                 = (Ok ([], empty_dict),
                    mkWorld (self w)
                      (wire w ++ directory_requests (self w)
                       ++ [GET PATH_GET_PRIMARY_USER [] (auth_header (self w))]))).
  { unfold fetch_directory, try_except at 1.
    rewrite (bind_ok _ _ _ _ _ (list_all_profiles_unreachable w Ht)).
    set (w0 := mkWorld (self w) (wire w ++ directory_requests (self w))).
    destruct (answer_of_unreachable (wire w0)
                (GET PATH_GET_PRIMARY_USER [] (auth_header (self w)))) as [e He].
    assert (Hp : async_get_primary_user net w0
                 = (Raise (FeelfitApiError e),
                    mkWorld (self w)
                      (wire w0 ++ [GET PATH_GET_PRIMARY_USER [] (auth_header (self w))]))).
    { unfold async_get_primary_user.
      rewrite (bind_ok _ _ _ _ _ (require_token_set w0 Ht)), get_run.
      change (self w0) with (self w). now rewrite He. }
    unfold try_except. rewrite (bind_raise _ _ _ _ _ Hp). unfold ret, w0.
    cbn [wire]. now rewrite <- app_assoc. }
  rewrite (bind_ok _ _ _ _ _ Hdir).
  set (w1 := mkWorld (self w) _).
  assert (Hsel : (match sel with
                  | Some (s :: l) => lift (select_profiles [] (s :: l))
                  | _ => ret []
                  end) w1 = (Ok [], w1)).
  { now destruct sel as [[|s l]|]. }
  rewrite (bind_ok _ _ _ _ _ Hsel). cbn [fetch_profiles]. rewrite bind_ret.
  assert (Hbinds : try_except (async_list_device_binds net) (fun _ => ret empty_dict) w1
                   = (Ok empty_dict,
                      mkWorld (self w) (wire w ++ outage_requests (self w)))).
  { unfold try_except, async_list_device_binds.
    rewrite (bind_ok _ _ _ _ _ (require_token_set w1 Ht)), get_run. unfold w1.
    cbn [self wire].
    destruct (answer_of_unreachable
                (wire w ++ directory_requests (self w)
                 ++ [GET PATH_GET_PRIMARY_USER [] (auth_header (self w))])
                (GET PATH_DEVICE_BINDS [] (auth_header (self w)))) as [e ->].
    unfold ret, outage_requests. now rewrite <- !app_assoc. }
  rewrite (bind_ok _ _ _ _ _ Hbinds). reflexivity.
Qed.

End Outage.

Lemma dead_net_unreachable : unreachable dead_net.
Proof. intros h rq. now exists (TransportError "timeout"). Qed.

(** ** The cursor, from one cycle to the next *)

(** Lines 288-308 on a profile that is a mapping. *)
Lemma resolve_cursor_dict (c : client) (profile : value) :
  isinstance_dict profile = true ->
  let pid := py_str (field profile "user_id") in
  let known := known_updated_at (cursor_of c pid) in
  resolve_cursor (_last_measurements_meta c) profile
  = (ts <- primary_ts_of profile ;
     mid <- py_int (known_measurement_id (cursor_of c pid)) ;
     Ok (mkPlan pid known ts
           (if 0 <? known then known else if 0 <? ts then ts else 0) mid))%res.
Proof.
  intros Hd pid known. unfold resolve_cursor. rewrite (get_dict profile _ Hd).
  reflexivity.
Qed.

(** Lines 362-382 when [int] accepts the response's [last_updated_at]. *)
Lemma update_meta_accepted (pid : string) (md : value) (n : Z) (w : world) :
  isinstance_dict md = true ->
  py_int (py_or (field md "last_updated_at") (VInt 0)) = Ok n ->
  update_meta pid md w
  = (Ok tt,
     mkWorld (set_meta (store_cursor pid
                          (n, py_or (field md "last_measurement_id") (VInt 0))
                          (_last_measurements_meta (self w))) (self w))
             (wire w)).
Proof.
  intros Hd Hn. unfold update_meta. rewrite (returned_cursor_dict md Hd), Hn.
  reflexivity.
Qed.

Section Cursor.

Variable net : list request -> request -> reply.


(** X13.  A cursor that [int] rejects stops the profile for good.  The
    [last_measurement_id] of a measurements answer is stored as it comes
    when it is truthy; when [int] rejects it ([ValueError] for a text that
    is no number, [TypeError] for a list or a mapping, [OverflowError] for
    an infinite float), the next step of this profile raises before it
    sends any request, and leaves the client, and with it the stored
    cursor, as it is: it raises what [int] raised on the stored id, or,
    when lines 293-299 raise on the profile's own time stamp, what they
    raised. *)
Theorem X13_unreadable_cursor_stops_the_profile (profile md : value) (n : Z)
    (e : exn) (w : world) :
  isinstance_dict profile = true ->
  isinstance_dict md = true ->
  py_int (py_or (field md "last_updated_at") (VInt 0)) = Ok n ->
  truthy (field md "last_measurement_id") = true ->
  py_int (field md "last_measurement_id") = Raise e ->
  let w1 := snd (update_meta (py_str (field profile "user_id")) md w) in
  fetch_profile net profile w1
  = (Raise (match primary_ts_of profile with Ok _ => e | Raise e' => e' end), w1)
  /\ (e = ValueError \/ e = TypeError \/ e = OverflowError).
Proof.
  intros Hp Hmd Hn Hid He w1. split; [|exact (py_int_error _ _ He)].
  set (pid := py_str (field profile "user_id")) in *.
  assert (Hcur : last_measurement_id (cursor_of (self w1) pid)
                 = Some (field md "last_measurement_id")).
  { unfold w1. rewrite (update_meta_accepted pid md n w Hmd Hn). cbn [snd self].
    rewrite cursor_of_store_same. cbn [snd last_measurement_id]. unfold py_or.
    now rewrite !Hid. }
  unfold fetch_profile. rewrite bind_read, bind_lift.
  rewrite (resolve_cursor_dict (self w1) profile Hp). cbv zeta. fold pid.
  destruct (primary_ts_of profile) as [ts|e']; [|reflexivity].
  cbn [res_bind]. unfold known_measurement_id. rewrite Hcur.
  unfold py_or. now rewrite Hid, He.
Qed.

End Cursor.

(** ** The sensors on the payload *)

Lemma record_for_user_info (profile r : value) :
  record_for profile r -> get r "user_info" = Ok profile.
Proof. now intros (us & goals & last & ml & lu & -> & _). Qed.

Lemma is_own_profile (pid : string) (profile : value) :
  pid <> "" -> isinstance_dict profile = true ->
  is_own (Some pid) profile = Ok (own pid profile).
Proof.
  intros Hpid Hd. unfold is_own, own. apply String.eqb_neq in Hpid. rewrite Hpid.
  cbn [negb]. now rewrite (get_dict profile _ Hd).
Qed.

Lemma find_user_info_records (pid : string) (profiles records : list value) :
  pid <> "" ->
  Forall (fun p => isinstance_dict p = true /\ truthy p = true) profiles ->
  Forall2 record_for profiles records ->
  FeelfitUserSensor.find_user_info (Some pid) records
  = Ok (match List.find (own pid) profiles with Some p => p | None => VNone end).
Proof.
  intros Hpid Hall Hrec. induction Hrec as [|p r profiles records Hr Hrec IH].
  - reflexivity.
  - apply List.Forall_cons_iff in Hall as [[Hd Ht] Hall].
    cbn [FeelfitUserSensor.find_user_info List.find].
    rewrite (record_for_user_info p r Hr). cbn [res_bind]. unfold py_or. rewrite Ht.
    rewrite (is_own_profile pid p Hpid Hd). cbn [res_bind].
    destruct (own pid p); [reflexivity | exact (IH Hall)].
Qed.

(** X14.  What a user sensor shows on the payload of a cycle.  With the
    records of the payload made for profiles that are non-empty mappings,
    the sensor of profile [pid] shows the entry [_attr_key] of the first
    fetched profile whose [user_id], as a string, is [pid]; when no
    fetched profile has this id (it was deselected, or it is gone), the
    sensor does not show [None] but the entry of the first fetched
    profile, whoever that is; it shows [None] only when no profile was
    fetched or the entry is missing. *)
Theorem X14_user_sensor_falls_back_on_first_profile (_attr_key pid : string)
    (data : value) (profiles records : list value) :
  pid <> "" ->
  isinstance_dict data = true ->
  field data "profiles" = VList records ->
  Forall2 record_for profiles records ->
  Forall (fun p => isinstance_dict p = true /\ truthy p = true) profiles ->
  FeelfitUserSensor.native_value _attr_key (Some pid) data
  = Ok (match shown pid profiles with
        | Some p => field p _attr_key
        | None => VNone
        end).
Proof.
  intros Hpid Hdata Hfield Hrec Hall. unfold FeelfitUserSensor.native_value.
  assert (Hprofiles : payload_profiles data = Ok (VList records)).
  { unfold payload_profiles.
    assert (py_or data empty_dict = data) as ->.
    { destruct data as [| | | | | |[|kv kvs]]; try discriminate; reflexivity. }
    rewrite (get_dict data _ Hdata), Hfield. cbn [res_bind]. now destruct records. }
  rewrite Hprofiles. cbn [res_bind iterate].
  rewrite (find_user_info_records pid profiles records Hpid Hall Hrec). cbn [res_bind].
  unfold shown. destruct (List.find (own pid) profiles) as [p|] eqn:Hfind.
  - apply List.find_some in Hfind as [Hin _].
    rewrite List.Forall_forall in Hall. destruct (Hall p Hin) as [Hd Ht].
    rewrite Ht. cbn [negb andb res_bind]. rewrite Ht. cbn [negb].
    exact (get_dict p _ Hd).
  - destruct Hrec as [|p0 r0 profiles records Hr Hrec]; [reflexivity|].
    apply List.Forall_cons_iff in Hall as [[Hd Ht] _].
    cbn [truthy negb andb getitem_0 res_bind List.head].
    rewrite (record_for_user_info p0 r0 Hr). cbn [res_bind]. unfold py_or.
    rewrite Ht. cbn [res_bind]. rewrite Ht. cbn [negb]. exact (get_dict p0 _ Hd).
Qed.

Lemma forall2_nth_error {A B : Type} (P : A -> B -> Prop) (l : list A) (k : list B) :
  Forall2 P l k ->
  forall i, match List.nth_error l i, List.nth_error k i with
            | Some x, Some y => P x y
            | None, None => True
            | _, _ => False
            end.
Proof.
  induction 1 as [|x y l k Hxy _ IH]; intros [|i]; cbn; trivial. apply IH.
Qed.

Lemma forall2_length {A B : Type} (P : A -> B -> Prop) (l : list A) (k : list B) :
  Forall2 P l k -> List.length k = List.length l.
Proof. induction 1; cbn; congruence. Qed.

(** The name of an enriched binding is the name of its binding. *)
Lemma extends_device_name (d merged : value) :
  extends d merged ->
  (scale_name <- get merged "scale_name" ;
   if truthy scale_name then Ok scale_name
   else internal_model <- get merged "internal_model" ;
        if truthy internal_model then Ok internal_model
        else get merged "mac")%res
  = Ok (device_name d).
Proof.
  intros (kvs & kvs' & -> & -> & Hsame). rewrite !get_field. cbn [res_bind].
  unfold device_name, py_or, field.
  rewrite !Hsame by discriminate.
  destruct (truthy (default VNone (dict_lookup kvs "scale_name"))); [reflexivity|].
  now destruct (truthy (default VNone (dict_lookup kvs "internal_model"))).
Qed.

(** X15.  The device join never changes what a device sensor shows.  On a
    payload whose [device_binds] entry is the result of the join, the
    device sensor with index [i] shows the [scale_name] of the [i]-th
    binding of the server's answer, else its [internal_model], else its
    [mac], and [None] when the answer has no [i]-th binding. *)
Theorem X15_device_sensor_shows_the_binding (device_binds_data devices data : value)
    (i : nat) :
  join_devices device_binds_data = Ok devices ->
  isinstance_dict data = true ->
  field data "device_binds" = devices ->
  exists device_binds,
    iterate (py_or (field device_binds_data "device_binds") empty_list)
    = Ok device_binds
    /\ FeelfitDeviceSensor.native_value (Z.of_nat i) data
       = Ok (match List.nth_error device_binds i with
             | Some d => device_name d
             | None => VNone
             end).
Proof.
  intros Hjoin Hdata Hfield.
  destruct (join_devices_result device_binds_data devices Hjoin)
    as (binds & enriched & Hbinds & Hdev & Hext).
  exists binds. split; [exact Hbinds|]. unfold FeelfitDeviceSensor.native_value.
  assert (Hpayload : get_default (py_or data empty_dict) "device_binds" empty_dict
                     = Ok devices).
  { destruct data as [| | | | | |kvs]; try discriminate.
    destruct kvs as [|kv kvs]; [now rewrite Hdev in Hfield|].
    unfold py_or. cbn [truthy get_default]. unfold field in Hfield.
    destruct (dict_lookup (kv :: kvs) "device_binds"); [now rewrite <- Hfield|].
    now rewrite Hdev in Hfield. }
  rewrite Hpayload, Hdev. cbn [res_bind]. rewrite get_field. cbn [res_bind].
  change (field (VDict _) "device_binds") with (VList enriched).
  assert (py_or (VList enriched) empty_list = VList enriched) as ->
    by (now destruct enriched).
  cbn [py_len res_bind]. rewrite (forall2_length _ _ _ Hext).
  pose proof (forall2_nth_error _ _ _ Hext i) as Hnth.
  destruct (List.nth_error binds i) as [d|] eqn:Hd.
  - assert (Hlt : (i < List.length binds)%nat)
      by (apply List.nth_error_Some; congruence).
    assert ((Z.of_nat i <? Z.of_nat (List.length binds)) = true) as -> by lia.
    unfold getitem. rewrite (forall2_length _ _ _ Hext).
    assert ((Z.of_nat i <? 0) = false) as -> by lia.
    assert (((Z.of_nat i <? 0) || (Z.of_nat (List.length binds) <=? Z.of_nat i)) = false)
      as -> by lia.
    rewrite Nat2Z.id.
    destruct (List.nth_error enriched i) as [merged|]; [|contradiction].
    cbn [res_bind]. exact (extends_device_name d merged Hnth).
  - assert (Hge : (List.length binds <= i)%nat) by (now apply List.nth_error_None).
    assert ((Z.of_nat i <? Z.of_nat (List.length binds)) = false) as -> by lia.
    reflexivity.
Qed.

Lemma payload_profiles_records (data : value) (records : list value) :
  isinstance_dict data = true ->
  field data "profiles" = VList records ->
  payload_profiles data = Ok (VList records).
Proof.
  intros Hdata Hfield. unfold payload_profiles.
  assert (py_or data empty_dict = data) as ->.
  { destruct data as [| | | | | |[|kv kvs]]; try discriminate; reflexivity. }
  rewrite (get_dict data _ Hdata), Hfield. cbn [res_bind]. now destruct records.
Qed.

Lemma find_goals_none (pid : string) (profiles records : list value) :
  pid <> "" ->
  Forall (fun p => isinstance_dict p = true /\ truthy p = true) profiles ->
  Forall2 (fun p r => record_for p r
                      /\ (own pid p = true ->
                          FeelfitGoalSensor.goals_list_of r = Ok empty_list))
          profiles records ->
  FeelfitGoalSensor.find_goals (Some pid) records = Ok empty_list.
Proof.
  intros Hpid Hall Hrec. induction Hrec as [|p r profiles records [Hr Hg] Hrec IH].
  - reflexivity.
  - apply List.Forall_cons_iff in Hall as [[Hd Ht] Hall].
    cbn [FeelfitGoalSensor.find_goals].
    rewrite (record_for_user_info p r Hr). cbn [res_bind]. unfold py_or. rewrite Ht.
    rewrite (is_own_profile pid p Hpid Hd). cbn [res_bind].
    destruct (own pid p); [exact (Hg eq_refl) | exact (IH Hall)].
Qed.

(** X16.  A goal sensor without goals of its own shows another profile's
    goal.  When every fetched record of profile [pid] has an empty goal
    list (or no fetched record is of this profile), the goal sensor of
    [pid] shows the goal of its type of the first fetched profile, not
    [None]. *)
Theorem X16_goal_sensor_falls_back_on_first_profile (_goal_type pid : string)
    (data p0 r0 : value) (profiles records : list value) :
  pid <> "" ->
  isinstance_dict data = true ->
  field data "profiles" = VList (r0 :: records) ->
  Forall (fun p => isinstance_dict p = true /\ truthy p = true) (p0 :: profiles) ->
  Forall2 (fun p r => record_for p r
                      /\ (own pid p = true ->
                          FeelfitGoalSensor.goals_list_of r = Ok empty_list))
          (p0 :: profiles) (r0 :: records) ->
  FeelfitGoalSensor.native_value _goal_type (Some pid) data
  = (goals_list <- FeelfitGoalSensor.goals_list_of r0 ;
     goals <- iterate goals_list ;
     FeelfitGoalSensor.goal_value _goal_type goals)%res.
Proof.
  intros Hpid Hdata Hfield Hall Hrec. unfold FeelfitGoalSensor.native_value.
  rewrite (payload_profiles_records data _ Hdata Hfield). cbn [res_bind iterate].
  now rewrite (find_goals_none pid _ _ Hpid Hall Hrec).
Qed.

(** ** The number of requests of a cycle *)

Lemma spends_weaken {A : Type} (m : M A) (P Q : res A -> nat -> Prop) :
  spends m P -> (forall r n, P r n -> Q r n) -> spends m Q.
Proof.
  intros Hm HPQ w Ht. destruct (Hm w Ht) as (Ht' & sent & Hw & HP).
  split; [exact Ht'|]. exists sent. split; [exact Hw | now apply HPQ].
Qed.







Section Spends.

Variable net : list request -> request -> reply.












End Spends.

(** ** The client's [user_info] over a cycle *)

Lemma keeps_try_except {X A : Type} (g : client -> X) (m : M A) (h : exn -> M A) :
  keeps g m -> (forall e, keeps g (h e)) -> keeps g (try_except m h).
Proof.
  intros Hm Hh w. unfold try_except. specialize (Hm w).
  destruct (m w) as [[a|e] w1]; cbn [snd] in *; [exact Hm|]. now rewrite Hh.
Qed.

Lemma keeps_caught {X A : Type} (g : client -> X) (m : M A) :
  keeps g m -> keeps g (caught m).
Proof. intros Hm w. unfold caught. specialize (Hm w). now destruct (m w). Qed.

Lemma keeps_require_token {X : Type} (g : client -> X) : keeps g require_token.
Proof.
  apply keeps_quiet. intros w. destruct (truthy (token (self w))) eqn:Ht.
  - now rewrite (require_token_set w Ht).
  - now rewrite (require_token_unset w Ht).
Qed.

Ltac keeps_step :=
  first
    [ apply keeps_bind; [|intros ?]
    | apply keeps_try_except; [|intros ?]
    | apply keeps_caught
    | apply keeps_require_token
    | apply keeps_modify; intros ?; reflexivity
    | apply keeps_quiet; intros ?; first [reflexivity | now rewrite get_run]
    | match goal with
      | |- keeps _ (match ?x with _ => _ end) => destruct x
      end ].

Section UserInfo.

Variable net : list request -> request -> reply.

Lemma keeps_user_info_fetch_profile (profile : value) :
  keeps user_info (fetch_profile net profile).
Proof.
  unfold fetch_profile, gather_profile, finish_profile, fallback_measurements,
    update_meta, async_get_user_settings, async_list_goals,
    async_get_last_measurements.
  repeat keeps_step.
Qed.

Lemma keeps_user_info_fetch_profiles (ps : list value) :
  forall done, keeps user_info (fetch_profiles net ps done).
Proof.
  induction ps as [|p ps IH]; intros done; cbn [fetch_profiles].
  - now apply keeps_quiet.
  - apply keeps_bind; [apply keeps_user_info_fetch_profile | intros r; apply IH].
Qed.

(** X18.  What a cycle does to the client's [user_info].  The primary-user
    request that follows the directory decides alone: when it answers a
    mapping that has a [user_info] key, the client's [user_info] becomes
    that entry if it is non-empty and stays as it was if it is empty;
    when the request fails or answers anything else, it stays as it was.
    Nothing else in the cycle writes to it, whatever the outcome. *)
Theorem X18_cycle_refreshes_user_info (user_id : string) (sel : option (list string))
    (w : world) :
  truthy (token (self w)) = true ->
  user_info (self (snd (async_fetch_all net user_id sel w)))
  = match answer_of (net (wire w ++ directory_requests (self w))
                       (GET PATH_GET_PRIMARY_USER [] (auth_header (self w)))) with
    | Ok (VDict kvs) =>
        match dict_lookup kvs "user_info" with
        | Some ui => py_or ui (user_info (self w))
        | None => user_info (self w)
        end
    | _ => user_info (self w)
    end.
Proof.
  intros Ht. unfold async_fetch_all.
  rewrite (bind_ok _ _ _ _ _ (require_token_set w Ht)).
  assert (Hrest : forall (f : list value * value -> M value),
            (forall dir, keeps user_info (f dir)) ->
            user_info (self (snd (bind (fetch_directory net) f w)))
            = user_info (self (snd (fetch_directory net w)))).
  { intros f Hf. unfold bind.
    destruct (fetch_directory net w) as [[dir|e] w1]; cbn [snd]; [apply Hf | reflexivity]. }
  rewrite Hrest.
  - destruct (list_all_profiles_shape net w Ht) as (primary & subs & Hdir & _).
    unfold fetch_directory, try_except at 1.
    rewrite (bind_ok _ _ _ _ _ Hdir).
    set (w0 := mkWorld (self w) (wire w ++ directory_requests (self w))).
    assert (Hp : async_get_primary_user net w0
                 = (answer_of (net (wire w ++ directory_requests (self w))
                                 (GET PATH_GET_PRIMARY_USER [] (auth_header (self w)))),
                    mkWorld (self w)
                      (wire w0 ++ [GET PATH_GET_PRIMARY_USER [] (auth_header (self w))]))).
    { unfold async_get_primary_user.
      now rewrite (bind_ok _ _ _ _ _ (require_token_set w0 Ht)), get_run. }
    unfold try_except.
    destruct (answer_of _) as [primary_data|e].
    + rewrite (bind_ok _ _ _ _ _ Hp).
      destruct primary_data as [| | | | | |kvs]; try reflexivity.
      now destruct (dict_lookup kvs "user_info").
    + now rewrite (bind_raise _ _ _ _ _ Hp).
  - intros [all_profiles primary_data]. unfold async_list_device_binds.
    repeat first [ apply keeps_user_info_fetch_profiles | keeps_step ].
Qed.

End UserInfo.

End Properties.

(** * Instances

    The counterexamples to the statements that needed an amendment, and an
    instance of each theorem that has a hypothesis.  They run on the
    scenarios, under the interpreter [ascii_only]. *)

#[local] Existing Instance ascii_only.



(** C2 as stated fails: the answer carries the non-zero id 7 next to a time
    stamp that [int] rejects; the cycle completes and stores neither. *)
Lemma C2_id_dropped_with_unreadable_stamp :
  field unreadable_stamp "last_measurement_id" = VInt 7
  /\ is_ok (fst (async_fetch_all net_unreadable_stamp "7" None signed_in_world)) = true
  /\ last_measurement_id
       (cursor_of (self (snd (async_fetch_all net_unreadable_stamp "7" None
                                signed_in_world))) "7")
     = None.
Proof. repeat split; vm_compute; reflexivity. Qed.

Lemma C2_witness :
  let c' := self (snd (update_meta "7" one_measurement signed_in_world)) in
  last_updated_at (cursor_of c' "7") = Some 500
  /\ last_measurement_id (cursor_of c' "7") = Some (VInt 9).
Proof.
  exact (proj1 (C2_cursor_update net_one_measurement "7" one_measurement
                  signed_in_world "7" None eq_refl) 500 eq_refl).
Defined.

(** C4 as stated fails: the model and the binding have the same (empty)
    [scale_name] and different internal models, so the binding has no
    composite match and a match by [scale_name] alone; the join gives it
    nothing. *)
Lemma C4_empty_scale_name_not_joined :
  first_composite [unnamed_scale_model] (model_key unnamed_scale_device) = None
  /\ List.find (fun m => key_eqb (field m "scale_name")
                                 (field unnamed_scale_device "scale_name"))
               [unnamed_scale_model]
     = Some unnamed_scale_model
  /\ join_devices (devices_answer [unnamed_scale_device] [unnamed_scale_model])
     = Ok (VDict [("device_binds", VList [unnamed_scale_device]);
                  ("device_models", VList [unnamed_scale_model])]).
Proof. repeat split. Qed.

Lemma C4_witness :
  enrich (lookups_of two_models_A) (device "A" "unknown")
  = merge_model (device "A" "unknown") (model "A" "m1" "X").
Proof.
  exact (proj1 (C4_device_join two_models_A (lookups_of two_models_A)
                  (device "A" "unknown") eq_refl eq_refl eq_refl)).
Defined.



Lemma C6_witness :
  async_get_primary_user net_one_measurement fresh_world
  = (Raise (FeelfitApiError NotAuthenticated), fresh_world)
  /\ async_fetch_all net_one_measurement "7" None fresh_world
     = (Raise (FeelfitApiError NotAuthenticated), fresh_world).
Proof.
  pose proof (C6_unauthenticated_call_raises net_one_measurement fresh_world
                "7" 0 0 None eq_refl) as H.
  split; [exact (proj1 H) | exact (proj2 (proj2 (proj2 (proj2 (proj2 (proj2 H))))))].
Defined.

(** C7 as stated fails: an answer with the accepted code "0" whose [data]
    is a list makes [async_login] raise [AttributeError]. *)
Lemma C7_accepted_code_still_raises :
  code_accepted login_data_is_list = true
  /\ fst (async_login (constant_net (http_ok login_data_is_list)) no_float_of_str
            1000.5%float "secret" fresh_world)
     = Raise AttributeError.
Proof. split; reflexivity. Qed.

Lemma C7_witness :
  fst (async_login (constant_net (http_ok login_abc_3600)) no_float_of_str
         1000.5%float "secret" fresh_world)
  = Ok (py_or (field login_abc_3600 "data") empty_dict).
Proof.
  refine (proj1 (proj2 (C7_login_code_check
            (constant_net (http_ok login_abc_3600)) no_float_of_str
            1000.5%float "secret" fresh_world "" _ _ _)) _ _).
  - simpl. lia.
  - reflexivity.
  - reflexivity.
  - reflexivity.
Defined.

(** C8 as stated fails: with [remaining_time] absent the expiry is not left
    unknown ([None]); it is set to [now + 0.0]. *)
Lemma C8_absent_remaining_time_sets_expiry :
  token_expires
    (self (snd (async_login (constant_net (http_ok login_abc_no_remaining))
                  no_float_of_str 1000.5%float "secret" fresh_world)))
  = Some 1000.5%float.
Proof. reflexivity. Qed.

Lemma C8_witness :
  let c' := self (snd (async_login (constant_net (http_ok login_abc_3600))
                         no_float_of_str 1000.5%float "secret" fresh_world)) in
  token c' = VStr "abc" /\ token_expires c' = Some (1000.5 + 3600)%float.
Proof.
  pose proof (C8_login_token_and_expiry
                (constant_net (http_ok login_abc_3600)) no_float_of_str
                1000.5%float "secret" fresh_world "" _ (field login_abc_3600 "data")
                ltac:(simpl; lia) eq_refl eq_refl) as H.
  destruct H as (_ & H & _). specialize (H eq_refl).
  destruct H as (Htok & _ & Hexp & _).
  split; [exact Htok | exact (Hexp 3600 eq_refl)].
Defined.

Lemma C9_witness :
  fst (async_fetch_all net_one_measurement "7" None
         (snd (async_fetch_all net_one_measurement "7" None caught_up_world)))
  = fst (async_fetch_all net_one_measurement "7" None caught_up_world).
Proof.
  refine (proj1 (C9_unchanged_cycle_repeats net_one_measurement "7" None
                   caught_up_world _ _)).
  - intros h1 h2 rq. reflexivity.
  - vm_compute. reflexivity.
Defined.

Lemma C10_witness :
  enrich (lookups_of two_models_A) (VDict [("internal_model", VStr "m1")])
  = Ok (VDict [("internal_model", VStr "m1")]).
Proof.
  exact (proj1 (proj2 (proj2 (proj2
           (C10_no_fallback_without_scale_name two_models_A (lookups_of two_models_A)
              [("internal_model", VStr "m1")] eq_refl)) eq_refl eq_refl))).
Defined.

Lemma X3_witness :
  self (snd (async_login (constant_net server_error) no_float_of_str 1000.5%float
               "secret" fresh_world))
  = self fresh_world.
Proof.
  exact (proj1 (X3_failed_login_changes_nothing (constant_net server_error)
                  no_float_of_str 1000.5%float "secret" fresh_world
                  (HttpError 500 "Internal Server Error") eq_refl)).
Defined.

Lemma X5_witness :
  fst (async_login (constant_net (http_ok login_abc_soon)) no_float_of_str
         1000.5%float "secret" fresh_world)
  = Raise ValueError
  /\ token (self (snd (async_login (constant_net (http_ok login_abc_soon))
                         no_float_of_str 1000.5%float "secret" fresh_world)))
     = VStr "abc"
  /\ token_expires (self (snd (async_login (constant_net (http_ok login_abc_soon))
                                 no_float_of_str 1000.5%float "secret" fresh_world)))
     = None
  /\ user_info (self (snd (async_login (constant_net (http_ok login_abc_soon))
                             no_float_of_str 1000.5%float "secret" fresh_world)))
     = empty_dict.
Proof.
  exact (X5_login_replaces_token_before_failing
           (constant_net (http_ok login_abc_soon)) no_float_of_str
           1000.5%float "secret" fresh_world "" _ ValueError
           ltac:(simpl; lia) eq_refl eq_refl eq_refl eq_refl eq_refl eq_refl).
Defined.

Lemma X6_witness :
  annotated false
    (VDict [("user_id", VInt 9); ("email", VStr "bob@x.com");
            ("is_primary", VBool false); ("account_name", VStr "bob")]).
Proof.
  exact (proj1 (X6_annotation_keeps_the_profile
                  [("user_id", VInt 9); ("email", VStr "bob@x.com")] false "Profilo 2"
                  _ eq_refl)).
Defined.

Lemma X7_witness :
  exists primary subs,
    async_list_all_profiles net_nicknames signed_in_world
    = (Ok (primary ++ subs),
       mkWorld (self signed_in_world) (directory_requests (self signed_in_world)))
    /\ (length primary <= 1)%nat
    /\ Forall (annotated true) primary
    /\ Forall (annotated false) subs.
Proof. exact (X7_directory_never_raises net_nicknames signed_in_world eq_refl). Defined.

Lemma X8_witness :
  sub_profiles (VList ([VDict [("user_id", VInt 8); ("nickname", VStr "Ann")]]
                        ++ VInt 5 :: [VDict [("user_id", VInt 9)]])) []
  = sub_profiles (VList [VDict [("user_id", VInt 8); ("nickname", VStr "Ann")]]) [].
Proof.
  exact (X8_bad_sub_user_ends_enumeration
           [VDict [("user_id", VInt 8); ("nickname", VStr "Ann")]]
           [VDict [("user_id", VInt 9)]] (VInt 5) [] eq_refl).
Defined.

Lemma X9_witness :
  exists records all_profiles devices primary_user,
    match fst (async_fetch_all net_one_measurement "7" (Some ["7"]) signed_in_world) with
    | Ok payload => payload
    | Raise _ => VNone
    end
    = VDict [("profiles", VList records);
             ("all_profiles", VList all_profiles);
             ("device_binds", devices);
             ("primary_user", primary_user)]
    /\ Forall2 record_for (chosen (Some ["7"]) all_profiles) records.
Proof.
  refine (X9_one_record_per_selected_profile net_one_measurement "7" (Some ["7"])
            signed_in_world
            (snd (async_fetch_all net_one_measurement "7" (Some ["7"]) signed_in_world))
            _ _).
  vm_compute. reflexivity.
Defined.

Lemma X10_witness :
  exists device_binds enriched_devices,
    iterate (py_or (field (devices_answer [device "A" "m1"] two_models_A)
                      "device_binds") empty_list)
    = Ok device_binds
    /\ VDict [("device_binds",
                VList [VDict [("scale_name", VStr "A"); ("internal_model", VStr "m1");
                              ("model_info", model "A" "m1" "X");
                              ("brand_name", VStr "X")]]);
              ("device_models", VList two_models_A)]
       = VDict [("device_binds", VList enriched_devices);
                ("device_models",
                  py_or (field (devices_answer [device "A" "m1"] two_models_A)
                           "device_models") empty_list)]
    /\ Forall2 extends device_binds enriched_devices.
Proof.
  exact (X10_join_keeps_the_bindings (devices_answer [device "A" "m1"] two_models_A)
           _ eq_refl).
Defined.

Lemma X11_witness :
  async_fetch_all dead_net "7" None signed_in_world
  = (Ok empty_payload,
     mkWorld (self signed_in_world) (outage_requests (self signed_in_world))).
Proof.
  exact (X11_outage_gives_the_empty_payload dead_net dead_net_unreachable "7" None
           signed_in_world eq_refl).
Defined.


Lemma X13_witness :
  fetch_profile net_one_measurement profile_7
    (snd (update_meta "7" unreadable_id signed_in_world))
  = (Raise ValueError, snd (update_meta "7" unreadable_id signed_in_world))
  /\ (ValueError = ValueError \/ ValueError = TypeError \/ ValueError = OverflowError).
Proof.
  exact (X13_unreadable_cursor_stops_the_profile net_one_measurement profile_7
           unreadable_id 500 ValueError signed_in_world
           eq_refl eq_refl eq_refl eq_refl eq_refl).
Defined.

Lemma X14_witness :
  FeelfitUserSensor.native_value "nickname" (Some "8")
    (VDict [("profiles",
              VList [record_of profile_7 empty_dict empty_dict VNone empty_list VNone])])
  = Ok (VStr "Bob").
Proof.
  refine (X14_user_sensor_falls_back_on_first_profile "nickname" "8"
            (VDict [("profiles",
                      VList [record_of profile_7 empty_dict empty_dict VNone
                               empty_list VNone])])
            [profile_7]
            [record_of profile_7 empty_dict empty_dict VNone empty_list VNone]
            _ eq_refl eq_refl _ _).
  - discriminate.
  - constructor; [|constructor].
    exists empty_dict, empty_dict, VNone, empty_list, VNone. now split.
  - constructor; [now split | constructor].
Defined.

Lemma X15_witness :
  exists device_binds,
    iterate (py_or (field (devices_answer [device "A" "m1"] two_models_A)
                      "device_binds") empty_list)
    = Ok device_binds
    /\ FeelfitDeviceSensor.native_value (Z.of_nat 0)
         (VDict [("device_binds",
                   VDict [("device_binds",
                            VList [VDict [("scale_name", VStr "A");
                                          ("internal_model", VStr "m1");
                                          ("model_info", model "A" "m1" "X");
                                          ("brand_name", VStr "X")]]);
                          ("device_models", VList two_models_A)])])
       = Ok (match List.nth_error device_binds 0 with
             | Some d => device_name d
             | None => VNone
             end).
Proof.
  exact (X15_device_sensor_shows_the_binding
           (devices_answer [device "A" "m1"] two_models_A) _
           (VDict [("device_binds",
                     VDict [("device_binds",
                              VList [VDict [("scale_name", VStr "A");
                                            ("internal_model", VStr "m1");
                                            ("model_info", model "A" "m1" "X");
                                            ("brand_name", VStr "X")]]);
                            ("device_models", VList two_models_A)])])
           0 eq_refl eq_refl eq_refl).
Defined.

Lemma X16_witness :
  FeelfitGoalSensor.native_value "weight" (Some "8")
    (VDict [("profiles", VList [record_7_with_goal; record_8_without_goals])])
  = Ok (VInt 70).
Proof.
  refine (X16_goal_sensor_falls_back_on_first_profile "weight" "8"
            (VDict [("profiles", VList [record_7_with_goal; record_8_without_goals])])
            profile_7 record_7_with_goal [profile_8] [record_8_without_goals]
            _ eq_refl eq_refl _ _).
  - discriminate.
  - repeat (constructor; [now split|]). constructor.
  - constructor; [|constructor; [|constructor]].
    + split; [|discriminate]. do 5 eexists. now split.
    + split; [|reflexivity]. do 5 eexists. now split.
Defined.


Lemma X18_witness :
  user_info (self (snd (async_fetch_all net_one_measurement "7" None signed_in_world)))
  = profile_7.
Proof.
  exact (X18_cycle_refreshes_user_info net_one_measurement "7" None signed_in_world
           eq_refl).
Defined.

